(** * Imaging pipeline: classification, calibration cache, quality gate, stacking

    A shallow embedding of the parts of [Sort_files.py], [quality_check.py]
    and [main_pipeline.py] that decide how raw frames are classified, when
    master calibration frames are rebuilt, which aligned frames enter a stack
    and what is written into the stack header.

    Conventions.
    - Python exceptions are values of [Py.exn]; a function that can raise
      returns a [Py.result].
    - Python [float]s are exact rationals ([Q]): rounding, [inf] and [nan]
      are left out.  The two places where the source takes a square root
      ([np.std], [np.sqrt]) produce a value of the form
      [base + coef * sqrt rad]; such values are kept symbolically ([Surd.t])
      and compared exactly, so that every definition computes.  The lemmas
      [gtb_real] and [eqb_real] relate the comparisons to those of the real
      numbers.
    - A Python [dict] is an association list in insertion order (the order
      [for k in d] visits the keys); FITS headers and the file system, which
      are only looked up, are [gmap]s. *)

From Stdlib Require Import Reals Qreals Lra.
From Stdlib Require Import ZArith QArith Qabs Lia Lqa List Bool Ascii String.
From Stdlib Require Import Permutation Sorted.
From stdpp Require Import gmap strings list.

Local Open Scope Z_scope.

(** ** Python base semantics used by the three modules *)

Module Py.

Inductive exn : Type :=
| IndexError
| KeyError
| ValueError
| TypeError
| AttributeError
| OSError
| SystemExit (code : Z).

Inductive result (A : Type) : Type :=
| Ok (a : A)
| Raise (e : exn).
Arguments Ok {A} a.
Arguments Raise {A} e.

Definition bind {A B : Type} (m : result A) (k : A -> result B) : result B :=
  match m with
  | Ok a => k a
  | Raise e => Raise e
  end.

Declare Scope py_scope.
Delimit Scope py_scope with py.
Notation "'let*' p ':=' m 'in' k" := (bind m (fun p => k))
  (at level 10, p pattern, m at level 100, k at level 200) : py_scope.
Local Open Scope py_scope.

(** [[f(x) for x in l]] where [f] may raise: the first exception wins. *)
Fixpoint mapM {A B : Type} (f : A -> result B) (l : list A) : result (list B) :=
  match l with
  | [] => Ok []
  | x :: l' => let* y := f x in let* ys := mapM f l' in Ok (y :: ys)
  end.

(** A [for] loop whose body updates the loop state and may raise. *)
Fixpoint foldM {S B : Type} (body : S -> B -> result S) (l : list B) (s : S)
  : result S :=
  match l with
  | [] => Ok s
  | x :: l' => let* s' := body s x in foldM body l' s'
  end.

(** [l[i]]: a negative index counts from the end, anything outside
    [-len l <= i < len l] raises [IndexError]. *)
Definition index {A : Type} (l : list A) (i : Z) : result A :=
  let n := Z.of_nat (length l) in
  let k := if i <? 0 then i + n else i in
  if (0 <=? k) && (k <? n) then
    match nth_error l (Z.to_nat k) with
    | Some x => Ok x
    | None => Raise IndexError
    end
  else Raise IndexError.

(** [enumerate(l)] *)
Definition enumerate {A : Type} (l : list A) : list (nat * A) :=
  combine (seq 0 (length l)) l.

(** [sorted(l)] for the order [leb]; the sort is stable. *)
Fixpoint insert {A : Type} (leb : A -> A -> bool) (x : A) (l : list A) : list A :=
  match l with
  | [] => [x]
  | y :: l' => if leb x y then x :: y :: l' else y :: insert leb x l'
  end.

Definition sorted {A : Type} (leb : A -> A -> bool) (l : list A) : list A :=
  foldr (insert leb) [] l.

(** [sorted(l, reverse=True)] *)
Definition sorted_reverse {A : Type} (leb : A -> A -> bool) (l : list A) : list A :=
  sorted (fun a b => leb b a) l.

(** [np.all(l)] on a list of booleans; [np.all([])] is [True]. *)
Definition np_all (l : list bool) : bool := forallb (fun b => b) l.

(** [s.split(sep)] for a one-character separator. *)
Fixpoint split (sep : ascii) (s : string) : list string :=
  match s with
  | EmptyString => [EmptyString]
  | String c s' =>
      if Ascii.eqb c sep then EmptyString :: split sep s'
      else match split sep s' with
           | h :: t => String c h :: t
           | [] => [String c EmptyString]
           end
  end.

(** [sub in s] on strings. *)
Fixpoint contains (sub s : string) : bool :=
  String.prefix sub s ||
  match s with
  | EmptyString => false
  | String _ s' => contains sub s'
  end.

(** [s.replace(old, new)]: every non-overlapping occurrence, left to right.
    [skip] counts the characters of a match still to be dropped. *)
Fixpoint replace_from (old new : string) (skip : nat) (s : string) : string :=
  match s with
  | EmptyString => EmptyString
  | String c s' =>
      match skip with
      | S k => replace_from old new k s'
      | O =>
          if String.prefix old s
          then String.append new (replace_from old new (Nat.pred (String.length old)) s')
          else String c (replace_from old new O s')
      end
  end.

Fixpoint intersperse (new s : string) : string :=
  match s with
  | EmptyString => new
  | String c s' => String.append new (String c (intersperse new s'))
  end.

Definition replace (old new s : string) : string :=
  match old with
  | EmptyString => intersperse new s
  | _ => replace_from old new O s
  end.

(** [os.path.basename(p)]: what follows the last ["/"]. *)
Definition basename (p : string) : string :=
  List.last (split "/"%char p) EmptyString.

End Py.

Import Py.
Local Open Scope py_scope.

(** ** Values [base + coef * sqrt rad]

    [np.std] and [np.sqrt] are the only irrational operations of the source.
    Their results enter one more addition or division and are then compared
    with a rational or stored.  With [0 <= coef] and [0 <= rad] the
    comparisons below are exact: [x > base + coef * sqrt rad] holds iff
    [x - base] is positive and its square exceeds [coef^2 * rad]. *)

Module Surd.

Record t : Type := mk { base : Q; coef : Q; rad : Q }.

Definition of_Q (q : Q) : t := mk q 0 0.

(** [m + k * sqrt v] *)
Definition add_mul_sqrt (m k v : Q) : t := mk m k v.

(** [x / sqrt n], for [n > 0]. *)
Definition div_sqrt (x n : Q) : t := mk 0 x (/ n).

Definition Qlt_bool (x y : Q) : bool := negb (Qle_bool y x).

(** [x > s] *)
Definition gtb (x : Q) (s : t) : bool :=
  let d := (x - base s)%Q in
  Qlt_bool 0 d && Qlt_bool (coef s * coef s * rad s) (d * d).

(** [x == s] *)
Definition eqb (x : Q) (s : t) : bool :=
  let d := (x - base s)%Q in
  Qle_bool 0 d && Qeq_bool (d * d) (coef s * coef s * rad s).

End Surd.

(** ** FITS headers, images and the telescope profile *)

(** The value of a header card: a string or a number. *)
Inductive card : Type :=
| Str (s : string)
| Num (q : Q).

(** A header maps keywords to card values. *)
Abbreviation header := (gmap string card).

(** [CCDData]: pixel data with its header. *)
Record CCDData : Type := mkCCD { ccd_data : list Q; ccd_header : header }.

(** The file system as far as the pipeline reads it: which paths exist and
    a stamp of their content. *)
Abbreviation filesystem := (gmap string nat).

(** The functions of a [tel_params] module that the embedded code calls.
    Header extractors and master-frame builders are the instrument's own code
    and are taken as they are. *)
Record profile : Type := mkProfile {
  raw_header_ext : Z;
  science_keyword : list string;
  science_files : list string;
  flat_keyword : list string;
  flat_files : list string;
  bias_keyword : list string;
  bias_files : list string;
  dark_keyword : list string;
  dark_files : list string;
  spec_keyword : list string;
  spec_files : list string;
  target_keyword : string;
  filter_keyword : header -> string;
  exptime : header -> string;
  time_format : header -> Q;
  wavelength : string;
  bias : bool;
  dark : bool;
  flat : bool;
  flat_name : string -> string -> string -> string -> list string;
  (** [load_bias red_path amp binn]: [None] when the call raises. *)
  load_bias : filesystem -> string -> string -> string -> option CCDData;
  (** what the builders leave on disk *)
  create_bias : list (string * list string) -> string -> string -> filesystem -> filesystem;
  create_dark : list (string * list string) -> string -> option CCDData -> string ->
                filesystem -> filesystem;
  create_flat : list string -> string -> string -> string -> string -> option CCDData ->
                filesystem -> filesystem;
  rdnoise : header -> Q
}.

(** ** quality_check.py *)

Module quality_check.

Local Open Scope Q_scope.

Definition Qsum (l : list Q) : Q := foldr Qplus 0 l.

Definition np_mean (l : list Q) : Q := Qsum l / inject_Z (Z.of_nat (length l)).

(** [np.median]: the middle element of the sorted values, or the mean of
    the two middle ones.  (On an empty list numpy gives [nan]; no
    comparison reads the value then, and [0] stands for it.) *)
Definition np_median (l : list Q) : Q :=
  let s := Py.sorted Qle_bool l in
  let n := length s in
  if Nat.even n
  then (nth (n / 2 - 1) s 0 + nth (n / 2) s 0) / 2
  else nth (n / 2) s 0.

(** The square of [np.std]: the mean squared deviation from the mean. *)
Definition np_var (l : list Q) : Q :=
  let m := np_mean l in
  np_mean (map (fun x => (x - m) * (x - m)) l).

(** [med + 3*std] *)
Definition sigma3 (l : list Q) : Surd.t :=
  Surd.add_mul_sqrt (np_median l) 3 (np_var l).

(** Lines 59-62: the values above the 3 sigma cut. *)
Definition sigma3_cut (l : list Q) : list Q :=
  List.filter (fun x => Surd.gtb x (sigma3 l)) l.

(** Line 65: [int(len(aligned_images)*0.1)], the integer part of a tenth
    of the number of images. *)
Definition ten_percent (aligned_images : list string) : Z :=
  (Z.of_nat (length aligned_images) / 10)%Z.

(** Lines 66-77: the two cuts. *)
Definition cuts (aligned_images : list string) (fwhm elong : list Q)
  : result (Surd.t * Surd.t) :=
  let fwhm_3sigma_cut := sigma3_cut fwhm in
  let elong_3sigma_cut := sigma3_cut elong in
  let n_fwhm := Z.of_nat (length fwhm_3sigma_cut) in
  let n_elong := Z.of_nat (length elong_3sigma_cut) in
  let ten_percent := ten_percent aligned_images in
  if (n_fwhm >? ten_percent)%Z || (n_elong >? ten_percent)%Z then
    let fwhm_sorted := Py.sorted_reverse Qle_bool fwhm_3sigma_cut in
    let* fwhm_cut := Py.index fwhm_sorted (ten_percent - 1) in
    let elong_sorted := Py.sorted_reverse Qle_bool elong_3sigma_cut in
    let* elong_cut := Py.index elong_sorted (ten_percent - 1) in
    Ok (Surd.of_Q fwhm_cut, Surd.of_Q elong_cut)
  else
    Ok (sigma3 fwhm, sigma3 elong).

(** Lines 81-85: the body of the loop, for frame [i] with name [f]. *)
Definition stacking_step (aligned_data : list CCDData) (fwhm elong : list Q)
    (fwhm_cut elong_cut : Surd.t)
    (acc : list string * list CCDData) (i_f : nat * string)
  : result (list string * list CCDData) :=
  let '(stacking_images, stacking_arrays) := acc in
  let '(i, f) := i_f in
  let* fwhm_i := Py.index fwhm (Z.of_nat i) in
  let* bad :=
    if Surd.gtb fwhm_i fwhm_cut then Ok true
    else let* elong_i := Py.index elong (Z.of_nat i) in
         Ok (Surd.gtb elong_i elong_cut) in
  if bad then Ok (stacking_images, stacking_arrays)
  else
    let* a := Py.index aligned_data (Z.of_nat i) in
    Ok (stacking_images ++ [f], stacking_arrays ++ [a]).

(** Lines 78-85: the frames kept for the stack. *)
Definition stacking (aligned_images : list string) (aligned_data : list CCDData)
    (fwhm elong : list Q) (fwhm_cut elong_cut : Surd.t)
  : result (list string * list CCDData) :=
  Py.foldM (stacking_step aligned_data fwhm elong fwhm_cut elong_cut)
    (Py.enumerate aligned_images) ([], []).

(** Lines 87-93. *)
Definition mid_time (time_list : list Q) : result Q :=
  let sorted_times := Py.sorted Qle_bool time_list in
  let* t0 := Py.index sorted_times 0 in
  let* t1 := Py.index sorted_times (-1) in
  Ok (t0 + (t1 - t0) / 2).

(** [quality_check(aligned_images, aligned_data, telescope, log)].
    [measure f] is the pair (median FWHM in arcsec, median elongation) that
    lines 36-46 read from the source catalogue written next to image [f]. *)
Definition quality_check (tel : profile) (measure : string -> Q * Q)
    (aligned_images : list string) (aligned_data : list CCDData)
  : result (list CCDData * Q) :=
  let fwhm := map (fun f => fst (measure f)) aligned_images in
  let elong := map (fun f => snd (measure f)) aligned_images in
  let* (fwhm_cut, elong_cut) := cuts aligned_images fwhm elong in
  let* (stacking_images, stacking_arrays) :=
    stacking aligned_images aligned_data fwhm elong fwhm_cut elong_cut in
  let time_list := map (fun image => time_format tel (ccd_header image)) stacking_arrays in
  let* mid_time := mid_time time_list in
  Ok (stacking_arrays, mid_time).

End quality_check.

(** ** Sort_files.py *)

Module Sort_files.

Local Open Scope string_scope.
Local Open Scope list_scope.

Inductive file_type : Type := FLAT | SCIENCE | BIAS | DARK | SPEC | BAD.

(** A row of [file_table]: File, Target, Filter, Exp, Type, Time. *)
Record row : Type := mkRow {
  File : string;
  Target : string;
  Filter : string;
  Exp : string;
  Type_ : file_type;
  Time : option Q
}.

(** What the function does to the disk, in order. *)
Inductive event : Type :=
| Move (src dst : string)
| WriteTable (file_list : string) (rows : list row).

(** The raw files: [fits.open(f)] gives the headers of the HDUs of [f], and
    raises when [f] cannot be opened. *)
Abbreviation raw_files := (gmap string (list header)).

(** [try: d[k] except KeyError: d.update({k:[]})] followed by
    [d[k].append(v)]. *)
Fixpoint dict_append {V : Type} (k : string) (v : V) (d : list (string * list V))
  : list (string * list V) :=
  match d with
  | [] => [(k, [v])]
  | (k', vs) :: d' =>
      if String.eqb k k' then (k', vs ++ [v]) :: d'
      else (k', vs) :: dict_append k v d'
  end.

(** [hdr[k]] *)
Definition getitem (hdr : header) (k : string) : result card :=
  match hdr !! k with
  | Some v => Ok v
  | None => Raise KeyError
  end.

(** [v == f] for a card [v] and a string [f]. *)
Definition card_eq_str (v : card) (f : string) : bool :=
  match v with
  | Str s => String.eqb s f
  | Num _ => false
  end.

(** [f in v]: a number is not iterable. *)
Definition str_in_card (f : string) (v : card) : result bool :=
  match v with
  | Str s => Ok (Py.contains f s)
  | Num _ => Raise TypeError
  end.

(** [v.replace(old, new)]: a number has no such method. *)
Definition card_replace (old new : string) (v : card) : result string :=
  match v with
  | Str s => Ok (Py.replace old new s)
  | Num _ => Raise AttributeError
  end.

(** [range(len(l))] as indices. *)
Definition range_len {A : Type} (l : list A) : list Z :=
  map Z.of_nat (seq 0 (length l)).

(** [np.all([hdr[keyword[j]] == files[j] for j in range(len(keyword))])] *)
Definition all_equal (hdr : header) (keyword files : list string) : result bool :=
  let* bs := Py.mapM (fun j =>
                let* k := Py.index keyword j in
                let* v := getitem hdr k in
                let* f := Py.index files j in
                Ok (card_eq_str v f)) (range_len keyword) in
  Ok (Py.np_all bs).

(** [np.all([files[j] in hdr[keyword[j]] for j in range(len(keyword))])] *)
Definition all_contained (hdr : header) (keyword files : list string) : result bool :=
  let* bs := Py.mapM (fun j =>
                let* f := Py.index files j in
                let* k := Py.index keyword j in
                let* v := getitem hdr k in
                str_in_card f v) (range_len keyword) in
  Ok (Py.np_all bs).

(** The variables the loop of [sort_files] updates. *)
Record state : Type := mkState {
  cal_list : list (string * list string);
  sci_list : list (string * list string);
  sky_list : list (string * list string);
  time_list : list (string * list Q);
  bad_num : Z;
  spec_num : Z;
  file_table : list row;
  events : list event
}.

Definition init : state :=
  mkState [("BIAS", [])] [] [] [] 0 0 [] [].

(** Lines 92-150: a frame whose header [hdr] was read. *)
Definition classify (tel : profile) (path f : string) (hdr : header) (st : state)
  : result state :=
  let* target := getitem hdr (target_keyword tel) in
  let* target := card_replace " " "" target in
  let fil := filter_keyword tel hdr in
  let exp := exptime tel hdr in
  let moved f moved_path := Py.replace path moved_path f in
  let add_row moved_path file_type file_time :=
    file_table st ++
      [mkRow (moved_path +:+ Py.basename f) target fil exp file_type file_time] in
  let* is_flat :=
    if negb (length (flat_keyword tel) =? 0)%nat
    then all_contained hdr (flat_keyword tel) (flat_files tel) else Ok false in
  if is_flat then
    let moved_path := path +:+ "raw/" in
    Ok (mkState (dict_append ("FLAT_" +:+ fil) (moved f moved_path) (cal_list st))
          (sci_list st) (sky_list st) (time_list st) (bad_num st) (spec_num st)
          (add_row moved_path FLAT None)
          (events st ++ [Move f moved_path]))
  else
  let* is_science := all_equal hdr (science_keyword tel) (science_files tel) in
  if is_science then
    let moved_path := path +:+ "raw/" in
    let file_time := time_format tel hdr in
    Ok (mkState (cal_list st)
          (dict_append (target +:+ "_" +:+ fil) (moved f moved_path) (sci_list st))
          (if String.eqb (wavelength tel) "NIR"
           then dict_append fil (moved f moved_path) (sky_list st)
           else sky_list st)
          (dict_append (target +:+ "_" +:+ fil) file_time (time_list st))
          (bad_num st) (spec_num st)
          (add_row moved_path SCIENCE (Some file_time))
          (events st ++ [Move f moved_path]))
  else
  let* is_bias :=
    if negb (length (bias_keyword tel) =? 0)%nat
    then all_equal hdr (bias_keyword tel) (bias_files tel) else Ok false in
  if is_bias then
    let moved_path := path +:+ "raw/" in
    Ok (mkState (dict_append "BIAS" (moved f moved_path) (cal_list st))
          (sci_list st) (sky_list st) (time_list st) (bad_num st) (spec_num st)
          (add_row moved_path BIAS None)
          (events st ++ [Move f moved_path]))
  else
  let* is_dark :=
    if negb (length (dark_keyword tel) =? 0)%nat
    then all_equal hdr (dark_keyword tel) (dark_files tel) else Ok false in
  if is_dark then
    let moved_path := path +:+ "raw/" in
    Ok (mkState (dict_append ("DARK_" +:+ exp) (moved f moved_path) (cal_list st))
          (sci_list st) (sky_list st) (time_list st) (bad_num st) (spec_num st)
          (add_row moved_path DARK None)
          (events st ++ [Move f moved_path]))
  else
  let* is_spec := all_equal hdr (spec_keyword tel) (spec_files tel) in
  if is_spec then
    let moved_path := path +:+ "spec/" in
    Ok (mkState (cal_list st) (sci_list st) (sky_list st) (time_list st)
          (bad_num st) (spec_num st + 1)
          (add_row moved_path SPEC None)
          (events st ++ [Move f moved_path]))
  else
    let moved_path := path +:+ "bad/" in
    Ok (mkState (cal_list st) (sci_list st) (sky_list st) (time_list st)
          (bad_num st + 1) (spec_num st)
          (add_row moved_path BAD None)
          (events st ++ [Move f moved_path])).

(** Lines 84-91, then [classify]: one turn of the loop over [files]. *)
Definition scan (tel : profile) (disk : raw_files) (path : string)
    (st : state) (f : string) : result state :=
  match disk !! f with
  | None => Raise OSError
  | Some file_open =>
      match Py.index file_open (raw_header_ext tel) with
      | Raise _ =>
          Ok (mkState (cal_list st) (sci_list st) (sky_list st) (time_list st)
                (bad_num st) (spec_num st) (file_table st)
                (events st ++ [Move f (path +:+ "bad/")]))
      | Ok hdr => classify tel path f hdr st
      end
  end.

(** [sort_files(files, telescope, path, log)]: the four dictionaries it
    returns and what it did to the disk. *)
Definition sort_files (tel : profile) (disk : raw_files) (files : list string)
    (path : string)
  : result (list (string * list string) * list (string * list string) *
            list (string * list string) * list (string * list Q) * list event) :=
  let file_list := path +:+ "/file_list.txt" in
  let* st := Py.foldM (scan tel disk path) files init in
  Ok (cal_list st, sci_list st, sky_list st, time_list st,
      events st ++ [WriteTable file_list (file_table st)]).

End Sort_files.

(** ** main_pipeline.py *)

Module main_pipeline.

Local Open Scope string_scope.
Local Open Scope list_scope.

(** Calls of the instrument's builders, in order. *)
Inductive call : Type :=
| CreateBias (cal : string)
| CreateDark (cal : string)
| CreateFlat (flat_list : list string) (fil amp binn : string).

Record world : Type := mkWorld { fs : filesystem; calls : list call }.

Definition os_path_exists (fs : filesystem) (p : string) : bool :=
  match fs !! p with
  | Some _ => true
  | None => false
  end.

(** [for cal in cal_list] visits the keys. *)
Definition keys {V : Type} (d : list (string * V)) : list string := map fst d.

(** [d[k]] *)
Fixpoint getitem {V : Type} (d : list (string * V)) (k : string) : result V :=
  match d with
  | [] => Raise KeyError
  | (k', v) :: d' => if String.eqb k k' then Ok v else getitem d' k
  end.

(** Lines 116-141. *)
Definition bias_stage (tel : profile) (skip_red : bool) (red_path : string)
    (cal_list : list (string * list string)) (w : world) : result world :=
  if bias tel then
    let* (bias_num, w) :=
      Py.foldM
        (fun '(bias_num, w) cal =>
           if Py.contains "BIAS" cal then
             let bias_num := bias_num + 1 in
             let* amp := Py.index (Py.split "_" cal) 1 in
             let* binn := Py.index (Py.split "_" cal) 2 in
             let process_bias :=
               if skip_red
               then negb (os_path_exists (fs w)
                            (red_path +:+ "mbias_" +:+ amp +:+ "_" +:+ binn +:+ ".fits"))
               else true in
             if process_bias
             then Ok (bias_num,
                      mkWorld (create_bias tel cal_list cal red_path (fs w))
                              (calls w ++ [CreateBias cal]))
             else Ok (bias_num, w)
           else Ok (bias_num, w))
        (keys cal_list) (0, w) in
    if (bias_num =? 0)%Z then Raise (SystemExit (-1)) else Ok w
  else Ok w.

(** Lines 143-170. *)
Definition dark_stage (tel : profile) (skip_red : bool) (red_path : string)
    (cal_list : list (string * list string)) (w : world) : result world :=
  if dark tel then
    Py.foldM
      (fun w cal =>
         if Py.contains "DARK" cal then
           let* exp := Py.index (Py.split "_" cal) 1 in
           let* amp := Py.index (Py.split "_" cal) 2 in
           let* binn := Py.index (Py.split "_" cal) 3 in
           let process_dark :=
             if skip_red
             then negb (os_path_exists (fs w) (red_path +:+ cal +:+ ".fits"))
             else true in
           if process_dark then
             if bias tel then
               match load_bias tel (fs w) red_path amp binn with
               | None => Ok w
               | Some mbias =>
                   Ok (mkWorld (create_dark tel cal_list cal (Some mbias) red_path (fs w))
                               (calls w ++ [CreateDark cal]))
               end
             else
               Ok (mkWorld (create_dark tel cal_list cal None red_path (fs w))
                           (calls w ++ [CreateDark cal]))
           else Ok w
         else Ok w)
      (keys cal_list) w
  else Ok w.

(** Lines 179-186 and 216-223: is the master flat to be built? *)
Definition process_flat (tel : profile) (skip_red : bool) (flat_path : string)
    (fil amp binn : string) (w : world) : bool :=
  if skip_red then
    let master_flat := flat_name tel flat_path fil amp binn in
    negb (Py.np_all (map (os_path_exists (fs w)) master_flat))
  else true.

(** Lines 174-209: the body of the loop over [cal_list]. *)
Definition flat_cal (tel : profile) (skip_red use_dome_flats : bool)
    (flat_path red_path : string) (cal_list : list (string * list string))
    (w : world) (cal : string) : result world :=
  if Py.contains "FLAT" cal then
    let* fil := Py.index (Py.split "_" cal) 1 in
    let* amp := Py.index (Py.split "_" cal) 2 in
    let* binn := Py.index (Py.split "_" cal) 3 in
    if process_flat tel skip_red flat_path fil amp binn w then
      let build mbias :=
        if String.eqb (wavelength tel) "OPT" then
          let* flat_list := getitem cal_list cal in
          Ok (mkWorld (create_flat tel flat_list fil amp binn red_path mbias (fs w))
                      (calls w ++ [CreateFlat flat_list fil amp binn]))
        else if String.eqb (wavelength tel) "NIR" then
          if use_dome_flats then
            let* flat_list := getitem cal_list cal in
            Ok (mkWorld (create_flat tel flat_list fil amp binn red_path mbias (fs w))
                        (calls w ++ [CreateFlat flat_list fil amp binn]))
          else Ok w
        else Ok w in
      if bias tel then
        match load_bias tel (fs w) red_path amp binn with
        | None => Ok w
        | Some mbias => build (Some mbias)
        end
      else build None
    else Ok w
  else Ok w.

(** Lines 211-239: the body of the loop over [sky_list]. *)
Definition flat_sky (tel : profile) (skip_red : bool)
    (flat_path red_path : string) (sky_list : list (string * list string))
    (w : world) (fil_list : string) : result world :=
  let* fil := Py.index (Py.split "_" fil_list) 0 in
  let* amp := Py.index (Py.split "_" fil_list) 1 in
  let* binn := Py.index (Py.split "_" fil_list) 2 in
  if process_flat tel skip_red flat_path fil amp binn w then
    let build mbias :=
      let* flat_list := getitem sky_list fil_list in
      Ok (mkWorld (create_flat tel flat_list fil amp binn red_path mbias (fs w))
                  (calls w ++ [CreateFlat flat_list fil amp binn])) in
    if bias tel then
      match load_bias tel (fs w) red_path amp binn with
      | None => Ok w
      | Some mbias => build (Some mbias)
      end
    else build None
  else Ok w.

(** Lines 172-239. *)
Definition flat_stage (tel : profile) (skip_red use_dome_flats : bool)
    (flat_path red_path : string)
    (cal_list sky_list : list (string * list string)) (w : world) : result world :=
  if flat tel then
    let* w := Py.foldM (flat_cal tel skip_red use_dome_flats flat_path red_path cal_list)
                (keys cal_list) w in
    if String.eqb (wavelength tel) "NIR" && negb use_dome_flats then
      Py.foldM (flat_sky tel skip_red flat_path red_path sky_list) (keys sky_list) w
    else Ok w
  else Ok w.

(** Lines 116-244: the master frames, then the test that there is science
    to reduce. *)
Definition calibration (tel : profile) (skip_red use_dome_flats : bool)
    (flat_path red_path : string)
    (cal_list sci_list sky_list : list (string * list string)) (w : world)
  : result world :=
  let* w := bias_stage tel skip_red red_path cal_list w in
  let* w := dark_stage tel skip_red red_path cal_list w in
  let* w := flat_stage tel skip_red use_dome_flats flat_path red_path cal_list sky_list w in
  if (length sci_list =? 0)%nat then Raise (SystemExit (-1)) else Ok w.

(** The order of Python tuples [(difference, index)]. *)
Definition tuple_leb (a b : Q * nat) : bool :=
  if Qeq_bool (fst a) (fst b) then (snd a <=? snd b)%nat
  else Qle_bool (fst a) (fst b).

(** Line 293: [time_diff] for frame [j] of the group with times [times]. *)
Definition time_diff (times : list Q) (j : nat) : result (list (Q * nat)) :=
  let* l := Py.mapM (fun '(k, n2) =>
                let* tj := Py.index times (Z.of_nat j) in
                Ok (Qabs (tj - n2), k)) (Py.enumerate times) in
  Ok (Py.sorted tuple_leb l).

(** Lines 294-296: [[xs[k] for _,k in time_diff[0:5]]] *)
Definition nearest {A : Type} (xs : list A) (time_diff : list (Q * nat))
  : result (list A) :=
  Py.mapM (fun '(_, k) => Py.index xs (Z.of_nat k)) (firstn 5 time_diff).

(** Lines 293-296 for frame [j]: the files, frames and masks of the sky. *)
Definition sky_selection {D M : Type} (files : list string) (times : list Q)
    (processed : list D) (masks : list M) (j : nat)
  : result (list string * list D * list M) :=
  let* time_diff := time_diff times j in
  let* sky_list := nearest files time_diff in
  let* sky_data := nearest processed time_diff in
  let* sky_mask := nearest masks time_diff in
  Ok (sky_list, sky_data, sky_mask).

(** Python objects bound by the unpacking on line 362. *)
Inductive pyobj : Type :=
| PyFrames (l : list CCDData)
| PyFloat (q : Q).

(** The tuple [stacking_arrays, mid_time] that [quality_check] returns. *)
Definition returned (r : list CCDData * Q) : list pyobj :=
  [PyFrames (fst r); PyFloat (snd r)].

(** [a, b, c = t] *)
Definition unpack3 (t : list pyobj) : result (pyobj * pyobj * pyobj) :=
  match t with
  | [a; b; c] => Ok (a, b, c)
  | _ => Raise ValueError
  end.

(** The cards lines 365-370 write into the header of the stack. *)
Record stack_header : Type := mkHeader {
  MJD_OBS : pyobj;
  EXPTIME : Z;
  EXPTOT : pyobj;
  GAIN : Z;
  RDNOISE : Surd.t;
  NFILES : Z
}.

(** Lines 365-370.  [sci_med] is the median stack of [stacking_data]. *)
Definition stack_cards (tel : profile) (aligned_images : list string)
    (sci_med : CCDData) (mid_time total_time : pyobj) : stack_header :=
  mkHeader mid_time 1 total_time 1
    (Surd.div_sqrt (rdnoise tel (ccd_header sci_med))
       (inject_Z (Z.of_nat (length aligned_images))))
    (Z.of_nat (length aligned_images)).

(** Lines 362-370.  [combine] is [ccdproc.combine] with the arguments of
    line 364. *)
Definition stack (tel : profile) (measure : string -> Q * Q)
    (combine : pyobj -> CCDData)
    (aligned_images : list string) (aligned_data : list CCDData)
  : result stack_header :=
  let* r := quality_check.quality_check tel measure aligned_images aligned_data in
  let* (stacking_data, mid_time, total_time) := unpack3 (returned r) in
  let sci_med := combine stacking_data in
  Ok (stack_cards tel aligned_images sci_med mid_time total_time).

(** What the loop over [sci_list] does with one group. *)
Inductive plan : Type :=
| NotSelected
| NoMasterBias
| NoMasterFlat
| Reduce (mbias : option CCDData) (master_flat final_stack : list string)
| Stacked (final_stack : list string).

(** Lines 247-283: the head of the loop over [sci_list], for the key [tar].
    [stacked_image] and [run_wcs] are the instrument's. *)
Definition science_group (tel : profile)
    (stacked_image : string -> string -> list string) (run_wcs : bool)
    (input_target : option string) (skip_red : bool)
    (flat_path red_path : string) (fs : filesystem) (tar : string) : result plan :=
  let stack := stacked_image tar red_path in
  let* target := Py.index (Py.split "_" tar) 0 in
  let* fil := Py.index (Py.split "_" tar) (-3) in
  let* amp := Py.index (Py.split "_" tar) (-2) in
  let* binn := Py.index (Py.split "_" tar) (-1) in
  let selected :=
    match input_target with
    | Some t => Py.contains t tar
    | None => true
    end in
  if negb selected then Ok NotSelected
  else
    let final_stack :=
      if run_wcs then map (Py.replace ".fits" "_wcs.fits") stack else stack in
    let process_data :=
      if skip_red then negb (Py.np_all (map (os_path_exists fs) final_stack))
      else true in
    if process_data then
      let load_flat mbias :=
        let master_flat := flat_name tel flat_path fil amp binn in
        if negb (Py.np_all (map (os_path_exists fs) master_flat)) then Ok NoMasterFlat
        else Ok (Reduce mbias master_flat final_stack) in
      if bias tel then
        match load_bias tel fs red_path amp binn with
        | None => Ok NoMasterBias
        | Some mbias => load_flat (Some mbias)
        end
      else load_flat None
    else Ok (Stacked final_stack).

End main_pipeline.

(** ** Notions used to state the properties *)

(** [x] is the [k]-th largest element of [l] (counting from 1). *)
Definition kth_largest (k : nat) (l : list Q) (x : Q) : Prop :=
  exists s, Permutation s l /\
            StronglySorted (fun a b => (b <= a)%Q) s /\
            (1 <= k)%nat /\ nth_error s (k - 1) = Some x.

(** [f] can be opened and has the header extension of the instrument. *)
Definition readable (tel : profile) (disk : Sort_files.raw_files) (f : string) : bool :=
  match disk !! f with
  | Some file_open =>
      match Py.index file_open (raw_header_ext tel) with
      | Ok _ => true
      | Raise _ => false
      end
  | None => false
  end.

(** [r] is the row of the raw file [f]: its path is [f]'s base name under
    one of the destination directories of [path]. *)
Definition row_of (path f : string) (r : Sort_files.row) : Prop :=
  exists dir, In dir ["raw/"; "spec/"; "bad/"]%string /\
              Sort_files.File r = (path +:+ dir) +:+ Py.basename f.

(** [e] moves the raw file [f] into one of the destination directories of
    [path], and into [bad/] when the header extension of [f] cannot be
    read. *)
Definition moves (tel : profile) (disk : Sort_files.raw_files) (path f : string)
    (e : Sort_files.event) : Prop :=
  exists dir, e = Sort_files.Move f (path +:+ dir) /\
              In dir ["raw/"; "spec/"; "bad/"]%string /\
              (readable tel disk f = false -> dir = "bad/"%string).

(** Only science rows carry an observation time. *)
Definition time_iff_science (r : Sort_files.row) : Prop :=
  Sort_files.Time r = None <-> Sort_files.Type_ r <> Sort_files.SCIENCE.

(** The number of frames before frame [j] observed at the time [tj]. *)
Definition earlier_same_time (times : list Q) (j : nat) (tj : Q) : nat :=
  length (List.filter (fun '(k, t) => (k <? j)%nat && Qeq_bool t tj)
            (Py.enumerate times)).

(** The raw file [f] lies directly in the directory [path], which is
    written with its final ["/"]. *)
Definition directly_in (path f : string) : Prop :=
  exists dir b, path = (dir +:+ "/")%string /\ f = (path +:+ b)%string /\
                Py.contains "/" b = false.

(** [d[k]] where the key is present, no file where it is not. *)
Definition files_under {V : Type} (d : list (string * list V)) (k : string) : list V :=
  match main_pipeline.getitem d k with
  | Ok l => l
  | Raise _ => []
  end.

(** The keys under which the dictionaries hold the file of a row of the
    table: [target_fil] in [sci_list] and [time_list], [fil] in [sky_list]
    at a near-infrared instrument, ['FLAT_' + fil], ['BIAS'] or
    ['DARK_' + exp] in [cal_list]. *)
Definition science_key (r : Sort_files.row) : option string :=
  match Sort_files.Type_ r with
  | Sort_files.SCIENCE => Some (Sort_files.Target r +:+ "_" +:+ Sort_files.Filter r)%string
  | _ => None
  end.

Definition sky_key (tel : profile) (r : Sort_files.row) : option string :=
  match Sort_files.Type_ r with
  | Sort_files.SCIENCE =>
      if String.eqb (wavelength tel) "NIR" then Some (Sort_files.Filter r) else None
  | _ => None
  end.

Definition cal_key (r : Sort_files.row) : option string :=
  match Sort_files.Type_ r with
  | Sort_files.FLAT => Some ("FLAT_" +:+ Sort_files.Filter r)%string
  | Sort_files.BIAS => Some "BIAS"%string
  | Sort_files.DARK => Some ("DARK_" +:+ Sort_files.Exp r)%string
  | _ => None
  end.

(** The rows of the table whose key is [k], in the order of the table. *)
Definition rows_under (key : Sort_files.row -> option string) (k : string)
    (rows : list Sort_files.row) : list Sort_files.row :=
  List.filter (fun r => match key r with
                        | Some k' => String.eqb k k'
                        | None => false
                        end) rows.

(** The rule of the specification for one metric: the cut is relaxed to the
    [cap]-th largest outlier when this metric has more than [cap] outliers,
    and stays at [med + 3*std] otherwise. *)
Definition per_metric_cut (cap : Z) (l : list Q) : result Surd.t :=
  let outliers := quality_check.sigma3_cut l in
  if Z.of_nat (length outliers) >? cap then
    let* c := Py.index (Py.sorted_reverse Qle_bool outliers) (cap - 1) in
    Ok (Surd.of_Q c)
  else Ok (quality_check.sigma3 l).

(** The elements of [xs] at the positions whose two metrics are within the
    cuts: the passing frames. *)
Definition passing {A : Type} (fwhm_cut elong_cut : Surd.t)
    (fwhm elong : list Q) (xs : list A) : list A :=
  map fst
    (List.filter
       (fun '(_, (x, y)) => negb (Surd.gtb x fwhm_cut || Surd.gtb y elong_cut))
       (combine xs (combine fwhm elong))).

(** The header [hdr] answers every look-up of [sort_files]: the target
    keyword and the flat keywords hold strings, the other keywords of the
    parameter file are present. *)
Definition complete_header (tel : profile) (hdr : header) : Prop :=
  (exists s, hdr !! target_keyword tel = Some (Str s)) /\
  (forall k, In k (flat_keyword tel) -> exists s, hdr !! k = Some (Str s)) /\
  (forall k, In k (science_keyword tel ++ bias_keyword tel ++ dark_keyword tel ++
                   spec_keyword tel) -> exists v, hdr !! k = Some v).

(** No list of values of the parameter file is shorter than its list of
    keywords. *)
Definition parallel_profile (tel : profile) : Prop :=
  (length (flat_keyword tel) <= length (flat_files tel))%nat /\
  (length (science_keyword tel) <= length (science_files tel))%nat /\
  (length (bias_keyword tel) <= length (bias_files tel))%nat /\
  (length (dark_keyword tel) <= length (dark_files tel))%nat /\
  (length (spec_keyword tel) <= length (spec_files tel))%nat.

(** Where the frames of a call of [create_flat] come from: a key of
    [sky_list] for a near-infrared instrument without dome flats, a key of
    [cal_list] that contains ['FLAT'] otherwise. *)
Definition flat_source (tel : profile) (use_dome_flats : bool)
    (cal_list sky_list : list (string * list string)) (c : main_pipeline.call) : Prop :=
  exists key flat_list fil amp binn,
    c = main_pipeline.CreateFlat flat_list fil amp binn /\
    if String.eqb (wavelength tel) "NIR" && negb use_dome_flats
    then main_pipeline.getitem sky_list key = Ok flat_list
    else Py.contains "FLAT" key = true /\
         main_pipeline.getitem cal_list key = Ok flat_list.

(** ** Sample data *)

Module Sample.

Local Open Scope string_scope.
Local Open Scope list_scope.

Definition card_number (k : string) (hdr : header) : Q :=
  match hdr !! k with
  | Some (Num q) => q
  | _ => 0%Q
  end.

Definition card_string (k : string) (hdr : header) : string :=
  match hdr !! k with
  | Some (Str s) => s
  | _ => ""
  end.

Definition mbias_file (red_path amp binn : string) : string :=
  red_path +:+ "mbias_" +:+ amp +:+ "_" +:+ binn +:+ ".fits".

Definition mflat_file (flat_path fil amp binn : string) : string :=
  flat_path +:+ "mflat_" +:+ fil +:+ "_" +:+ amp +:+ "_" +:+ binn +:+ ".fits".

(** An optical instrument with bias, dark and flat calibration.  A master
    frame is one file named after its configuration; building it stamps the
    file with the number of calls made so far. *)
Definition optical : profile := {|
  raw_header_ext := 1;
  science_keyword := ["OBSTYPE"];
  science_files := ["OBJECT"];
  flat_keyword := ["OBSTYPE"];
  flat_files := ["FLAT"];
  bias_keyword := ["OBSTYPE"];
  bias_files := ["BIAS"];
  dark_keyword := ["OBSTYPE"];
  dark_files := ["DARK"];
  spec_keyword := ["OBSTYPE"];
  spec_files := ["SPECTRUM"];
  target_keyword := "OBJECT";
  filter_keyword := card_string "FILTER";
  exptime := card_string "EXPTIME";
  time_format := card_number "MJD-OBS";
  wavelength := "OPT";
  bias := true;
  dark := true;
  flat := true;
  flat_name := fun flat_path fil amp binn => [mflat_file flat_path fil amp binn];
  load_bias := fun fs red_path amp binn =>
    match fs !! mbias_file red_path amp binn with
    | Some _ => Some (mkCCD [] ∅)
    | None => None
    end;
  create_bias := fun _ cal red_path fs => <[red_path +:+ cal +:+ ".fits" := 1%nat]> fs;
  create_dark := fun _ cal _ red_path fs => <[red_path +:+ cal +:+ ".fits" := 1%nat]> fs;
  create_flat := fun _ fil amp binn red_path _ fs =>
    <[mflat_file red_path fil amp binn := 1%nat]> fs;
  rdnoise := card_number "RDNOISE"
|}.

(** A near-infrared instrument without bias calibration: science frames
    are recognised by two keywords, darks by one, and no header is taken
    for a flat. *)
Definition infrared : profile := {|
  raw_header_ext := 1;
  science_keyword := ["OBSMODE"; "APTYPE"];
  science_files := ["imaging"; "open"];
  flat_keyword := [];
  flat_files := [];
  bias_keyword := [];
  bias_files := [];
  dark_keyword := ["OBJECT"];
  dark_files := ["Dark"];
  spec_keyword := ["OBSMODE"];
  spec_files := ["spectroscopy"];
  target_keyword := "OBJECT";
  filter_keyword := card_string "FILTER";
  exptime := card_string "EXPTIME";
  time_format := card_number "MJD-OBS";
  wavelength := "NIR";
  bias := false;
  dark := true;
  flat := true;
  flat_name := fun flat_path fil amp binn => [mflat_file flat_path fil amp binn];
  load_bias := fun _ _ _ _ => None;
  create_bias := fun _ _ _ fs => fs;
  create_dark := fun _ cal _ red_path fs => <[red_path +:+ cal +:+ ".fits" := 1%nat]> fs;
  create_flat := fun _ fil amp binn red_path _ fs =>
    <[mflat_file red_path fil amp binn := 1%nat]> fs;
  rdnoise := card_number "RDNOISE"
|}.

(** The header of the first extension of a raw file. *)
Definition raw_header (obstype object fil exp : string) (mjd : Q) : header :=
  <["OBSTYPE" := Str obstype]> (<["OBJECT" := Str object]>
    (<["FILTER" := Str fil]> (<["EXPTIME" := Str exp]>
      (<["MJD-OBS" := Num mjd]> ∅)))).

(** A raw file: an empty primary header and one extension. *)
Definition raw_file (hdr : header) : list header := [∅; hdr].

(** A night at the optical instrument: a bias, a flat and two science
    frames, a focus frame that matches no predicate and a file that has
    lost its extension. *)
Definition night : Sort_files.raw_files :=
  list_to_map
    [("data/b1.fits", raw_file (raw_header "BIAS" "bias" "V_A_1x1" "0" 1));
     ("data/f1.fits", raw_file (raw_header "FLAT" "flat" "V_A_1x1" "5" 2));
     ("data/s1.fits", raw_file (raw_header "OBJECT" "SN 2021x" "V_A_1x1" "60" 3));
     ("data/s2.fits", raw_file (raw_header "OBJECT" "SN 2021x" "V_A_1x1" "60" 4));
     ("data/x1.fits", raw_file (raw_header "FOCUS" "focus" "V_A_1x1" "1" 5));
     ("data/e1.fits", [∅])].

Definition night_files : list string :=
  ["data/b1.fits"; "data/e1.fits"; "data/f1.fits"; "data/s1.fits"; "data/s2.fits";
   "data/x1.fits"].

(** A night at the near-infrared instrument: two science frames of one
    target and a dark. *)
Definition infrared_header (obsmode object fil exp : string) (mjd : Q) : header :=
  <["OBSMODE" := Str obsmode]> (<["APTYPE" := Str "open"]>
    (<["OBJECT" := Str object]> (<["FILTER" := Str fil]>
      (<["EXPTIME" := Str exp]> (<["MJD-OBS" := Num mjd]> ∅))))).

Definition infrared_night : Sort_files.raw_files :=
  list_to_map
    [("nir/d1.fits", raw_file (infrared_header "dark" "Dark" "K_A_1x1" "30" 1));
     ("nir/s1.fits", raw_file (infrared_header "imaging" "GRB 21" "K_A_1x1" "30" 2));
     ("nir/s2.fits", raw_file (infrared_header "imaging" "GRB 21" "K_A_1x1" "30" 3))].

Definition infrared_files : list string :=
  ["nir/d1.fits"; "nir/s1.fits"; "nir/s2.fits"].

(** Aligned images ["A.fits"], ["B.fits"], ... *)
Definition image (k : nat) : string := String (ascii_of_nat (65 + k)) ".fits".

Definition images (n : nat) : list string := map image (seq 0 n).

(** The catalogue medians of image [k] are the [k]-th pair of [ms]. *)
Definition measure_of (ms : list (Q * Q)) (f : string) : Q * Q :=
  match f with
  | String c _ => nth (nat_of_ascii c - 65) ms (0%Q, 0%Q)
  | EmptyString => (0%Q, 0%Q)
  end.

(** An aligned frame observed at time [t]. *)
Definition frame (t : Q) : CCDData :=
  mkCCD [] (<["MJD-OBS" := Num t]> (<["RDNOISE" := Num 5]> ∅)).

Definition frames (n : nat) : list CCDData :=
  map (fun k => frame (inject_Z (Z.of_nat k))) (seq 0 n).

(** Sixteen frames, two of them with a FWHM of 2 instead of 1. *)
Definition two_blurred : list (Q * Q) :=
  repeat (1%Q, 1%Q) 14 ++ repeat (2%Q, 1%Q) 2.

(** The same, the first frame also elongated. *)
Definition two_blurred_one_elongated : list (Q * Q) :=
  (1%Q, 2%Q) :: repeat (1%Q, 1%Q) 13 ++ repeat (2%Q, 1%Q) 2.

(** Sixteen frames, the last one with a FWHM of 2. *)
Definition one_blurred : list (Q * Q) :=
  repeat (1%Q, 1%Q) 15 ++ [(2%Q, 1%Q)].

End Sample.

(* ================================================================== *)
(** * Properties *)


(** ** The comparisons of [Surd] are those of the real numbers *)

Section SurdReal.

Local Open Scope R_scope.

Lemma Qle_bool_false (a b : Q) : Qle_bool a b = false <-> (b < a)%Q.
Proof.
  split.
  - intros H. apply Qnot_le_lt. intros H'. apply Qle_bool_iff in H'. congruence.
  - intros H. destruct (Qle_bool a b) eqn:E; [|reflexivity].
    apply Qle_bool_iff in E. Lqa.lra.
Qed.

Lemma sqrt_lt_square (d c : R) : 0 <= c -> (0 < d /\ c < d * d) <-> sqrt c < d.
Proof.
  intros Hc. split.
  - intros [Hd Hlt]. rewrite <- (sqrt_square d) by Lra.lra.
    apply sqrt_lt_1_alt. Lra.lra.
  - intros H. pose proof (sqrt_pos c). split; [Lra.lra|].
    rewrite <- (sqrt_sqrt c Hc) at 1. apply Rmult_le_0_lt_compat; Lra.lra.
Qed.

Lemma sqrt_eq_square (d c : R) : 0 <= c -> (0 <= d /\ d * d = c) <-> d = sqrt c.
Proof.
  intros Hc. split.
  - intros [Hd <-]. now rewrite sqrt_square.
  - intros ->. split; [apply sqrt_pos | now apply sqrt_sqrt].
Qed.

Lemma coef_sqrt (b r : R) : 0 <= b -> 0 <= r -> b * sqrt r = sqrt (b * b * r).
Proof.
  intros Hb Hr. rewrite sqrt_mult by Lra.nra. now rewrite sqrt_square.
Qed.

(** [Surd.gtb x s] decides [x > base + coef * sqrt rad]. *)
Lemma gtb_real (x : Q) (s : Surd.t) :
  (0 <= Surd.coef s)%Q -> (0 <= Surd.rad s)%Q ->
  Surd.gtb x s = true <->
  Q2R x > Q2R (Surd.base s) + Q2R (Surd.coef s) * sqrt (Q2R (Surd.rad s)).
Proof.
  intros Hc Hr. unfold Surd.gtb, Surd.Qlt_bool.
  rewrite andb_true_iff, !negb_true_iff, !Qle_bool_false.
  apply Qle_Rle in Hc, Hr. rewrite RMicromega.Q2R_0 in Hc, Hr.
  rewrite (coef_sqrt _ _ Hc Hr).
  transitivity (0 < Q2R x - Q2R (Surd.base s) /\
                Q2R (Surd.coef s) * Q2R (Surd.coef s) * Q2R (Surd.rad s) <
                (Q2R x - Q2R (Surd.base s)) * (Q2R x - Q2R (Surd.base s))).
  - split.
    + intros [H1 H2]. apply Qlt_Rlt in H1. apply Qlt_Rlt in H2.
      rewrite RMicromega.Q2R_0, Q2R_minus in H1.
      rewrite !Q2R_mult, !Q2R_minus in H2. split; assumption.
    + intros [H1 H2]. split; apply Rlt_Qlt.
      * rewrite RMicromega.Q2R_0, Q2R_minus. exact H1.
      * rewrite !Q2R_mult, !Q2R_minus. exact H2.
  - rewrite sqrt_lt_square by Lra.nra. split; Lra.lra.
Qed.

(** [Surd.eqb x s] decides [x = base + coef * sqrt rad]. *)
Lemma eqb_real (x : Q) (s : Surd.t) :
  (0 <= Surd.coef s)%Q -> (0 <= Surd.rad s)%Q ->
  Surd.eqb x s = true <->
  Q2R x = Q2R (Surd.base s) + Q2R (Surd.coef s) * sqrt (Q2R (Surd.rad s)).
Proof.
  intros Hc Hr. unfold Surd.eqb.
  rewrite andb_true_iff, Qle_bool_iff, Qeq_bool_iff.
  apply Qle_Rle in Hc, Hr. rewrite RMicromega.Q2R_0 in Hc, Hr.
  rewrite (coef_sqrt _ _ Hc Hr).
  transitivity (0 <= Q2R x - Q2R (Surd.base s) /\
                (Q2R x - Q2R (Surd.base s)) * (Q2R x - Q2R (Surd.base s)) =
                Q2R (Surd.coef s) * Q2R (Surd.coef s) * Q2R (Surd.rad s)).
  - split.
    + intros [H1 H2]. apply Qle_Rle in H1. apply Qeq_eqR in H2.
      rewrite RMicromega.Q2R_0, Q2R_minus in H1.
      rewrite !Q2R_mult, !Q2R_minus in H2. split; assumption.
    + intros [H1 H2]. split; [apply Rle_Qle | apply eqR_Qeq].
      * rewrite RMicromega.Q2R_0, Q2R_minus. exact H1.
      * rewrite !Q2R_mult, !Q2R_minus. exact H2.
  - rewrite sqrt_eq_square by Lra.nra. split; intros H; Lra.lra.
Qed.

(** [Surd.div_sqrt b n] stands for [b / sqrt n]. *)
Lemma div_sqrt_real (x b n : Q) :
  (0 <= b)%Q -> (0 < n)%Q ->
  Surd.eqb x (Surd.div_sqrt b n) = true <-> Q2R x = Q2R b / sqrt (Q2R n).
Proof.
  intros Hb Hn.
  assert (Hn' : 0 < Q2R n) by (apply Qlt_Rlt in Hn; now rewrite RMicromega.Q2R_0 in Hn).
  rewrite eqb_real; cbn [Surd.div_sqrt Surd.base Surd.coef Surd.rad].
  - rewrite RMicromega.Q2R_0, Q2R_inv by (intros H; Lqa.lra).
    rewrite sqrt_inv. unfold Rdiv. split; intros ->; Lra.lra.
  - exact Hb.
  - apply Qlt_le_weak, Qinv_lt_0_compat, Hn.
Qed.

End SurdReal.

(** ** Indexing *)

Example index_last : Py.index [1; 2; 3] (-1) = Ok 3.
Proof. reflexivity. Qed.

Example index_out_of_range : Py.index [1; 2; 3] 3 = Raise IndexError.
Proof. reflexivity. Qed.

Lemma index_nat {A : Type} (l : list A) (i : nat) :
  Py.index l (Z.of_nat i) =
  match nth_error l i with Some x => Ok x | None => Raise IndexError end.
Proof.
  unfold Py.index.
  destruct (Z.ltb_spec (Z.of_nat i) 0) as [H|_]; [lia|].
  destruct (Z.leb_spec 0 (Z.of_nat i)) as [_|H]; [|lia].
  rewrite Nat2Z.id. simpl.
  destruct (Z.ltb_spec (Z.of_nat i) (Z.of_nat (length l))) as [H|H]; [reflexivity|].
  assert (Hn : nth_error l i = None) by (apply nth_error_None; lia).
  now rewrite Hn.
Qed.

Lemma index_ge {A : Type} (l : list A) (i : Z) :
  Z.of_nat (length l) <= i -> Py.index l i = Raise IndexError.
Proof.
  intros H. unfold Py.index.
  destruct (Z.ltb_spec i 0) as [H0|H0]; [lia|].
  destruct (Z.ltb_spec i (Z.of_nat (length l))) as [H1|H1]; [lia|].
  now rewrite andb_false_r.
Qed.

Lemma index_nil {A : Type} (i : Z) : Py.index (@nil A) i = Raise IndexError.
Proof.
  destruct (Z.lt_ge_cases i 0) as [H|H].
  - unfold Py.index. change (Z.of_nat (length (@nil A))) with 0.
    destruct (Z.ltb_spec i 0) as [_|H']; [|lia].
    rewrite Z.add_0_r. destruct (Z.leb_spec 0 i); [lia | reflexivity].
  - apply index_ge. simpl. lia.
Qed.

Lemma index_in_range {A : Type} (l : list A) (i : Z) :
  0 <= i < Z.of_nat (length l) ->
  exists x, Py.index l i = Ok x /\ nth_error l (Z.to_nat i) = Some x.
Proof.
  intros H. destruct (Z_of_nat_complete i) as [n ->]; [lia|].
  rewrite index_nat, Nat2Z.id.
  destruct (nth_error l n) as [x|] eqn:E; [eauto|].
  apply nth_error_None in E. lia.
Qed.

Lemma index_minus_one {A : Type} (l : list A) (d : A) :
  l <> [] -> Py.index l (-1) = Ok (List.last l d).
Proof.
  intros Hne. unfold Py.index.
  assert (Hlen : (0 < length l)%nat) by (destruct l; [congruence | simpl; lia]).
  change (-1 <? 0) with true. cbv iota.
  destruct (Z.leb_spec 0 (-1 + Z.of_nat (length l))) as [_|H]; [|lia].
  destruct (Z.ltb_spec (-1 + Z.of_nat (length l)) (Z.of_nat (length l))) as [_|H]; [|lia].
  simpl. replace (Z.to_nat (-1 + Z.of_nat (length l))) with (length l - 1)%nat by lia.
  destruct (@exists_last _ l Hne) as [l' [a ->]].
  rewrite last_last, length_app. simpl.
  replace (length l' + 1 - 1)%nat with (length l') by lia.
  rewrite nth_error_app2 by lia. now rewrite Nat.sub_diag.
Qed.

(** Indexing raises nothing but [IndexError]. *)
Lemma index_raises {A : Type} (l : list A) (i : Z) (e : exn) :
  Py.index l i = Raise e -> e = IndexError.
Proof.
  unfold Py.index.
  destruct (_ && _); [destruct (nth_error _ _)|]; congruence.
Qed.

(** ** [sorted] *)

Lemma insert_perm {A : Type} (leb : A -> A -> bool) (x : A) (l : list A) :
  Permutation (Py.insert leb x l) (x :: l).
Proof.
  induction l as [|y l IH]; simpl; [reflexivity|].
  destruct (leb x y); [reflexivity|].
  rewrite IH. apply perm_swap.
Qed.

Lemma sorted_perm {A : Type} (leb : A -> A -> bool) (l : list A) :
  Permutation (Py.sorted leb l) l.
Proof.
  induction l as [|x l IH]; simpl; [reflexivity|].
  rewrite insert_perm. now constructor.
Qed.

Lemma sorted_length {A : Type} (leb : A -> A -> bool) (l : list A) :
  length (Py.sorted leb l) = length l.
Proof. apply Permutation_length, sorted_perm. Qed.

Lemma sorted_nonempty {A : Type} (leb : A -> A -> bool) (l : list A) :
  l <> [] -> Py.sorted leb l <> [].
Proof.
  intros Hne Hs. apply Hne, length_zero_iff_nil.
  now rewrite <- (sorted_length leb), Hs.
Qed.

Section Sorting.

Context {A : Type} (leb : A -> A -> bool).
Hypothesis leb_total : forall x y, leb x y = true \/ leb y x = true.
Hypothesis leb_trans : forall x y z, leb x y = true -> leb y z = true -> leb x z = true.

Lemma insert_sorted (x : A) (l : list A) :
  StronglySorted (fun a b => leb a b = true) l ->
  StronglySorted (fun a b => leb a b = true) (Py.insert leb x l).
Proof using leb_total leb_trans.
  induction 1 as [|y l Hs IH Hall]; simpl.
  - repeat constructor.
  - destruct (leb x y) eqn:E.
    + constructor; [now constructor|].
      constructor; [exact E|].
      eapply List.Forall_impl; [|exact Hall]. intros z Hz. eapply leb_trans; eauto.
    + constructor; [exact IH|].
      eapply Permutation_Forall; [symmetry; apply insert_perm|].
      constructor; [|exact Hall].
      destruct (leb_total x y) as [H|H]; [congruence | exact H].
Qed.

Lemma sorted_sorted (l : list A) :
  StronglySorted (fun a b => leb a b = true) (Py.sorted leb l).
Proof using leb_total leb_trans.
  induction l as [|x l IH]; simpl; [constructor | now apply insert_sorted].
Qed.

End Sorting.

Lemma StronglySorted_weaken {A : Type} (R S : A -> A -> Prop) (l : list A) :
  (forall x y, R x y -> S x y) -> StronglySorted R l -> StronglySorted S l.
Proof.
  intros HRS. induction 1 as [|x l Hs IH Hall]; constructor; [exact IH|].
  eapply List.Forall_impl; [|exact Hall]. intros y. apply HRS.
Qed.

Lemma Qle_bool_total (x y : Q) : Qle_bool x y = true \/ Qle_bool y x = true.
Proof.
  rewrite !Qle_bool_iff. destruct (Qlt_le_dec x y) as [H|H]; [left | right]; lra.
Qed.

Lemma Qle_bool_trans (x y z : Q) :
  Qle_bool x y = true -> Qle_bool y z = true -> Qle_bool x z = true.
Proof. rewrite !Qle_bool_iff. lra. Qed.

Lemma sorted_Qle (l : list Q) : StronglySorted Qle (Py.sorted Qle_bool l).
Proof.
  eapply StronglySorted_weaken;
    [|apply (sorted_sorted Qle_bool Qle_bool_total Qle_bool_trans)].
  intros x y. apply Qle_bool_iff.
Qed.

Lemma sorted_reverse_Qge (l : list Q) :
  StronglySorted (fun a b => (b <= a)%Q) (Py.sorted_reverse Qle_bool l).
Proof.
  unfold Py.sorted_reverse.
  eapply StronglySorted_weaken;
    [|apply (sorted_sorted (fun a b => Qle_bool b a))].
  - intros x y. apply Qle_bool_iff.
  - intros x y. apply Qle_bool_total.
  - intros x y z H1 H2. eapply Qle_bool_trans; eauto.
Qed.

(** ** The quality gate *)

Section QualityGate.

Import quality_check.

Lemma ten_percent_nonneg (aligned_images : list string) :
  0 <= ten_percent aligned_images.
Proof. unfold ten_percent. apply Z.div_pos; lia. Qed.

(** The branch of line 75: no count above the cap. *)
Lemma cuts_3sigma (aligned_images : list string) (fwhm elong : list Q) :
  Z.of_nat (length (sigma3_cut fwhm)) <= ten_percent aligned_images ->
  Z.of_nat (length (sigma3_cut elong)) <= ten_percent aligned_images ->
  cuts aligned_images fwhm elong = Ok (sigma3 fwhm, sigma3 elong).
Proof.
  intros Hf He. unfold cuts.
  destruct (Z.gtb_spec (Z.of_nat (length (sigma3_cut fwhm))) (ten_percent aligned_images));
    [lia|].
  destruct (Z.gtb_spec (Z.of_nat (length (sigma3_cut elong))) (ten_percent aligned_images));
    [lia|].
  reflexivity.
Qed.

(** The branch of line 66: some count above the cap. *)
Lemma cuts_relaxed (aligned_images : list string) (fwhm elong : list Q) :
  ten_percent aligned_images < Z.of_nat (length (sigma3_cut fwhm)) \/
  ten_percent aligned_images < Z.of_nat (length (sigma3_cut elong)) ->
  cuts aligned_images fwhm elong =
  let* fwhm_cut := Py.index (Py.sorted_reverse Qle_bool (sigma3_cut fwhm))
                     (ten_percent aligned_images - 1) in
  let* elong_cut := Py.index (Py.sorted_reverse Qle_bool (sigma3_cut elong))
                      (ten_percent aligned_images - 1) in
  Ok (Surd.of_Q fwhm_cut, Surd.of_Q elong_cut).
Proof.
  intros H. unfold cuts.
  destruct (Z.gtb_spec (Z.of_nat (length (sigma3_cut fwhm))) (ten_percent aligned_images));
    [reflexivity|].
  destruct (Z.gtb_spec (Z.of_nat (length (sigma3_cut elong))) (ten_percent aligned_images));
    [reflexivity|].
  lia.
Qed.

Lemma sorted_reverse_length (l : list Q) :
  length (Py.sorted_reverse Qle_bool l) = length l.
Proof. apply sorted_length. Qed.

(** With more outliers than the cap, the index [ten_percent - 1] is in range:
    it is the last element when the cap is 0. *)
Lemma index_cap_defined (l : list Q) (cap : Z) :
  0 <= cap < Z.of_nat (length l) -> exists x, Py.index l (cap - 1) = Ok x.
Proof.
  intros H. destruct (Z.eq_dec cap 0) as [->|Hc].
  - exists (List.last l 0%Q). apply index_minus_one. destruct l; [simpl in H; lia | congruence].
  - destruct (index_in_range l (cap - 1)) as [x [Hx _]]; [lia | eauto].
Qed.

Lemma cuts_index_error (aligned_images : list string) (fwhm elong : list Q) :
  ten_percent aligned_images < Z.of_nat (length (sigma3_cut fwhm)) ->
  Z.of_nat (length (sigma3_cut elong)) < ten_percent aligned_images \/
  sigma3_cut elong = [] ->
  cuts aligned_images fwhm elong = Raise IndexError.
Proof.
  intros Hf He. rewrite cuts_relaxed by (left; exact Hf).
  destruct (index_cap_defined (Py.sorted_reverse Qle_bool (sigma3_cut fwhm))
              (ten_percent aligned_images)) as [x Hx].
  { rewrite sorted_reverse_length. pose proof (ten_percent_nonneg aligned_images). lia. }
  cbv zeta. rewrite Hx. cbn [bind].
  destruct He as [He|He].
  - rewrite index_ge; [reflexivity|]. rewrite sorted_reverse_length. lia.
  - rewrite He. cbn [Py.sorted_reverse Py.sorted foldr]. now rewrite index_nil.
Qed.

End QualityGate.

(** C10: the relaxation branch is not total.  When the FWHM outliers exceed
    the ten-percent cap while the elongation outliers are fewer than the cap,
    or there are none, [elong_sorted[ten_percent-1]] is out of range and
    [quality_check] raises [IndexError] instead of returning a selection. *)
Theorem relaxation_raises_IndexError
    (tel : profile) (measure : string -> Q * Q)
    (aligned_images : list string) (aligned_data : list CCDData) :
  let fwhm := map (fun f => fst (measure f)) aligned_images in
  let elong := map (fun f => snd (measure f)) aligned_images in
  let cap := quality_check.ten_percent aligned_images in
  cap < Z.of_nat (length (quality_check.sigma3_cut fwhm)) ->
  Z.of_nat (length (quality_check.sigma3_cut elong)) < cap \/
  quality_check.sigma3_cut elong = [] ->
  quality_check.quality_check tel measure aligned_images aligned_data = Raise IndexError.
Proof.
  intros fwhm elong cap Hf He. unfold quality_check.quality_check.
  fold fwhm elong. now rewrite (cuts_index_error aligned_images fwhm elong Hf He).
Qed.

(** Sixteen frames, two of them blurred and none elongated: the cap is 1,
    there are two FWHM outliers and no elongation outlier. *)
Lemma relaxation_raises_IndexError_witness :
  quality_check.quality_check Sample.optical (Sample.measure_of Sample.two_blurred)
    (Sample.images 16) (Sample.frames 16) = Raise IndexError.
Proof.
  apply (relaxation_raises_IndexError Sample.optical
           (Sample.measure_of Sample.two_blurred) (Sample.images 16) (Sample.frames 16)).
  - vm_compute. reflexivity.
  - right. vm_compute. reflexivity.
Defined.

(** The claim C1 fails on sixteen frames of which two are blurred and one is
    elongated.  The cap is 1, so only the FWHM count (2) exceeds it; the
    elongation count (1) does not, and the rule of the specification keeps
    the elongation cut at [med + 3*std].  The code replaces it by the largest
    elongation, 2, which the elongated frame no longer exceeds. *)
Lemma relaxation_is_not_per_metric :
  let aligned_images := Sample.images 16 in
  let measure := Sample.measure_of Sample.two_blurred_one_elongated in
  let fwhm := map (fun f => fst (measure f)) aligned_images in
  let elong := map (fun f => snd (measure f)) aligned_images in
  let cap := quality_check.ten_percent aligned_images in
  cap < Z.of_nat (length (quality_check.sigma3_cut fwhm)) /\
  Z.of_nat (length (quality_check.sigma3_cut elong)) <= cap /\
  per_metric_cut cap elong = Ok (quality_check.sigma3 elong) /\
  quality_check.cuts aligned_images fwhm elong = Ok (Surd.of_Q 2, Surd.of_Q 2) /\
  Surd.of_Q 2 <> quality_check.sigma3 elong /\
  Surd.gtb 2 (quality_check.sigma3 elong) = true /\
  Surd.gtb 2 (Surd.of_Q 2) = false.
Proof.
  cbv zeta. repeat split; try (vm_compute; congruence).
Qed.

(** C1, amended: the relaxation is decided once for both metrics.  When
    neither count of 3-sigma outliers exceeds [cap], both cuts are
    [med + 3*std].  When some count exceeds [cap], with [cap >= 1] and at
    least [cap] outliers on each metric, both cuts are replaced, each by the
    [cap]-th largest outlier of its metric. *)
Theorem relaxation_applies_to_both_metrics
    (aligned_images : list string) (fwhm elong : list Q) :
  let cap := quality_check.ten_percent aligned_images in
  let n_fwhm := Z.of_nat (length (quality_check.sigma3_cut fwhm)) in
  let n_elong := Z.of_nat (length (quality_check.sigma3_cut elong)) in
  (n_fwhm <= cap -> n_elong <= cap ->
   quality_check.cuts aligned_images fwhm elong =
   Ok (quality_check.sigma3 fwhm, quality_check.sigma3 elong)) /\
  (1 <= cap -> cap < n_fwhm \/ cap < n_elong -> cap <= n_fwhm -> cap <= n_elong ->
   exists fwhm_cut elong_cut,
     quality_check.cuts aligned_images fwhm elong =
     Ok (Surd.of_Q fwhm_cut, Surd.of_Q elong_cut) /\
     kth_largest (Z.to_nat cap) (quality_check.sigma3_cut fwhm) fwhm_cut /\
     kth_largest (Z.to_nat cap) (quality_check.sigma3_cut elong) elong_cut).
Proof.
  intros cap n_fwhm n_elong. split.
  - apply cuts_3sigma.
  - intros Hcap Hsome Hf He. rewrite cuts_relaxed by exact Hsome. fold cap.
    destruct (index_in_range (Py.sorted_reverse Qle_bool (quality_check.sigma3_cut fwhm))
                (cap - 1)) as [x [Hx Hnx]].
    { rewrite sorted_reverse_length. fold n_fwhm. lia. }
    destruct (index_in_range (Py.sorted_reverse Qle_bool (quality_check.sigma3_cut elong))
                (cap - 1)) as [y [Hy Hny]].
    { rewrite sorted_reverse_length. fold n_elong. lia. }
    exists x, y. cbv zeta. rewrite Hx, Hy. split; [reflexivity|].
    replace (Z.to_nat (cap - 1)) with (Z.to_nat cap - 1)%nat in Hnx, Hny by lia.
    split; eexists; (split; [apply sorted_perm|]);
      (split; [apply sorted_reverse_Qge|]); (split; [lia | eassumption]).
Qed.

(** Both parts at work: one blurred frame of sixteen leaves the 3-sigma cuts
    in place; two blurred and one elongated frame relax both cuts. *)
Lemma relaxation_applies_to_both_metrics_witness :
  (let measure := Sample.measure_of Sample.one_blurred in
   let fwhm := map (fun f => fst (measure f)) (Sample.images 16) in
   let elong := map (fun f => snd (measure f)) (Sample.images 16) in
   quality_check.cuts (Sample.images 16) fwhm elong =
   Ok (quality_check.sigma3 fwhm, quality_check.sigma3 elong)) /\
  (let measure := Sample.measure_of Sample.two_blurred_one_elongated in
   let fwhm := map (fun f => fst (measure f)) (Sample.images 16) in
   let elong := map (fun f => snd (measure f)) (Sample.images 16) in
   exists fwhm_cut elong_cut,
     quality_check.cuts (Sample.images 16) fwhm elong =
     Ok (Surd.of_Q fwhm_cut, Surd.of_Q elong_cut) /\
     kth_largest 1 (quality_check.sigma3_cut fwhm) fwhm_cut /\
     kth_largest 1 (quality_check.sigma3_cut elong) elong_cut).
Proof.
  split.
  - cbv zeta.
    apply (proj1 (relaxation_applies_to_both_metrics (Sample.images 16) _ _));
      vm_compute; congruence.
  - cbv zeta.
    apply (proj2 (relaxation_applies_to_both_metrics (Sample.images 16) _ _)).
    + vm_compute; congruence.
    + left. vm_compute. reflexivity.
    + vm_compute; congruence.
    + vm_compute; congruence.
Defined.

(** ** The frames kept for the stack *)

Lemma index_app_middle {A : Type} (l1 l2 : list A) (x : A) (k : nat) :
  length l1 = k -> Py.index (l1 ++ x :: l2) (Z.of_nat k) = Ok x.
Proof.
  intros <-. rewrite index_nat, nth_error_app2 by lia.
  now rewrite Nat.sub_diag.
Qed.

Lemma stacking_from (fwhm_cut elong_cut : Surd.t)
    (imgs2 : list string) :
  forall (data2 : list CCDData) (f2 e2 : list Q)
         (data1 : list CCDData) (f1 e1 : list Q) (k : nat)
         (acc_i : list string) (acc_a : list CCDData),
    length data2 = length imgs2 -> length f2 = length imgs2 ->
    length e2 = length imgs2 ->
    length data1 = k -> length f1 = k -> length e1 = k ->
    Py.foldM
      (quality_check.stacking_step (data1 ++ data2) (f1 ++ f2) (e1 ++ e2)
         fwhm_cut elong_cut)
      (combine (seq k (length imgs2)) imgs2) (acc_i, acc_a) =
    Ok (acc_i ++ passing fwhm_cut elong_cut f2 e2 imgs2,
        acc_a ++ passing fwhm_cut elong_cut f2 e2 data2).
Proof.
  induction imgs2 as [|f imgs2 IH];
    intros data2 f2 e2 data1 f1 e1 k acc_i acc_a Hd Hf He Hd1 Hf1 He1.
  - destruct data2; [|discriminate]. cbn. now rewrite !app_nil_r.
  - destruct data2 as [|a data2]; [discriminate|].
    destruct f2 as [|x f2]; [discriminate|].
    destruct e2 as [|y e2]; [discriminate|].
    cbn [length seq combine Py.foldM]. unfold quality_check.stacking_step at 1.
    rewrite (index_app_middle f1 f2 x k Hf1). cbn [bind].
    assert (Hf' : f1 ++ x :: f2 = (f1 ++ [x]) ++ f2) by now rewrite <- app_assoc.
    assert (He' : e1 ++ y :: e2 = (e1 ++ [y]) ++ e2) by now rewrite <- app_assoc.
    assert (Hd' : data1 ++ a :: data2 = (data1 ++ [a]) ++ data2) by now rewrite <- app_assoc.
    assert (Hbad :
      (if Surd.gtb x fwhm_cut then Ok true
       else let* elong_i := Py.index (e1 ++ y :: e2) (Z.of_nat k) in
            Ok (Surd.gtb elong_i elong_cut)) =
      Ok (Surd.gtb x fwhm_cut || Surd.gtb y elong_cut)).
    { destruct (Surd.gtb x fwhm_cut); [reflexivity|].
      now rewrite (index_app_middle e1 e2 y k He1). }
    rewrite Hbad. cbn [bind].
    unfold passing. cbn [combine List.filter].
    destruct (Surd.gtb x fwhm_cut || Surd.gtb y elong_cut) eqn:E; cbn [negb map fst bind].
    + rewrite Hf', He', Hd'.
      apply IH; simpl in *; rewrite ?length_app; simpl; lia.
    + rewrite (index_app_middle data1 data2 a k Hd1). cbn [bind].
      rewrite Hf', He', Hd'.
      rewrite (IH data2 f2 e2 (data1 ++ [a]) (f1 ++ [x]) (e1 ++ [y]) (S k));
        try (simpl in *; rewrite ?length_app; simpl; lia).
      unfold passing. now rewrite <- !app_assoc.
Qed.

(** Lines 78-85 on parallel lists: the loop keeps the passing frames, in
    their original order. *)
Lemma stacking_passing (aligned_images : list string) (aligned_data : list CCDData)
    (fwhm elong : list Q) (fwhm_cut elong_cut : Surd.t) :
  length aligned_data = length aligned_images ->
  length fwhm = length aligned_images ->
  length elong = length aligned_images ->
  quality_check.stacking aligned_images aligned_data fwhm elong fwhm_cut elong_cut =
  Ok (passing fwhm_cut elong_cut fwhm elong aligned_images,
      passing fwhm_cut elong_cut fwhm elong aligned_data).
Proof.
  intros Hd Hf He. unfold quality_check.stacking, Py.enumerate.
  apply (stacking_from fwhm_cut elong_cut aligned_images aligned_data fwhm elong
           [] [] [] 0%nat [] []); auto.
Qed.

Lemma passing_all {A : Type} (fwhm_cut elong_cut : Surd.t)
    (fwhm elong : list Q) (xs : list A) :
  length fwhm = length xs -> length elong = length xs ->
  (forall x, In x fwhm -> Surd.gtb x fwhm_cut = false) ->
  (forall y, In y elong -> Surd.gtb y elong_cut = false) ->
  passing fwhm_cut elong_cut fwhm elong xs = xs.
Proof.
  revert fwhm elong. induction xs as [|a xs IH]; intros fwhm elong Hf He Hx Hy.
  - reflexivity.
  - destruct fwhm as [|x fwhm]; [discriminate|].
    destruct elong as [|y elong]; [discriminate|].
    unfold passing. cbn [combine List.filter].
    rewrite (Hx x), (Hy y) by (now left). cbn [orb negb map fst].
    f_equal. apply IH; simpl in *; auto; lia.
Qed.

Lemma passing_length_le {A : Type} (fwhm_cut elong_cut : Surd.t)
    (fwhm elong : list Q) (xs : list A) :
  (length (passing fwhm_cut elong_cut fwhm elong xs) <= length xs)%nat.
Proof.
  unfold passing. rewrite length_map.
  etransitivity; [apply List.filter_length_le|].
  rewrite length_combine. lia.
Qed.

(** ** Median and the 3 sigma cut of equal values *)

Section Numbers.

Local Open Scope Q_scope.

Lemma np_median_const (l : list Q) (v : Q) :
  l <> [] -> Forall (fun x => x == v) l -> quality_check.np_median l == v.
Proof.
  intros Hne Hall. unfold quality_check.np_median.
  set (s := Py.sorted Qle_bool l).
  assert (Hs : Forall (fun x => x == v) s).
  { eapply Permutation.Permutation_Forall; [symmetry; apply sorted_perm | exact Hall]. }
  assert (Hlen : (0 < length s)%nat).
  { unfold s. rewrite sorted_length. destruct l; [congruence | simpl; lia]. }
  assert (Hnth : forall i, (i < length s)%nat -> nth i s 0 == v).
  { intros i Hi. exact (proj1 (List.Forall_nth _ s) Hs i 0 Hi). }
  assert (Hhalf : (length s / 2 < length s)%nat) by (apply Nat.div_lt; lia).
  destruct (Nat.even (length s)).
  - rewrite (Hnth (length s / 2 - 1)%nat) by lia.
    rewrite (Hnth (length s / 2)%nat) by exact Hhalf. field.
  - apply Hnth, Hhalf.
Qed.

Lemma gtb_le_base (x : Q) (s : Surd.t) : x <= Surd.base s -> Surd.gtb x s = false.
Proof.
  intros H. unfold Surd.gtb, Surd.Qlt_bool.
  assert (Hd : Qle_bool (x - Surd.base s) 0 = true) by (apply Qle_bool_iff; lra).
  now rewrite Hd.
Qed.

Lemma filter_nil_iff {A : Type} (p : A -> bool) (l : list A) :
  (forall x, In x l -> p x = false) -> List.filter p l = [].
Proof.
  induction l as [|a l IH]; intros H; [reflexivity|].
  simpl. rewrite (H a) by (now left). apply IH. intros x Hx. apply H. now right.
Qed.

Lemma sigma3_const (l : list Q) (v : Q) :
  l <> [] -> Forall (fun x => x == v) l ->
  forall x, In x l -> Surd.gtb x (quality_check.sigma3 l) = false.
Proof.
  intros Hne Hall x Hx. apply gtb_le_base. cbn [quality_check.sigma3 Surd.add_mul_sqrt Surd.base].
  rewrite (np_median_const l v Hne Hall).
  rewrite List.Forall_forall in Hall. rewrite (Hall x Hx). lra.
Qed.

(** ** Mid-time *)

Lemma sorted_le_last (s : list Q) :
  StronglySorted Qle s -> forall t, In t s -> t <= List.last s 0.
Proof.
  induction 1 as [|a s Hs IH Ha]; intros t Ht; [contradiction|].
  destruct s as [|b s'].
  - destruct Ht as [->|[]]. simpl. lra.
  - change (List.last (a :: b :: s') 0) with (List.last (b :: s') 0).
    destruct Ht as [->|Ht].
    + rewrite List.Forall_forall in Ha.
      apply Qle_trans with b; [apply Ha; now left | apply IH; now left].
    + now apply IH.
Qed.

Lemma last_In {A : Type} (l : list A) (d : A) : l <> [] -> In (List.last l d) l.
Proof.
  intros Hne. destruct (@exists_last _ l Hne) as [l' [a ->]].
  rewrite last_last. apply in_or_app. right. now left.
Qed.

Lemma mid_time_midpoint (time_list : list Q) :
  time_list <> [] ->
  exists lo hi,
    In lo time_list /\ In hi time_list /\
    (forall t, In t time_list -> lo <= t /\ t <= hi) /\
    quality_check.mid_time time_list = Ok (lo + (hi - lo) / 2).
Proof.
  intros Hne. unfold quality_check.mid_time.
  pose proof (sorted_Qle time_list) as Hsorted.
  pose proof (sorted_perm Qle_bool time_list) as Hperm.
  pose proof (sorted_nonempty Qle_bool time_list Hne) as Hsne.
  destruct (Py.sorted Qle_bool time_list) as [|lo s] eqn:Es; [congruence|].
  exists lo, (List.last (lo :: s) 0). repeat split.
  - eapply Permutation_in; [exact Hperm | now left].
  - eapply Permutation_in; [exact Hperm | apply last_In; congruence].
  - apply (Permutation_in t (Permutation_sym Hperm)) in H.
    inversion Hsorted as [|? ? _ Hlo]; subst.
    destruct H as [->|H]; [lra|]. rewrite List.Forall_forall in Hlo. now apply Hlo.
  - apply sorted_le_last; [exact Hsorted|].
    now apply (Permutation_in t (Permutation_sym Hperm)).
  - cbv zeta. rewrite (index_minus_one (lo :: s) 0) by congruence.
    reflexivity.
Qed.

Lemma mid_time_defined (tel : profile) (stacking_arrays : list CCDData) :
  stacking_arrays <> [] ->
  exists m,
    quality_check.mid_time
      (map (fun image => time_format tel (ccd_header image)) stacking_arrays) = Ok m.
Proof.
  intros Hne.
  destruct (mid_time_midpoint
              (map (fun image => time_format tel (ccd_header image)) stacking_arrays))
    as (lo & hi & _ & _ & _ & Hm); [|eauto].
  destruct stacking_arrays; [congruence | discriminate].
Qed.

(** C7: when the gate leaves a non-empty set of passing frames,
    [quality_check] returns them with the mid-time [min + (max - min)/2],
    where [min] and [max] are the least and the greatest observation time of
    the passing frames; for the times 10.0, 10.5 and 11.2 the mid-time is
    10.6. *)
Theorem mid_time_is_min_max_midpoint
    (tel : profile) (measure : string -> Q * Q)
    (aligned_images : list string) (aligned_data : list CCDData)
    (fwhm_cut elong_cut : Surd.t)
    (stacking_images : list string) (stacking_arrays : list CCDData) :
  let fwhm := map (fun f => fst (measure f)) aligned_images in
  let elong := map (fun f => snd (measure f)) aligned_images in
  let times := map (fun image => time_format tel (ccd_header image)) stacking_arrays in
  quality_check.cuts aligned_images fwhm elong = Ok (fwhm_cut, elong_cut) ->
  quality_check.stacking aligned_images aligned_data fwhm elong fwhm_cut elong_cut =
  Ok (stacking_images, stacking_arrays) ->
  stacking_arrays <> [] ->
  (exists lo hi,
     In lo times /\ In hi times /\
     (forall t, In t times -> lo <= t /\ t <= hi) /\
     quality_check.quality_check tel measure aligned_images aligned_data =
     Ok (stacking_arrays, lo + (hi - lo) / 2)) /\
  (exists m, quality_check.mid_time [10; 10.5; 11.2] = Ok m /\ m == 10.6).
Proof.
  intros fwhm elong times Hc Hs Hne. split.
  - destruct (mid_time_midpoint times) as (lo & hi & Hlo & Hhi & Hb & Hm).
    { unfold times. destruct stacking_arrays; [congruence | discriminate]. }
    exists lo, hi. repeat split; try assumption; try (now apply Hb).
    unfold quality_check.quality_check. fold fwhm elong.
    rewrite Hc. cbn [bind]. rewrite Hs. cbn [bind]. fold times.
    rewrite Hm. reflexivity.
  - eexists. split; [vm_compute; reflexivity | reflexivity].
Qed.

(** Sixteen frames observed at times 0, 1, ..., 15, the last one blurred and
    rejected: the mid-time of the fifteen passing frames is 0 + (14 - 0)/2. *)
Lemma mid_time_is_min_max_midpoint_witness :
  exists lo hi,
    quality_check.quality_check Sample.optical (Sample.measure_of Sample.one_blurred)
      (Sample.images 16) (Sample.frames 16) =
    Ok (Sample.frames 15, lo + (hi - lo) / 2) /\ lo == 0 /\ hi == 14.
Proof.
  pose (measure := Sample.measure_of Sample.one_blurred).
  destruct (mid_time_is_min_max_midpoint Sample.optical measure
              (Sample.images 16) (Sample.frames 16)
              (quality_check.sigma3 (map (fun f => fst (measure f)) (Sample.images 16)))
              (quality_check.sigma3 (map (fun f => snd (measure f)) (Sample.images 16)))
              (Sample.images 15) (Sample.frames 15))
    as [(lo & hi & Hlo & Hhi & Hb & Hq) _].
  - vm_compute. reflexivity.
  - vm_compute. reflexivity.
  - discriminate.
  - exists lo, hi. split; [exact Hq|].
    assert (H0 : In 0 (map (fun image => time_format Sample.optical (ccd_header image))
                         (Sample.frames 15))) by (vm_compute; tauto).
    assert (H14 : In 14 (map (fun image => time_format Sample.optical (ccd_header image))
                          (Sample.frames 15))) by (vm_compute; tauto).
    assert (Hlo' : 0 <= lo).
    { clear - Hlo. vm_compute in Hlo.
      repeat (destruct Hlo as [<-|Hlo]; [vm_compute; discriminate|]). contradiction. }
    assert (Hhi' : hi <= 14).
    { clear - Hhi. vm_compute in Hhi.
      repeat (destruct Hhi as [<-|Hhi]; [vm_compute; discriminate|]). contradiction. }
    destruct (Hb 0 H0) as [? _]. destruct (Hb 14 H14) as [_ ?]. split; lra.
Defined.

(** C9: when all frames have the same FWHM and the same elongation, the
    gate rejects none: [quality_check] returns all of [aligned_data], in the
    original order. *)
Theorem identical_metrics_reject_none
    (tel : profile) (measure : string -> Q * Q)
    (aligned_images : list string) (aligned_data : list CCDData) (v e : Q) :
  aligned_images <> [] ->
  length aligned_data = length aligned_images ->
  (forall f, In f aligned_images -> fst (measure f) == v /\ snd (measure f) == e) ->
  exists mid_time,
    quality_check.quality_check tel measure aligned_images aligned_data =
    Ok (aligned_data, mid_time).
Proof.
  intros Hne Hlen Hsame.
  set (fwhm := map (fun f => fst (measure f)) aligned_images).
  set (elong := map (fun f => snd (measure f)) aligned_images).
  assert (Hf : Forall (fun x => x == v) fwhm).
  { apply List.Forall_forall. intros x Hx. apply in_map_iff in Hx as [f [<- Hf]].
    now apply Hsame. }
  assert (He : Forall (fun x => x == e) elong).
  { apply List.Forall_forall. intros x Hx. apply in_map_iff in Hx as [f [<- Hf']].
    now apply Hsame. }
  assert (Hfne : fwhm <> []) by (unfold fwhm; destruct aligned_images; [congruence | discriminate]).
  assert (Hene : elong <> []) by (unfold elong; destruct aligned_images; [congruence | discriminate]).
  assert (Hcf : quality_check.sigma3_cut fwhm = []).
  { apply filter_nil_iff, (sigma3_const fwhm v Hfne Hf). }
  assert (Hce : quality_check.sigma3_cut elong = []).
  { apply filter_nil_iff, (sigma3_const elong e Hene He). }
  assert (Hcuts : quality_check.cuts aligned_images fwhm elong =
                  Ok (quality_check.sigma3 fwhm, quality_check.sigma3 elong)).
  { pose proof (ten_percent_nonneg aligned_images).
    apply cuts_3sigma; [rewrite Hcf | rewrite Hce]; simpl; lia. }
  assert (Hst : quality_check.stacking aligned_images aligned_data fwhm elong
                  (quality_check.sigma3 fwhm) (quality_check.sigma3 elong) =
                Ok (aligned_images, aligned_data)).
  { assert (Hlf : length fwhm = length aligned_images) by (unfold fwhm; apply length_map).
    assert (Hle : length elong = length aligned_images) by (unfold elong; apply length_map).
    rewrite stacking_passing by assumption.
    pose proof (sigma3_const fwhm v Hfne Hf) as Hpf.
    pose proof (sigma3_const elong e Hene He) as Hpe.
    rewrite (passing_all _ _ fwhm elong aligned_images Hlf Hle Hpf Hpe).
    rewrite (passing_all _ _ fwhm elong aligned_data); auto; congruence. }
  destruct (mid_time_defined tel aligned_data) as [m Hm].
  { destruct aligned_data; [|discriminate]. destruct aligned_images; [congruence | discriminate]. }
  exists m. unfold quality_check.quality_check. fold fwhm elong.
  rewrite Hcuts. cbn [bind]. rewrite Hst. cbn [bind]. rewrite Hm. reflexivity.
Qed.

(** Three frames with FWHM 1.2 and elongation 1.1 all enter the stack. *)
Lemma identical_metrics_reject_none_witness :
  exists mid_time,
    quality_check.quality_check Sample.optical (fun _ => (1.2, 1.1))
      (Sample.images 3) (Sample.frames 3) = Ok (Sample.frames 3, mid_time).
Proof.
  apply (identical_metrics_reject_none Sample.optical (fun _ => (1.2, 1.1))
           (Sample.images 3) (Sample.frames 3) 1.2 1.1).
  - discriminate.
  - reflexivity.
  - intros f _. split; reflexivity.
Defined.

End Numbers.

(** ** The header of the stack *)

(** [quality_check] returns a tuple of two: there is no total exposure in
    it. *)
Lemma returned_two (r : list CCDData * Q) : length (main_pipeline.returned r) = 2%nat.
Proof. reflexivity. Qed.

(** C5: [quality_check] returns the stacking frames and the mid-time only.
    The caller unpacks three values from that tuple, so line 362 raises
    [ValueError] whenever the gate itself succeeds, and no header with a
    total exposure is ever produced. *)
Theorem total_exposure_is_not_returned
    (tel : profile) (measure : string -> Q * Q)
    (combine : main_pipeline.pyobj -> CCDData)
    (aligned_images : list string) (aligned_data : list CCDData) :
  main_pipeline.stack tel measure combine aligned_images aligned_data =
  match quality_check.quality_check tel measure aligned_images aligned_data with
  | Ok _ => Raise ValueError
  | Raise e => Raise e
  end.
Proof.
  unfold main_pipeline.stack.
  destruct (quality_check.quality_check tel measure aligned_images aligned_data)
    as [[stacking_arrays mid_time]|e]; reflexivity.
Qed.

Example total_exposure_three_frames :
  main_pipeline.stack Sample.optical (fun _ => (1.2, 1.1)%Q) (fun _ => Sample.frame 0)
    (Sample.images 3) (Sample.frames 3) = Raise ValueError.
Proof. vm_compute. reflexivity. Qed.

(** C4: of sixteen aligned frames the gate rejects the blurred one and
    fifteen are stacked, but the header cards count the aligned frames:
    [NFILES] is 16 and [RDNOISE] is 5/sqrt(16) = 1.25, not 5/sqrt(15).  With
    four frames and none rejected, the read noise 5 gives 2.5. *)
Theorem stack_cards_count_aligned_frames :
  (exists mid_time,
     quality_check.quality_check Sample.optical (Sample.measure_of Sample.one_blurred)
       (Sample.images 16) (Sample.frames 16) = Ok (Sample.frames 15, mid_time)) /\
  (forall mid_time total_time,
     let cards := main_pipeline.stack_cards Sample.optical (Sample.images 16)
                    (Sample.frame 0) mid_time total_time in
     main_pipeline.NFILES cards = 16 /\
     main_pipeline.NFILES cards <> Z.of_nat (length (Sample.frames 15)) /\
     Surd.eqb (5 / 4) (main_pipeline.RDNOISE cards) = true /\
     Surd.eqb (5 / 4) (Surd.div_sqrt 5 15) = false) /\
  (forall mid_time total_time,
     Surd.eqb 2.5
       (main_pipeline.RDNOISE
          (main_pipeline.stack_cards Sample.optical (Sample.images 4)
             (Sample.frame 0) mid_time total_time)) = true).
Proof.
  split; [|split].
  - eexists. vm_compute. reflexivity.
  - intros mid_time total_time. cbv zeta. repeat split; vm_compute; congruence.
  - intros mid_time total_time. vm_compute. reflexivity.
Qed.

(** The cards depend on the aligned frames only, whatever was stacked. *)
Lemma stack_cards_NFILES (tel : profile) (aligned_images : list string)
    (sci_med : CCDData) (mid_time total_time : main_pipeline.pyobj) :
  main_pipeline.NFILES
    (main_pipeline.stack_cards tel aligned_images sci_med mid_time total_time) =
  Z.of_nat (length aligned_images) /\
  main_pipeline.RDNOISE
    (main_pipeline.stack_cards tel aligned_images sci_med mid_time total_time) =
  Surd.div_sqrt (rdnoise tel (ccd_header sci_med))
    (inject_Z (Z.of_nat (length aligned_images))).
Proof. split; reflexivity. Qed.

(** ** Loops *)

Lemma foldM_invariant {S B : Type} (P : S -> Prop) (body : S -> B -> result S)
    (l : list B) :
  (forall s x s', P s -> body s x = Ok s' -> P s') ->
  forall s s', P s -> Py.foldM body l s = Ok s' -> P s'.
Proof.
  intros Hbody. induction l as [|x l IH]; intros s s' Hs Hf; simpl in Hf.
  - now injection Hf as <-.
  - destruct (body s x) as [s1|e] eqn:E; [|discriminate].
    cbn [bind] in Hf. eapply IH; [|exact Hf]. eapply Hbody; eauto.
Qed.

Lemma bind_Ok {A B : Type} (m : result A) (k : A -> result B) (b : B) :
  bind m k = Ok b -> exists a, m = Ok a /\ k a = Ok b.
Proof. destruct m as [a|e]; [eauto | discriminate]. Qed.

(** ** The bias stage and the lists of [sort_files] *)

Section Classification.

Import Sort_files.

Lemma dict_append_head {V : Type} (k k0 : string) (v : V) (vs : list V)
    (d : list (string * list V)) :
  exists vs' d', dict_append k v ((k0, vs) :: d) = (k0, vs') :: d'.
Proof. simpl. destruct (String.eqb k k0); eauto. Qed.

(** Whatever the frame, the head of [cal_list] keeps its key. *)
Lemma classify_cal_list (tel : profile) (path f : string) (hdr : header)
    (st st' : state) (k0 : string) :
  (exists vs d, cal_list st = (k0, vs) :: d) ->
  classify tel path f hdr st = Ok st' ->
  exists vs d, cal_list st' = (k0, vs) :: d.
Proof.
  intros (vs & d & Hcal) H. unfold classify in H.
  repeat match type of H with
         | bind ?m _ = Ok _ =>
             let E := fresh "E" in
             destruct m eqn:E; [cbn [bind] in H | discriminate]
         | (if ?b then _ else _) = Ok _ => destruct b
         end;
    injection H as <-; cbn [cal_list]; rewrite ?Hcal;
    eauto using dict_append_head.
Qed.

Lemma scan_cal_list (tel : profile) (disk : raw_files) (path f : string)
    (st st' : state) (k0 : string) :
  (exists vs d, cal_list st = (k0, vs) :: d) ->
  scan tel disk path st f = Ok st' ->
  exists vs d, cal_list st' = (k0, vs) :: d.
Proof.
  intros Hcal H. unfold scan in H.
  destruct (disk !! f) as [file_open|]; [|discriminate].
  destruct (Py.index file_open (raw_header_ext tel)) as [hdr|e].
  - eapply classify_cal_list; eauto.
  - injection H as <-. exact Hcal.
Qed.

(** Line 72: the dictionary that [sort_files] returns starts with the key
    ['BIAS'], with or without bias frames. *)
Lemma sort_files_BIAS_key (tel : profile) (disk : raw_files) (files : list string)
    (path : string) cal sci sky times evs :
  sort_files tel disk files path = Ok (cal, sci, sky, times, evs) ->
  exists bias_frames d, cal = ("BIAS"%string, bias_frames) :: d.
Proof.
  unfold sort_files. intros H. apply bind_Ok in H as (st & Hst & H).
  injection H as <- _ _ _ _.
  eapply (foldM_invariant (fun st => exists vs d, cal_list st = ("BIAS"%string, vs) :: d));
    [| |exact Hst].
  - intros s x s' Hs Hx. eapply scan_cal_list; eauto.
  - simpl. eauto.
Qed.

End Classification.

Lemma bias_stage_BIAS_key (tel : profile) (skip_red : bool) (red_path : string)
    (bias_frames : list string) (d : list (string * list string))
    (w : main_pipeline.world) :
  bias tel = true ->
  main_pipeline.bias_stage tel skip_red red_path (("BIAS"%string, bias_frames) :: d) w =
  Raise IndexError.
Proof.
  intros Hb. unfold main_pipeline.bias_stage. rewrite Hb.
  cbn [main_pipeline.keys map fst Py.foldM].
  change (Py.contains "BIAS" "BIAS") with true.
  change (Py.index (Py.split "_" "BIAS") 1) with (@Raise string IndexError).
  reflexivity.
Qed.

(** C2: with bias calibration enabled, the bias stage does not tell lists
    with bias frames from lists without.  The dictionary of [sort_files]
    always has the key ['BIAS'], so [bias_num] is never 0 and the exit of
    line 141 is not reached; and ['BIAS'.split('_')[1]] raises [IndexError]
    on line 122, with one bias frame as with none. *)
Theorem bias_stage_raises_on_sorted_lists
    (tel : profile) (disk : Sort_files.raw_files) (files : list string) (path : string)
    cal sci sky times evs
    (skip_red : bool) (red_path : string) (w : main_pipeline.world) :
  bias tel = true ->
  Sort_files.sort_files tel disk files path = Ok (cal, sci, sky, times, evs) ->
  main_pipeline.bias_stage tel skip_red red_path cal w = Raise IndexError.
Proof.
  intros Hb Hs. destruct (sort_files_BIAS_key _ _ _ _ _ _ _ _ _ Hs) as (l & d & ->).
  now apply bias_stage_BIAS_key.
Qed.

(** The sample night has one bias frame, and the stage raises. *)
Lemma bias_stage_raises_on_sorted_lists_witness :
  exists cal sci sky times evs,
    Sort_files.sort_files Sample.optical Sample.night Sample.night_files "data/" =
    Ok (cal, sci, sky, times, evs) /\
    main_pipeline.getitem cal "BIAS" = Ok ["data/raw/b1.fits"%string] /\
    main_pipeline.bias_stage Sample.optical false "data/red/" cal
      (main_pipeline.mkWorld ∅ []) = Raise IndexError.
Proof.
  destruct (Sort_files.sort_files Sample.optical Sample.night Sample.night_files "data/")
    as [[[[[cal sci] sky] times] evs]|e] eqn:E; [|vm_compute in E; discriminate].
  exists cal, sci, sky, times, evs. split; [reflexivity|]. split.
  - vm_compute in E. injection E as <- _ _ _ _. reflexivity.
  - apply (bias_stage_raises_on_sorted_lists Sample.optical Sample.night
             Sample.night_files "data/" cal sci sky times evs false "data/red/"
             (main_pipeline.mkWorld ∅ [])); [reflexivity | exact E].
Defined.

(** Without any bias frame the result is the same. *)
Example bias_stage_no_bias_frame :
  Sort_files.sort_files Sample.optical Sample.night ["data/s1.fits"%string] "data/" =
  Ok ([("BIAS"%string, [])],
      [("SN2021x_V_A_1x1"%string, ["data/raw/s1.fits"%string])], [],
      [("SN2021x_V_A_1x1"%string, [3%Q])],
      [Sort_files.Move "data/s1.fits" "data/raw/";
       Sort_files.WriteTable "data//file_list.txt"
         [Sort_files.mkRow "data/raw/s1.fits" "SN2021x" "V_A_1x1" "60"
            Sort_files.SCIENCE (Some 3%Q)]]) /\
  main_pipeline.bias_stage Sample.optical false "data/red/" [("BIAS"%string, [])]
    (main_pipeline.mkWorld ∅ []) = Raise IndexError.
Proof. split; vm_compute; reflexivity. Qed.

(** The exit of line 141 is taken by a dictionary that has no key with
    ['BIAS'] in it, which [sort_files] does not produce. *)
Example bias_stage_exit :
  main_pipeline.bias_stage Sample.optical false "data/red/"
    [("FLAT_V_A_1x1"%string, ["data/raw/f1.fits"%string])] (main_pipeline.mkWorld ∅ []) =
  Raise (SystemExit (-1)).
Proof. vm_compute. reflexivity. Qed.

(** A raised exception ends the calibration: nothing is built afterwards. *)
Lemma calibration_stops_at_bias (tel : profile) (skip_red use_dome_flats : bool)
    (flat_path red_path : string)
    (cal_list sci_list sky_list : list (string * list string))
    (w : main_pipeline.world) (e : exn) :
  main_pipeline.bias_stage tel skip_red red_path cal_list w = Raise e ->
  main_pipeline.calibration tel skip_red use_dome_flats flat_path red_path
    cal_list sci_list sky_list w = Raise e.
Proof. intros H. unfold main_pipeline.calibration. now rewrite H. Qed.

(** ** The master flats in skip mode *)

Section Flats.

Import main_pipeline.

Lemma np_all_map_true {A : Type} (p : A -> bool) (l : list A) :
  Py.np_all (map p l) = true <-> forall x, In x l -> p x = true.
Proof.
  unfold Py.np_all. rewrite forallb_forall. split.
  - intros H x Hx. apply (H (p x)). now apply in_map.
  - intros H b Hb. apply in_map_iff in Hb as (x & <- & Hx). now apply H.
Qed.

Lemma np_all_map_false {A : Type} (p : A -> bool) (l : list A) :
  (exists x, In x l /\ p x = false) -> Py.np_all (map p l) = false.
Proof.
  intros (x & Hx & Hp). destruct (Py.np_all (map p l)) eqn:E; [|reflexivity].
  rewrite np_all_map_true in E. rewrite (E x Hx) in Hp. discriminate.
Qed.

(** Lines 179-186: in skip mode the flat is rebuilt exactly when some
    expected file is missing. *)
Lemma process_flat_skip (tel : profile) (flat_path fil amp binn : string) (w : world) :
  process_flat tel true flat_path fil amp binn w = false <->
  forall mf, In mf (flat_name tel flat_path fil amp binn) ->
             os_path_exists (fs w) mf = true.
Proof.
  unfold process_flat. rewrite negb_false_iff. apply np_all_map_true.
Qed.

Lemma split_parts (cal head fil amp binn : string) (rest : list string) :
  Py.split "_" cal = head :: fil :: amp :: binn :: rest ->
  Py.index (Py.split "_" cal) 0 = Ok head /\
  Py.index (Py.split "_" cal) 1 = Ok fil /\
  Py.index (Py.split "_" cal) 2 = Ok amp /\
  Py.index (Py.split "_" cal) 3 = Ok binn.
Proof.
  intros ->. split; [|split; [|split]].
  - exact (index_nat (head :: fil :: amp :: binn :: rest) 0).
  - exact (index_nat (head :: fil :: amp :: binn :: rest) 1).
  - exact (index_nat (head :: fil :: amp :: binn :: rest) 2).
  - exact (index_nat (head :: fil :: amp :: binn :: rest) 3).
Qed.

Lemma split_parts3 (key fil amp binn : string) (rest : list string) :
  Py.split "_" key = fil :: amp :: binn :: rest ->
  Py.index (Py.split "_" key) 0 = Ok fil /\
  Py.index (Py.split "_" key) 1 = Ok amp /\
  Py.index (Py.split "_" key) 2 = Ok binn.
Proof.
  intros ->. split; [|split].
  - exact (index_nat (fil :: amp :: binn :: rest) 0).
  - exact (index_nat (fil :: amp :: binn :: rest) 1).
  - exact (index_nat (fil :: amp :: binn :: rest) 2).
Qed.

End Flats.

(** The claim C8 fails where the master flat is missing and yet not built.
    In skip mode at the near-infrared instrument, without dome flats, the
    master flat of (K, A, 1x1) is missing and [cal_list] holds a flat of this
    configuration; the science frames are in J, whose master flat is on
    disk.  The calibration goes through all its stages and returns with the
    disk as it was and no builder called. *)
Lemma missing_flat_is_not_always_built :
  let w := main_pipeline.mkWorld {["nir/red/mflat_J_A_1x1.fits"%string := 1%nat]} [] in
  let cal_list := [("BIAS"%string, []); ("FLAT_K_A_1x1"%string, ["nir/raw/f1.fits"%string])] in
  let sci_list := [("GRB21_J_A_1x1"%string, ["nir/raw/s1.fits"%string])] in
  let sky_list := [("J_A_1x1"%string, ["nir/raw/s1.fits"%string])] in
  flat_name Sample.infrared "nir/red/" "K" "A" "1x1" =
    ["nir/red/mflat_K_A_1x1.fits"%string] /\
  main_pipeline.os_path_exists (main_pipeline.fs w) "nir/red/mflat_K_A_1x1.fits" = false /\
  main_pipeline.calibration Sample.infrared true false "nir/red/" "nir/red/"
    cal_list sci_list sky_list w = Ok w.
Proof. cbv zeta. split; [|split]; vm_compute; reflexivity. Qed.

(** C8, amended: in skip mode, for a key [FLAT_fil_amp_binn] of [cal_list]
    (and for a key [fil_amp_binn] of [sky_list]) whose expected master-flat
    files all exist, no builder is called and the disk is left as it is.
    When some expected file is missing, the master flat is built if the
    master bias of the configuration loads (or the instrument has no bias):
    from the flats of the key of [cal_list] when the instrument is optical
    or dome flats are requested, from the science frames of the key of
    [sky_list] in the loop over [sky_list]; when the master bias does not
    load, the key is skipped; and a key of [cal_list] is not built from when
    the instrument is not optical and is not a near-infrared one with dome
    flats requested. *)
Theorem skip_mode_reuses_master_flat
    (tel : profile) (use_dome_flats : bool) (flat_path red_path : string)
    (cal_list sky_list : list (string * list string)) (w : main_pipeline.world)
    (cal head fil amp binn : string) (rest : list string) :
  Py.contains "FLAT" cal = true ->
  Py.split "_" cal = head :: fil :: amp :: binn :: rest ->
  let master_flat := flat_name tel flat_path fil amp binn in
  let all_exist :=
    forall mf, In mf master_flat ->
               main_pipeline.os_path_exists (main_pipeline.fs w) mf = true in
  let some_missing :=
    exists mf, In mf master_flat /\
               main_pipeline.os_path_exists (main_pipeline.fs w) mf = false in
  (all_exist ->
   main_pipeline.flat_cal tel true use_dome_flats flat_path red_path cal_list w cal = Ok w) /\
  (all_exist ->
   forall fil_list rest', Py.split "_" fil_list = fil :: amp :: binn :: rest' ->
   main_pipeline.flat_sky tel true flat_path red_path sky_list w fil_list = Ok w) /\
  (some_missing ->
   forall flat_list mbias,
     main_pipeline.getitem cal_list cal = Ok flat_list ->
     wavelength tel = "OPT"%string \/
     (wavelength tel = "NIR"%string /\ use_dome_flats = true) ->
     (if bias tel then load_bias tel (main_pipeline.fs w) red_path amp binn = mbias /\
                       mbias <> None
      else mbias = None) ->
     main_pipeline.flat_cal tel true use_dome_flats flat_path red_path cal_list w cal =
     Ok (main_pipeline.mkWorld
           (create_flat tel flat_list fil amp binn red_path mbias (main_pipeline.fs w))
           (main_pipeline.calls w ++ [main_pipeline.CreateFlat flat_list fil amp binn]))) /\
  (some_missing ->
   bias tel = true -> load_bias tel (main_pipeline.fs w) red_path amp binn = None ->
   main_pipeline.flat_cal tel true use_dome_flats flat_path red_path cal_list w cal = Ok w) /\
  (some_missing ->
   forall fil_list rest' flat_list mbias,
     Py.split "_" fil_list = fil :: amp :: binn :: rest' ->
     main_pipeline.getitem sky_list fil_list = Ok flat_list ->
     (if bias tel then load_bias tel (main_pipeline.fs w) red_path amp binn = mbias /\
                       mbias <> None
      else mbias = None) ->
     main_pipeline.flat_sky tel true flat_path red_path sky_list w fil_list =
     Ok (main_pipeline.mkWorld
           (create_flat tel flat_list fil amp binn red_path mbias (main_pipeline.fs w))
           (main_pipeline.calls w ++ [main_pipeline.CreateFlat flat_list fil amp binn]))) /\
  (some_missing ->
   bias tel = true -> load_bias tel (main_pipeline.fs w) red_path amp binn = None ->
   forall fil_list rest', Py.split "_" fil_list = fil :: amp :: binn :: rest' ->
   main_pipeline.flat_sky tel true flat_path red_path sky_list w fil_list = Ok w) /\
  (some_missing ->
   wavelength tel <> "OPT"%string ->
   ~ (wavelength tel = "NIR"%string /\ use_dome_flats = true) ->
   main_pipeline.flat_cal tel true use_dome_flats flat_path red_path cal_list w cal = Ok w).
Proof.
  intros Hflat Hsplit master_flat all_exist some_missing.
  destruct (split_parts _ _ _ _ _ _ Hsplit) as (_ & H1 & H2 & H3).
  assert (Hmiss : some_missing ->
                  main_pipeline.process_flat tel true flat_path fil amp binn w = true).
  { intros Hm. unfold main_pipeline.process_flat. apply negb_true_iff.
    now apply np_all_map_false. }
  split; [|split; [|split; [|split; [|split; [|split]]]]].
  - intros Hall. unfold main_pipeline.flat_cal.
    rewrite Hflat, H1, H2, H3. cbn [bind].
    now rewrite (proj2 (process_flat_skip tel flat_path fil amp binn w) Hall).
  - intros Hall fil_list rest' Hs.
    destruct (split_parts3 _ _ _ _ _ Hs) as (S0 & S1 & S2).
    unfold main_pipeline.flat_sky. rewrite S0, S1, S2. cbn [bind].
    now rewrite (proj2 (process_flat_skip tel flat_path fil amp binn w) Hall).
  - intros Hm flat_list mbias Hget Hwave Hbias. unfold main_pipeline.flat_cal.
    rewrite Hflat, H1, H2, H3. cbn [bind]. rewrite (Hmiss Hm).
    assert (Hbuild :
      (if String.eqb (wavelength tel) "OPT"
       then let* flat_list := main_pipeline.getitem cal_list cal in
            Ok (main_pipeline.mkWorld
                  (create_flat tel flat_list fil amp binn red_path mbias (main_pipeline.fs w))
                  (main_pipeline.calls w ++ [main_pipeline.CreateFlat flat_list fil amp binn]))
       else if String.eqb (wavelength tel) "NIR"
            then if use_dome_flats
                 then let* flat_list := main_pipeline.getitem cal_list cal in
                      Ok (main_pipeline.mkWorld
                            (create_flat tel flat_list fil amp binn red_path mbias
                               (main_pipeline.fs w))
                            (main_pipeline.calls w ++
                               [main_pipeline.CreateFlat flat_list fil amp binn]))
                 else Ok w
            else Ok w) =
      Ok (main_pipeline.mkWorld
            (create_flat tel flat_list fil amp binn red_path mbias (main_pipeline.fs w))
            (main_pipeline.calls w ++ [main_pipeline.CreateFlat flat_list fil amp binn]))).
    { rewrite Hget. destruct Hwave as [->|[-> ->]]; reflexivity. }
    destruct (bias tel).
    + destruct Hbias as [Hload Hsome]. rewrite Hload.
      destruct mbias as [m|]; [exact Hbuild | congruence].
    + subst mbias. exact Hbuild.
  - intros Hm Hb Hload. unfold main_pipeline.flat_cal.
    rewrite Hflat, H1, H2, H3. cbn [bind]. rewrite (Hmiss Hm), Hb, Hload. reflexivity.
  - intros Hm fil_list rest' flat_list mbias Hs Hget Hbias.
    destruct (split_parts3 _ _ _ _ _ Hs) as (S0 & S1 & S2).
    unfold main_pipeline.flat_sky. rewrite S0, S1, S2. cbn [bind].
    rewrite (Hmiss Hm), Hget. cbn [bind].
    destruct (bias tel).
    + destruct Hbias as [Hload Hsome]. rewrite Hload.
      destruct mbias as [m|]; [reflexivity | congruence].
    + subst mbias. reflexivity.
  - intros Hm Hb Hload fil_list rest' Hs.
    destruct (split_parts3 _ _ _ _ _ Hs) as (S0 & S1 & S2).
    unfold main_pipeline.flat_sky. rewrite S0, S1, S2. cbn [bind].
    rewrite (Hmiss Hm), Hb, Hload. reflexivity.
  - intros Hm Hopt Hnir. unfold main_pipeline.flat_cal.
    rewrite Hflat, H1, H2, H3. cbn [bind]. rewrite (Hmiss Hm).
    assert (Eo : String.eqb (wavelength tel) "OPT" = false)
      by now apply String.eqb_neq.
    rewrite Eo.
    assert (Hno : (if String.eqb (wavelength tel) "NIR" then use_dome_flats else false) =
                  false).
    { destruct (String.eqb (wavelength tel) "NIR") eqn:En; [|reflexivity].
      apply String.eqb_eq in En. destruct use_dome_flats; [|reflexivity].
      exfalso. apply Hnir. now split. }
    destruct (String.eqb (wavelength tel) "NIR"); [rewrite Hno|];
      destruct (bias tel); try reflexivity;
      now destruct (load_bias tel (main_pipeline.fs w) red_path amp binn).
Qed.

(** The configuration (V, A, 1x1): with its master flat on disk nothing
    happens; with the master flat missing and the master bias on disk the
    flat is built from the frames of the key.  The configuration
    (K, A, 1x1) at the near-infrared instrument: the missing master flat is
    built from the science frames of the key of [sky_list]. *)
Lemma skip_mode_reuses_master_flat_witness :
  let cal_list := [("BIAS"%string, []); ("FLAT_V_A_1x1"%string, ["data/raw/f1.fits"%string])] in
  (let w := main_pipeline.mkWorld {["data/red/mflat_V_A_1x1.fits"%string := 7%nat]} [] in
   main_pipeline.flat_cal Sample.optical true false "data/red/" "data/red/" cal_list w
     "FLAT_V_A_1x1" = Ok w) /\
  (let w := main_pipeline.mkWorld {["data/red/mbias_A_1x1.fits"%string := 7%nat]} [] in
   main_pipeline.flat_cal Sample.optical true false "data/red/" "data/red/" cal_list w
     "FLAT_V_A_1x1" =
   Ok (main_pipeline.mkWorld
         (create_flat Sample.optical ["data/raw/f1.fits"%string] "V" "A" "1x1" "data/red/"
            (Some (mkCCD [] ∅)) (main_pipeline.fs w))
         [main_pipeline.CreateFlat ["data/raw/f1.fits"%string] "V" "A" "1x1"])) /\
  (let w := main_pipeline.mkWorld ∅ [] in
   let sky_list := [("K_A_1x1"%string, ["nir/raw/s1.fits"%string])] in
   main_pipeline.flat_sky Sample.infrared true "nir/red/" "nir/red/" sky_list w "K_A_1x1" =
   Ok (main_pipeline.mkWorld
         (create_flat Sample.infrared ["nir/raw/s1.fits"%string] "K" "A" "1x1" "nir/red/"
            None (main_pipeline.fs w))
         [main_pipeline.CreateFlat ["nir/raw/s1.fits"%string] "K" "A" "1x1"])).
Proof.
  cbv zeta. split; [|split].
  - pose proof (skip_mode_reuses_master_flat Sample.optical false "data/red/" "data/red/"
             [("BIAS"%string, []); ("FLAT_V_A_1x1"%string, ["data/raw/f1.fits"%string])] []
             (main_pipeline.mkWorld {["data/red/mflat_V_A_1x1.fits"%string := 7%nat]} [])
             "FLAT_V_A_1x1" "FLAT" "V" "A" "1x1" [] eq_refl eq_refl) as H.
    cbv zeta in H. destruct H as (H & _). apply H.
    intros mf [<-|[]]. vm_compute. reflexivity.
  - pose proof (skip_mode_reuses_master_flat Sample.optical false "data/red/" "data/red/"
             [("BIAS"%string, []); ("FLAT_V_A_1x1"%string, ["data/raw/f1.fits"%string])] []
             (main_pipeline.mkWorld {["data/red/mbias_A_1x1.fits"%string := 7%nat]} [])
             "FLAT_V_A_1x1" "FLAT" "V" "A" "1x1" [] eq_refl eq_refl) as H.
    cbv zeta in H. destruct H as (_ & _ & H & _). apply H.
    + exists "data/red/mflat_V_A_1x1.fits"%string. split; [now left | vm_compute; reflexivity].
    + reflexivity.
    + left. reflexivity.
    + split; [vm_compute; reflexivity | discriminate].
  - pose proof (skip_mode_reuses_master_flat Sample.infrared false "nir/red/" "nir/red/"
             [("BIAS"%string, []); ("FLAT_K_A_1x1"%string, ["nir/raw/f1.fits"%string])]
             [("K_A_1x1"%string, ["nir/raw/s1.fits"%string])]
             (main_pipeline.mkWorld ∅ [])
             "FLAT_K_A_1x1" "FLAT" "K" "A" "1x1" [] eq_refl eq_refl) as H.
    cbv zeta in H. destruct H as (_ & _ & _ & _ & H & _).
    apply (H (ex_intro _ "nir/red/mflat_K_A_1x1.fits"%string
                (conj (or_introl eq_refl) eq_refl)) "K_A_1x1"%string []).
    + reflexivity.
    + reflexivity.
    + reflexivity.
Defined.

(** ** The manifest *)

Lemma foldM_prefix {S B : Type} (P : list B -> S -> Prop) (body : S -> B -> result S) :
  (forall pre s x s', P pre s -> body s x = Ok s' -> P (pre ++ [x]) s') ->
  forall l pre s s', P pre s -> Py.foldM body l s = Ok s' -> P (pre ++ l) s'.
Proof.
  intros Hbody. induction l as [|x l IH]; intros pre s s' Hs Hf; simpl in Hf.
  - injection Hf as <-. now rewrite app_nil_r.
  - destruct (body s x) as [s1|e] eqn:E; [|discriminate].
    cbn [bind] in Hf.
    replace (pre ++ x :: l) with ((pre ++ [x]) ++ l) by now rewrite <- app_assoc.
    eapply IH; [|exact Hf]. eapply Hbody; eauto.
Qed.

Section Manifest.

Import Sort_files.

Variables (tel : profile) (disk : raw_files) (path : string).

(** What holds of the loop variables after the files [pre]. *)
Let scanned (pre : list string) (st : state) : Prop :=
  Forall2 (moves tel disk path) pre (events st) /\
  Forall2 (row_of path) (List.filter (readable tel disk) pre) (file_table st) /\
  Forall time_iff_science (file_table st).

Lemma time_iff_science_None (r : row) :
  Time r = None -> Type_ r <> SCIENCE -> time_iff_science r.
Proof. intros H1 H2. split; auto. Qed.

Lemma classify_scanned (pre : list string) (f : string) (hdr : header) (st st' : state) :
  readable tel disk f = true ->
  scanned pre st ->
  classify tel path f hdr st = Ok st' ->
  scanned (pre ++ [f]) st'.
Proof.
  intros Hr (Hev & Hrows & Htime) H. unfold classify in H.
  repeat match type of H with
         | bind ?m _ = Ok _ =>
             let E := fresh "E" in
             destruct m eqn:E; [cbn [bind] in H | discriminate]
         | (if ?b then _ else _) = Ok _ => destruct b
         end;
    injection H as <-; unfold scanned; cbn [events file_table];
    rewrite List.filter_app; cbn [List.filter]; rewrite Hr;
    (split; [|split]);
    try (apply Forall2_app; [assumption|]; constructor; [|constructor]);
    try (apply Forall_app; split; [assumption|]; constructor; [|constructor]);
    try (eexists; split; [reflexivity|]; split; [simpl; tauto | congruence]);
    try (eexists; split; [|reflexivity]; simpl; tauto);
    try (split; cbn [Time Type_]; congruence).
Qed.

Lemma scan_scanned (pre : list string) (f : string) (st st' : state) :
  scanned pre st -> scan tel disk path st f = Ok st' -> scanned (pre ++ [f]) st'.
Proof.
  intros Hsc H. unfold scan in H.
  destruct (disk !! f) as [file_open|] eqn:Ed; [|discriminate].
  destruct (Py.index file_open (raw_header_ext tel)) as [hdr|e] eqn:Ei.
  - eapply classify_scanned; eauto. unfold readable. now rewrite Ed, Ei.
  - injection H as <-. destruct Hsc as (Hev & Hrows & Htime).
    unfold scanned. cbn [events file_table].
    rewrite List.filter_app. cbn [List.filter].
    assert (Hr : readable tel disk f = false) by (unfold readable; now rewrite Ed, Ei).
    rewrite Hr, app_nil_r. split; [|split]; try assumption.
    apply Forall2_app; [assumption|]. constructor; [|constructor].
    exists "bad/"%string. split; [reflexivity|]. split; [simpl; tauto | reflexivity].
Qed.

Lemma sort_files_scanned (files : list string) cal sci sky times evs :
  sort_files tel disk files path = Ok (cal, sci, sky, times, evs) ->
  exists st, scanned files st /\
             evs = events st ++ [WriteTable (path +:+ "/file_list.txt") (file_table st)].
Proof.
  unfold sort_files. intros H. apply bind_Ok in H as (st & Hst & H).
  injection H as _ _ _ _ <-. exists st. split; [|reflexivity].
  apply (foldM_prefix scanned (scan tel disk path)
           (fun pre s x s' => scan_scanned pre x s s') files [] init st);
    [|exact Hst].
  repeat split; constructor.
Qed.

End Manifest.

(** The claim C3 fails on a raw file that opens but has lost its header
    extension: it is moved to [bad/] and the table is written without a row
    for it. *)
Lemma unreadable_frame_has_no_row :
  Sample.night !! "data/e1.fits"%string = Some [∅] /\
  Sort_files.sort_files Sample.optical Sample.night ["data/e1.fits"%string] "data/" =
  Ok ([("BIAS"%string, [])], [], [], [],
      [Sort_files.Move "data/e1.fits" "data/bad/";
       Sort_files.WriteTable "data//file_list.txt" []]).
Proof. split; vm_compute; reflexivity. Qed.

(** C3, amended: when [sort_files] returns, it has moved every input file,
    one after the other, into [raw/], [spec/] or [bad/], and then written
    the table once; the table has one row per file whose header extension
    could be read, in the order of the files, including the frames that
    match no predicate (BAD); a file whose header extension is unreadable is
    moved to [bad/] and has no row.  A row has no observation time exactly
    when it is not a science row. *)
Theorem manifest_has_one_row_per_readable_file
    (tel : profile) (disk : Sort_files.raw_files) (files : list string) (path : string)
    cal sci sky times evs :
  Sort_files.sort_files tel disk files path = Ok (cal, sci, sky, times, evs) ->
  exists moved rows,
    evs = moved ++ [Sort_files.WriteTable (path +:+ "/file_list.txt") rows] /\
    Forall2 (moves tel disk path) files moved /\
    Forall2 (row_of path) (List.filter (readable tel disk) files) rows /\
    length rows = length (List.filter (readable tel disk) files) /\
    Forall time_iff_science rows /\
    (forall f, In f files -> readable tel disk f = false ->
               In (Sort_files.Move f (path +:+ "bad/")) moved).
Proof.
  intros H. destruct (sort_files_scanned _ _ _ _ _ _ _ _ _ H) as (st & (Hev & Hrows & Ht) & ->).
  exists (Sort_files.events st), (Sort_files.file_table st).
  split; [reflexivity|]. split; [exact Hev|]. split; [exact Hrows|].
  split; [symmetry; eapply Forall2_length; eassumption|]. split; [exact Ht|].
  intros f Hf Hr. clear Hrows Ht H.
  induction Hev as [|f' e fs es (dir & -> & _ & Hbad) Hrest IH]; [destruct Hf|].
  destruct Hf as [->|Hf].
  - left. now rewrite (Hbad Hr).
  - right. now apply IH.
Qed.

(** The sample night: six files are moved, the one without extension goes
    to [bad/] and has no row, the table has five rows. *)
Lemma manifest_has_one_row_per_readable_file_witness :
  exists cal sci sky times moved rows,
    Sort_files.sort_files Sample.optical Sample.night Sample.night_files "data/" =
    Ok (cal, sci, sky, times, moved ++ [Sort_files.WriteTable "data//file_list.txt" rows]) /\
    length moved = 6%nat /\ length rows = 5%nat /\ Forall time_iff_science rows /\
    In (Sort_files.Move "data/e1.fits" "data/bad/") moved.
Proof.
  destruct (Sort_files.sort_files Sample.optical Sample.night Sample.night_files "data/")
    as [[[[[cal sci] sky] times] evs]|e] eqn:E; [|vm_compute in E; discriminate].
  destruct (manifest_has_one_row_per_readable_file Sample.optical Sample.night
              Sample.night_files "data/" cal sci sky times evs E)
    as (moved & rows & -> & Hm & _ & Hlen & Ht & Hbad).
  exists cal, sci, sky, times, moved, rows. split; [reflexivity|].
  split; [|split; [|split; [exact Ht|]]].
  - symmetry. exact (Forall2_length _ _ _ Hm).
  - rewrite Hlen. vm_compute. reflexivity.
  - apply (Hbad "data/e1.fits"%string).
    + simpl. tauto.
    + vm_compute. reflexivity.
Defined.

(** ** The frames of the sky *)

Lemma mapM_Ok {A B : Type} (f : A -> result B) (g : A -> B) (l : list A) :
  (forall x, In x l -> f x = Ok (g x)) -> Py.mapM f l = Ok (map g l).
Proof.
  induction l as [|x l IH]; intros H; [reflexivity|].
  simpl. rewrite (H x) by (now left). cbn [bind].
  rewrite IH by (intros y Hy; apply H; now right). reflexivity.
Qed.

Lemma enumerate_from_nth {A : Type} (l : list A) (n k : nat) (x : A) :
  In (k, x) (combine (seq n (length l)) l) <-> (n <= k)%nat /\ nth_error l (k - n) = Some x.
Proof.
  revert n. induction l as [|a l IH]; intros n; simpl.
  - split; [tauto|]. intros [_ H]. destruct (k - n)%nat; discriminate.
  - rewrite IH. split.
    + intros [H|[Hle H]].
      * injection H as <- <-. rewrite Nat.sub_diag. split; [lia | reflexivity].
      * split; [lia|]. replace (k - n)%nat with (S (k - S n)) by lia. exact H.
    + intros [Hle H]. destruct (Nat.eq_dec n k) as [->|Hne].
      * left. rewrite Nat.sub_diag in H. simpl in H. congruence.
      * right. split; [lia|]. replace (k - n)%nat with (S (k - S n)) in H by lia. exact H.
Qed.

Lemma enumerate_nth {A : Type} (l : list A) (k : nat) (x : A) :
  In (k, x) (Py.enumerate l) <-> nth_error l k = Some x.
Proof.
  unfold Py.enumerate. rewrite enumerate_from_nth, Nat.sub_0_r.
  split; [tauto | split; [lia | assumption]].
Qed.

Lemma enumerate_fst {A : Type} (l : list A) :
  map fst (Py.enumerate l) = seq 0 (length l).
Proof.
  unfold Py.enumerate. generalize 0%nat.
  induction l as [|a l IH]; intros n; simpl; [reflexivity | now rewrite IH].
Qed.

Lemma enumerate_length {A : Type} (l : list A) : length (Py.enumerate l) = length l.
Proof. rewrite <- (length_map fst), enumerate_fst. apply length_seq. Qed.

Lemma filter_length_perm {A : Type} (p : A -> bool) (l l' : list A) :
  Permutation l l' -> length (List.filter p l) = length (List.filter p l').
Proof.
  induction 1 as [|x l l' _ IH|x y l|l l' l'' _ IH1 _ IH2]; simpl.
  - reflexivity.
  - destruct (p x); simpl; now rewrite IH.
  - destruct (p x), (p y); reflexivity.
  - now rewrite IH1.
Qed.

Lemma sorted_firstn_skipn {A : Type} (R : A -> A -> Prop) (l : list A) (n : nat) :
  StronglySorted R l ->
  forall a b, In a (firstn n l) -> In b (skipn n l) -> R a b.
Proof.
  intros Hs. revert n. induction Hs as [|x l Hs IH Hx]; intros n a b Ha Hb.
  - rewrite firstn_nil in Ha. contradiction.
  - destruct n as [|n]; [contradiction|]. simpl in Ha, Hb. destruct Ha as [<-|Ha].
    + rewrite List.Forall_forall in Hx. apply Hx.
      rewrite <- (firstn_skipn n l). apply in_or_app. now right.
    + eapply IH; eauto.
Qed.

(** In a sorted list, an element that ties with no other and has fewer than
    [n] elements before it is among the first [n]. *)
Lemma sorted_In_firstn {A : Type} (leb : A -> A -> bool) (x : A) (l : list A) :
  StronglySorted (fun a b => leb a b = true) l ->
  (forall a, In a l -> leb x a = true -> leb a x = true -> a = x) ->
  forall n, In x l ->
            (length (List.filter (fun a => negb (leb x a)) l) < n)%nat ->
            In x (firstn n l).
Proof.
  intros Hs. induction Hs as [|a l Hs IH Ha]; intros Hties n Hin Hcount.
  - contradiction.
  - destruct n as [|n]; [lia|]. cbn [firstn].
    destruct Hin as [->|Hin]; [now left|].
    rewrite List.Forall_forall in Ha. pose proof (Ha x Hin) as Hax.
    cbn [List.filter] in Hcount.
    destruct (leb x a) eqn:E.
    + left. apply Hties; [now left | exact E | exact Hax].
    + right. cbn [negb length] in Hcount.
      apply IH; [intros b Hb; apply Hties; now right | exact Hin | lia].
Qed.

Section Sky.

Import main_pipeline.
Local Open Scope Q_scope.

Lemma tuple_leb_iff (a b : Q * nat) :
  tuple_leb a b = true <->
  fst a < fst b \/ (fst a == fst b /\ (snd a <= snd b)%nat).
Proof.
  unfold tuple_leb. destruct (Qeq_bool (fst a) (fst b)) eqn:E.
  - apply Qeq_bool_iff in E. rewrite Nat.leb_le. split; [tauto|].
    intros [H|[_ H]]; [lra | exact H].
  - apply Qeq_bool_neq in E. rewrite Qle_bool_iff. split.
    + intros H. left. destruct (Qle_lt_or_eq _ _ H) as [Hlt|Heq]; [exact Hlt | contradiction].
    + intros [H|[H _]]; [lra | contradiction].
Qed.

Lemma tuple_leb_total (a b : Q * nat) : tuple_leb a b = true \/ tuple_leb b a = true.
Proof.
  rewrite !tuple_leb_iff.
  destruct (Q_dec (fst a) (fst b)) as [[H|H]|H]; [left; now left | right; now left |].
  destruct (Nat.le_ge_cases (snd a) (snd b)); [left | right]; right; split; auto.
  now symmetry.
Qed.

Lemma tuple_leb_trans (a b c : Q * nat) :
  tuple_leb a b = true -> tuple_leb b c = true -> tuple_leb a c = true.
Proof.
  rewrite !tuple_leb_iff. intros [H1|[H1 K1]] [H2|[H2 K2]].
  - left. lra.
  - left. lra.
  - left. lra.
  - right. split; [lra | lia].
Qed.

Lemma tuple_leb_antisym (a b : Q * nat) :
  tuple_leb a b = true -> tuple_leb b a = true -> snd a = snd b.
Proof.
  rewrite !tuple_leb_iff. intros [H1|[H1 K1]] [H2|[H2 K2]]; try lra. lia.
Qed.

Lemma Qabs_zero_iff (x : Q) : Qabs x == 0 <-> x == 0.
Proof.
  split; intros H.
  - pose proof (Qle_Qabs x). pose proof (Qle_Qabs (- x)) as H'.
    rewrite Qabs_opp in H'. lra.
  - rewrite H. reflexivity.
Qed.

(** The pairs sorted before that of frame [j] are those of the earlier
    frames observed at the same time. *)
Lemma before_self (tj t : Q) (j k : nat) :
  negb (tuple_leb (Qabs (tj - tj), j) (Qabs (tj - t), k)) =
  (k <? j)%nat && Qeq_bool t tj.
Proof.
  assert (H0 : Qabs (tj - tj) == 0) by (apply Qabs_zero_iff; lra).
  pose proof (Qabs_nonneg (tj - t)) as Hd.
  unfold tuple_leb. cbn [fst snd].
  destruct (Qeq_bool t tj) eqn:E.
  - apply Qeq_bool_iff in E.
    assert (Hd0 : Qabs (tj - t) == 0) by (apply Qabs_zero_iff; lra).
    assert (Heq : Qeq_bool (Qabs (tj - tj)) (Qabs (tj - t)) = true)
      by (apply Qeq_bool_iff; lra).
    rewrite Heq, andb_true_r. symmetry. apply Nat.ltb_antisym.
  - apply Qeq_bool_neq in E.
    assert (Hne : Qeq_bool (Qabs (tj - tj)) (Qabs (tj - t)) = false).
    { destruct (Qeq_bool _ _) eqn:E'; [|reflexivity]. apply Qeq_bool_iff in E'.
      exfalso. apply E. rewrite H0 in E'. symmetry in E'.
      apply (proj1 (Qabs_zero_iff (tj - t))) in E'. lra. }
    assert (Hle : Qle_bool (Qabs (tj - tj)) (Qabs (tj - t)) = true)
      by (apply Qle_bool_iff; lra).
    now rewrite Hne, Hle, andb_false_r.
Qed.

Lemma time_diff_sorted (times : list Q) (j : nat) (tj : Q) :
  nth_error times j = Some tj ->
  time_diff times j =
  Ok (Py.sorted tuple_leb
        (map (fun '(k, t) => (Qabs (tj - t), k)) (Py.enumerate times))).
Proof.
  intros Hj. unfold time_diff.
  rewrite (mapM_Ok _ (fun '(k, t) => (Qabs (tj - t), k))); [reflexivity|].
  intros [k t] _. rewrite index_nat, Hj. reflexivity.
Qed.

Lemma nearest_Ok {A : Type} (xs : list A) (td : list (Q * nat)) :
  (forall p, In p td -> (snd p < length xs)%nat) ->
  exists sel, nearest xs td = Ok sel /\
              Forall2 (fun p x => nth_error xs (snd p) = Some x) (firstn 5 td) sel.
Proof.
  intros Hin. unfold nearest.
  assert (H5 : forall p, In p (firstn 5 td) -> (snd p < length xs)%nat).
  { intros p Hp. apply Hin. rewrite <- (firstn_skipn 5 td). apply in_or_app. now left. }
  clear Hin. induction (firstn 5 td) as [|[d k] l IH].
  - exists []. split; [reflexivity | constructor].
  - destruct IH as (sel & Hsel & Hall); [intros p Hp; apply H5; now right|].
    destruct (nth_error xs k) as [x|] eqn:E.
    + exists (x :: sel). cbn [Py.mapM]. rewrite index_nat, E. cbn [bind].
      rewrite Hsel. split; [reflexivity | now constructor].
    + apply nth_error_None in E. specialize (H5 (d, k) (or_introl eq_refl)).
      simpl in H5. lia.
Qed.

Lemma filter_map_length {A B : Type} (p : B -> bool) (g : A -> B) (l : list A) :
  length (List.filter p (map g l)) = length (List.filter (fun a => p (g a)) l).
Proof.
  induction l as [|a l IH]; simpl; [reflexivity|].
  destruct (p (g a)); simpl; now rewrite IH.
Qed.

Lemma time_diff_pairs (times : list Q) (tj : Q) (p : Q * nat) :
  In p (map (fun '(k, t) => (Qabs (tj - t), k)) (Py.enumerate times)) ->
  exists t, nth_error times (snd p) = Some t /\ p = (Qabs (tj - t), snd p).
Proof.
  intros H. apply in_map_iff in H as ([k t] & <- & H).
  apply enumerate_nth in H. exists t. split; [exact H | reflexivity].
Qed.

(** The claim C6 fails for six frames observed at the same time: the pairs
    (0, 0), ..., (0, 5) are sorted by index, and the sky of the last frame is
    built from the first five frames, without the frame itself. *)
Lemma sky_of_frame_may_exclude_it :
  main_pipeline.time_diff [7; 7; 7; 7; 7; 7] 5 =
    Ok [(0, 0%nat); (0, 1%nat); (0, 2%nat); (0, 3%nat); (0, 4%nat); (0, 5%nat)] /\
  main_pipeline.sky_selection
    ["a.fits"; "b.fits"; "c.fits"; "d.fits"; "e.fits"; "f.fits"]%string
    [7; 7; 7; 7; 7; 7] [0; 1; 2; 3; 4; 5]%nat [0; 1; 2; 3; 4; 5]%nat 5 =
    Ok (["a.fits"; "b.fits"; "c.fits"; "d.fits"; "e.fits"]%string,
        [0; 1; 2; 3; 4]%nat, [0; 1; 2; 3; 4]%nat).
Proof. split; vm_compute; reflexivity. Qed.

(** C6, amended: for frame [j] of a group with parallel lists of files,
    times, frames and masks, the sky is built from the first five (or all,
    when there are fewer) of the pairs (|t_j - t_k|, k) sorted by time
    difference and then by index: no frame left out is nearer in time, or as
    near with a smaller index, than a selected one.  The selection depends on
    the times and on [j] only.  Frame [j] itself is selected when fewer than
    five frames before it were observed at the same time. *)
Theorem sky_frames_are_nearest_in_time
    {D M : Type} (files : list string) (times : list Q)
    (processed : list D) (masks : list M) (j : nat) (tj : Q) :
  nth_error times j = Some tj ->
  length files = length times ->
  length processed = length times ->
  length masks = length times ->
  exists time_diff sky_list sky_data sky_mask,
    main_pipeline.time_diff times j = Ok time_diff /\
    Permutation time_diff
      (map (fun '(k, t) => (Qabs (tj - t), k)) (Py.enumerate times)) /\
    StronglySorted (fun a b => tuple_leb a b = true) time_diff /\
    (forall a b, In a (firstn 5 time_diff) -> In b (skipn 5 time_diff) ->
                 tuple_leb a b = true) /\
    length (firstn 5 time_diff) = Nat.min 5 (length times) /\
    main_pipeline.sky_selection files times processed masks j =
      Ok (sky_list, sky_data, sky_mask) /\
    Forall2 (fun p x => nth_error files (snd p) = Some x) (firstn 5 time_diff) sky_list /\
    Forall2 (fun p x => nth_error processed (snd p) = Some x) (firstn 5 time_diff) sky_data /\
    Forall2 (fun p x => nth_error masks (snd p) = Some x) (firstn 5 time_diff) sky_mask /\
    ((earlier_same_time times j tj < 5)%nat -> In j (map snd (firstn 5 time_diff))).
Proof.
  intros Hj Hfiles Hproc Hmasks.
  set (pairs := map (fun '(k, t) => (Qabs (tj - t), k)) (Py.enumerate times)).
  set (td := Py.sorted tuple_leb pairs).
  pose proof (time_diff_sorted times j tj Hj) as Htd. fold pairs td in Htd.
  pose proof (sorted_perm tuple_leb pairs) as Hperm. fold td in Hperm.
  pose proof (sorted_sorted tuple_leb tuple_leb_total tuple_leb_trans pairs) as Hsorted.
  fold td in Hsorted.
  assert (Hbound : forall p, In p td -> (snd p < length times)%nat).
  { intros p Hp. apply (Permutation_in _ Hperm) in Hp.
    destruct (time_diff_pairs times tj p Hp) as (t & Ht & _).
    apply nth_error_Some. congruence. }
  destruct (nearest_Ok files td) as (sky_list & Hl & Hlf);
    [intros p Hp; rewrite Hfiles; now apply Hbound|].
  destruct (nearest_Ok processed td) as (sky_data & Hd & Hdf);
    [intros p Hp; rewrite Hproc; now apply Hbound|].
  destruct (nearest_Ok masks td) as (sky_mask & Hm & Hmf);
    [intros p Hp; rewrite Hmasks; now apply Hbound|].
  exists td, sky_list, sky_data, sky_mask.
  split; [exact Htd|]. split; [exact Hperm|]. split; [exact Hsorted|].
  split; [now apply sorted_firstn_skipn|].
  split.
  { rewrite length_firstn. unfold td. rewrite sorted_length. unfold pairs.
    now rewrite length_map, enumerate_length. }
  split.
  { unfold main_pipeline.sky_selection. rewrite Htd. cbn [bind].
    rewrite Hl. cbn [bind]. rewrite Hd. cbn [bind]. rewrite Hm. reflexivity. }
  split; [exact Hlf|]. split; [exact Hdf|]. split; [exact Hmf|].
  intros Hearlier.
  set (self := (Qabs (tj - tj), j)).
  assert (Hself : In self pairs).
  { unfold pairs. apply in_map_iff. exists (j, tj). split; [reflexivity|].
    now apply enumerate_nth. }
  apply in_map_iff. exists self. split; [reflexivity|].
  apply (sorted_In_firstn tuple_leb self td Hsorted).
  - intros a Ha H1 H2. apply (Permutation_in _ Hperm) in Ha.
    destruct (time_diff_pairs times tj a Ha) as (t & Ht & Ea).
    pose proof (tuple_leb_antisym _ _ H1 H2) as Hk. cbn [snd self] in Hk.
    rewrite <- Hk in Ht. rewrite Hj in Ht. injection Ht as <-.
    rewrite Ea, <- Hk. reflexivity.
  - apply (Permutation_in _ (Permutation_sym Hperm)). exact Hself.
  - rewrite (filter_length_perm _ td pairs Hperm). unfold pairs.
    rewrite filter_map_length.
    rewrite (List.filter_ext _ (fun '(k, t) => (k <? j)%nat && Qeq_bool t tj)).
    + exact Hearlier.
    + intros [k t]. apply before_self.
Qed.

(** Six frames at the times 0, ..., 5: the sky of frame 2 is built from
    frames 2, 1, 3, 0 and 4. *)
Lemma sky_frames_are_nearest_in_time_witness :
  exists time_diff sky_list,
    main_pipeline.time_diff [0; 1; 2; 3; 4; 5] 2 = Ok time_diff /\
    main_pipeline.sky_selection
      ["a.fits"; "b.fits"; "c.fits"; "d.fits"; "e.fits"; "f.fits"]%string
      [0; 1; 2; 3; 4; 5] [0; 1; 2; 3; 4; 5]%nat [0; 1; 2; 3; 4; 5]%nat 2 =
      Ok (sky_list, [2; 1; 3; 0; 4]%nat, [2; 1; 3; 0; 4]%nat) /\
    length (firstn 5 time_diff) = 5%nat /\
    In 2%nat (map snd (firstn 5 time_diff)).
Proof.
  destruct (sky_frames_are_nearest_in_time
              ["a.fits"; "b.fits"; "c.fits"; "d.fits"; "e.fits"; "f.fits"]%string
              [0; 1; 2; 3; 4; 5] [0; 1; 2; 3; 4; 5]%nat [0; 1; 2; 3; 4; 5]%nat 2 2
              eq_refl eq_refl eq_refl eq_refl)
    as (td & sky_list & sky_data & sky_mask & Htd & _ & _ & _ & Hlen & Hsel & _ & _ & _ & Hin).
  exists td, sky_list. split; [exact Htd|]. split; [|split].
  - rewrite Hsel. vm_compute in Hsel. injection Hsel as _ <- <-. reflexivity.
  - exact Hlen.
  - apply Hin. vm_compute. lia.
Defined.

End Sky.

(** * Further properties of the code *)

(** ** Strings: [split], [replace] and [basename] on paths *)

Lemma split_nonempty (sep : ascii) (s : string) : Py.split sep s <> [].
Proof.
  destruct s as [|c s]; simpl; [discriminate|].
  destruct (Ascii.eqb c sep); [discriminate|].
  destruct (Py.split sep s); discriminate.
Qed.

(** ['a' + sep + 'b'] splits into the parts of ['a'] and those of ['b']. *)
Lemma split_app_sep (sep : ascii) (a b : string) :
  Py.split sep (a +:+ String sep b) = Py.split sep a ++ Py.split sep b.
Proof.
  induction a as [|c a IH]; simpl.
  - now rewrite Ascii.eqb_refl.
  - destruct (Ascii.eqb c sep); [now rewrite IH|].
    rewrite IH. pose proof (split_nonempty sep a) as Hne.
    destruct (Py.split sep a) as [|h t]; [congruence | reflexivity].
Qed.

Lemma contains_char_cons (ch c : ascii) (s : string) :
  Py.contains (String ch EmptyString) (String c s) =
  Ascii.eqb ch c || Py.contains (String ch EmptyString) s.
Proof.
  cbn [Py.contains String.prefix].
  destruct (ascii_dec ch c) as [->|Hne].
  - rewrite Ascii.eqb_refl. now destruct s.
  - apply Ascii.eqb_neq in Hne. now rewrite Hne.
Qed.

Lemma split_no_sep (sep : ascii) (s : string) :
  Py.contains (String sep EmptyString) s = false -> Py.split sep s = [s].
Proof.
  induction s as [|c s IH]; intros H; [reflexivity|].
  rewrite contains_char_cons in H. apply orb_false_elim in H as [Hc Hs].
  cbn [Py.split]. rewrite Ascii.eqb_sym, Hc, (IH Hs). reflexivity.
Qed.

Lemma prefix_app (old b : string) : String.prefix old (old +:+ b) = true.
Proof.
  induction old as [|c old IH]; [simpl; now destruct b|].
  simpl. destruct (ascii_dec c c); [exact IH | congruence].
Qed.

Lemma prefix_has_char (ch : ascii) (old s : string) :
  String.prefix old s = true ->
  Py.contains (String ch EmptyString) old = true ->
  Py.contains (String ch EmptyString) s = true.
Proof.
  revert s. induction old as [|c old IH]; intros s Hp Hc; [discriminate|].
  destruct s as [|c' s]; [discriminate|].
  cbn [String.prefix] in Hp. destruct (ascii_dec c c') as [<-|]; [|discriminate].
  rewrite contains_char_cons in Hc |- *.
  apply orb_true_iff in Hc as [Hc|Hc]; [now rewrite Hc|].
  rewrite (IH s Hp Hc). apply orb_true_r.
Qed.

Lemma replace_from_skip (old new s1 s2 : string) :
  Py.replace_from old new (String.length s1) (s1 +:+ s2) = Py.replace_from old new 0 s2.
Proof.
  induction s1 as [|c s1 IH]; [reflexivity|].
  simpl. exact IH.
Qed.

Lemma replace_from_absent (ch : ascii) (old new s : string) :
  Py.contains (String ch EmptyString) old = true ->
  Py.contains (String ch EmptyString) s = false ->
  Py.replace_from old new 0 s = s.
Proof.
  intros Hold. induction s as [|c s IH]; intros Hs; [reflexivity|].
  cbn [Py.replace_from].
  destruct (String.prefix old (String c s)) eqn:Ep.
  - rewrite (prefix_has_char ch old _ Ep Hold) in Hs. discriminate.
  - rewrite contains_char_cons in Hs. apply orb_false_elim in Hs as [_ Hs].
    now rewrite (IH Hs).
Qed.

Lemma contains_char_app (ch : ascii) (a b : string) :
  Py.contains (String ch EmptyString) b = true ->
  Py.contains (String ch EmptyString) (a +:+ b) = true.
Proof.
  intros H. induction a as [|c a IH]; [exact H|].
  change (String c a +:+ b)%string with (String c (a +:+ b)).
  rewrite contains_char_cons, IH. apply orb_true_r.
Qed.

(** A file directly in the directory [dir/]: moving the directory prefix
    gives the new directory followed by the file name, which is also its
    base name. *)
Lemma replace_directory (dir new b : string) :
  Py.contains "/" b = false ->
  Py.replace (dir +:+ "/") new ((dir +:+ "/") +:+ b) = new +:+ b /\
  Py.basename ((dir +:+ "/") +:+ b) = b.
Proof.
  intros Hb. split.
  - assert (Hold : Py.contains "/" (dir +:+ "/") = true)
      by (apply contains_char_app; reflexivity).
    destruct (dir +:+ "/")%string as [|c old] eqn:E.
    { destruct dir; discriminate. }
    unfold Py.replace.
    change (String c old +:+ b)%string with (String c (old +:+ b)).
    cbn [Py.replace_from].
    change (String c (old +:+ b)) with (String c old +:+ b)%string.
    rewrite prefix_app.
    change (Nat.pred (String.length (String c old))) with (String.length old).
    rewrite replace_from_skip.
    now rewrite (replace_from_absent "/" (String c old) new b Hold Hb).
  - unfold Py.basename.
    replace ((dir +:+ "/") +:+ b)%string with (dir +:+ String "/" b)%string.
    + rewrite (split_app_sep "/" dir b), (split_no_sep "/" b Hb).
      now rewrite last_last.
    + induction dir as [|c dir IH]; [reflexivity|].
      change (String c (dir +:+ String "/" b) = String c ((dir +:+ "/") +:+ b)).
      now rewrite IH.
Qed.

(** ** What [sort_files] keeps while it scans *)

Ltac classify_cases H :=
  unfold Sort_files.classify in H;
  repeat match type of H with
         | bind ?m _ = Ok _ =>
             let E := fresh "E" in
             destruct m eqn:E; [cbn [bind] in H | discriminate]
         | (if ?b then _ else _) = Ok _ => let E := fresh "E" in destruct b eqn:E
         end;
  injection H as <-.

Lemma foldM_scan_invariant (tel : profile) (disk : Sort_files.raw_files) (path : string)
    (P : Sort_files.state -> Prop) (Q : string -> Prop) :
  (forall f hdr st st', Q f -> P st ->
     Sort_files.classify tel path f hdr st = Ok st' -> P st') ->
  (forall st evs, P st ->
     P (Sort_files.mkState (Sort_files.cal_list st) (Sort_files.sci_list st)
          (Sort_files.sky_list st) (Sort_files.time_list st) (Sort_files.bad_num st)
          (Sort_files.spec_num st) (Sort_files.file_table st) evs)) ->
  forall files st st',
    Forall Q files -> P st ->
    Py.foldM (Sort_files.scan tel disk path) files st = Ok st' -> P st'.
Proof.
  intros Hclass Hev. induction files as [|f files IH]; intros st st' HQ Hst Hf.
  - simpl in Hf. now injection Hf as <-.
  - cbn [Py.foldM] in Hf. apply bind_Ok in Hf as (st1 & Hscan & Hf).
    inversion HQ as [|? ? Hq HQ']; subst.
    apply (IH st1 st' HQ'); [|exact Hf].
    unfold Sort_files.scan in Hscan.
    destruct (disk !! f) as [file_open|]; [|discriminate].
    destruct (Py.index file_open (raw_header_ext tel)) as [hdr|e].
    + eapply Hclass; eauto.
    + injection Hscan as <-. now apply Hev.
Qed.

Section Groups.

Import Sort_files.

Lemma dict_append_shape {V W : Type} (k : string) (v : V) (w : W)
    (d : list (string * list V)) (d' : list (string * list W)) :
  map (fun p => (fst p, length (snd p))) d = map (fun p => (fst p, length (snd p))) d' ->
  map (fun p => (fst p, length (snd p))) (dict_append k v d) =
  map (fun p => (fst p, length (snd p))) (dict_append k w d').
Proof.
  revert d'. induction d as [|[k1 vs] d IH]; intros [|[k2 ws] d'] H; try discriminate.
  - reflexivity.
  - cbn [map fst snd] in H. injection H as -> Hlen Hrest.
    cbn [dict_append]. destruct (String.eqb k k2); cbn [map fst snd].
    + rewrite !length_app, Hlen, Hrest. reflexivity.
    + rewrite Hlen, (IH d' Hrest). reflexivity.
Qed.

Lemma getitem_shape {V W : Type} (d : list (string * list V)) (d' : list (string * list W))
    (k : string) (vs : list V) :
  map (fun p => (fst p, length (snd p))) d = map (fun p => (fst p, length (snd p))) d' ->
  main_pipeline.getitem d k = Ok vs ->
  exists ws, main_pipeline.getitem d' k = Ok ws /\ length ws = length vs.
Proof.
  revert d'. induction d as [|[k1 v1] d IH]; intros [|[k2 w2] d'] H Hget; try discriminate.
  cbn [map fst snd] in H. injection H as -> Hlen Hrest.
  cbn [main_pipeline.getitem] in *. destruct (String.eqb k k2).
  - injection Hget as <-. eauto.
  - eapply IH; eauto.
Qed.

Lemma dict_append_total {V : Type} (k : string) (v : V) (d : list (string * list V)) :
  length (concat (map snd (dict_append k v d))) = S (length (concat (map snd d))).
Proof.
  induction d as [|[k1 vs] d IH]; [reflexivity|].
  cbn [dict_append]. destruct (String.eqb k k1); cbn [map snd concat].
  - rewrite !length_app. simpl. lia.
  - rewrite !length_app, IH. lia.
Qed.

Lemma files_under_dict_append {V : Type} (k k' : string) (v : V)
    (d : list (string * list V)) :
  files_under (dict_append k v d) k' =
  files_under d k' ++ (if String.eqb k' k then [v] else []).
Proof.
  unfold files_under. induction d as [|[k1 vs] d IH].
  - cbn [dict_append main_pipeline.getitem]. now destruct (String.eqb k' k).
  - cbn [dict_append]. destruct (String.eqb k k1) eqn:E.
    + apply String.eqb_eq in E. subst k1. cbn [main_pipeline.getitem].
      destruct (String.eqb k' k); [reflexivity | now rewrite app_nil_r].
    + cbn [main_pipeline.getitem]. destruct (String.eqb k' k1) eqn:E'; [|exact IH].
      apply String.eqb_eq in E'. subst k1. rewrite String.eqb_sym, E.
      now rewrite app_nil_r.
Qed.

Lemma rows_under_snoc (key : row -> option string) (k : string) (rows : list row) (r : row) :
  rows_under key k (rows ++ [r]) =
  rows_under key k rows ++
  match key r with
  | Some k' => if String.eqb k k' then [r] else []
  | None => []
  end.
Proof.
  unfold rows_under. rewrite List.filter_app. f_equal. cbn [List.filter].
  destruct (key r) as [k'|]; [|reflexivity]. now destruct (String.eqb k k').
Qed.

Lemma moved_row (path f dir : string) :
  directly_in path f ->
  Py.replace path (path +:+ dir) f = (path +:+ dir) +:+ Py.basename f.
Proof.
  intros (d & b & -> & -> & Hb).
  destruct (replace_directory d ((d +:+ "/") +:+ dir) b Hb) as [-> ->]. reflexivity.
Qed.

End Groups.

(** X1: the dictionaries and the table of [sort_files] agree.  When every
    raw file lies directly in the data directory, the list under a key of
    [cal_list], [sci_list] or [sky_list] is the list of the paths of the rows
    of the table with that key, in the order of the table, and the list
    under a key of [time_list] is the list of their times. *)
Theorem dictionaries_agree_with_the_manifest
    (tel : profile) (disk : Sort_files.raw_files) (files : list string) (path : string)
    cal sci sky times moved rows :
  Forall (directly_in path) files ->
  Sort_files.sort_files tel disk files path =
  Ok (cal, sci, sky, times, moved ++ [Sort_files.WriteTable (path +:+ "/file_list.txt") rows]) ->
  forall k,
    files_under cal k = map Sort_files.File (rows_under cal_key k rows) /\
    files_under sci k = map Sort_files.File (rows_under science_key k rows) /\
    files_under sky k = map Sort_files.File (rows_under (sky_key tel) k rows) /\
    map Some (files_under times k) = map Sort_files.Time (rows_under science_key k rows).
Proof.
  intros Hdir H. unfold Sort_files.sort_files in H.
  apply bind_Ok in H as (st & Hst & H). injection H as <- <- <- <- Hevs.
  apply app_inj_tail in Hevs as [_ Hrows]. injection Hrows as <-.
  apply (foldM_scan_invariant tel disk path
           (fun st => forall k,
              files_under (Sort_files.cal_list st) k =
                map Sort_files.File (rows_under cal_key k (Sort_files.file_table st)) /\
              files_under (Sort_files.sci_list st) k =
                map Sort_files.File (rows_under science_key k (Sort_files.file_table st)) /\
              files_under (Sort_files.sky_list st) k =
                map Sort_files.File (rows_under (sky_key tel) k (Sort_files.file_table st)) /\
              map Some (files_under (Sort_files.time_list st) k) =
                map Sort_files.Time (rows_under science_key k (Sort_files.file_table st)))
           (directly_in path)) with (files := files) (st := Sort_files.init);
    [| |exact Hdir| |exact Hst].
  - intros f hdr s s' Hf Hinv Hc. classify_cases Hc; intros k;
      destruct (Hinv k) as (Hcal & Hsci & Hsky & Htime);
      cbn [Sort_files.file_table Sort_files.cal_list Sort_files.sci_list
           Sort_files.sky_list Sort_files.time_list];
      rewrite !rows_under_snoc;
      cbn [cal_key science_key sky_key Sort_files.Type_ Sort_files.File
           Sort_files.Target Sort_files.Filter Sort_files.Exp Sort_files.Time];
      try (destruct (String.eqb (wavelength tel) "NIR"));
      rewrite ?files_under_dict_append, ?map_app, ?app_nil_r,
        ?(moved_row path f _ Hf), <- ?Hcal, <- ?Hsci, <- ?Hsky, <- ?Htime;
      (split; [|split; [|split]]); try reflexivity;
      f_equal; now destruct (String.eqb k _).
  - intros s evs Hinv. exact Hinv.
  - intros k. unfold files_under.
    cbn [Sort_files.init Sort_files.cal_list Sort_files.sci_list Sort_files.sky_list
         Sort_files.time_list Sort_files.file_table main_pipeline.getitem].
    destruct (String.eqb k "BIAS"); repeat split.
Qed.

(** The sample night: the two science frames of SN 2021x. *)
Lemma dictionaries_agree_with_the_manifest_witness :
  exists cal sci sky times moved rows,
    Sort_files.sort_files Sample.optical Sample.night Sample.night_files "data/" =
    Ok (cal, sci, sky, times, moved ++ [Sort_files.WriteTable "data//file_list.txt" rows]) /\
    files_under sci "SN2021x_V_A_1x1" =
      map Sort_files.File (rows_under science_key "SN2021x_V_A_1x1" rows) /\
    files_under sci "SN2021x_V_A_1x1" = ["data/raw/s1.fits"; "data/raw/s2.fits"]%string.
Proof.
  destruct (Sort_files.sort_files Sample.optical Sample.night Sample.night_files "data/")
    as [[[[[cal sci] sky] times] evs]|e] eqn:E; [|vm_compute in E; discriminate].
  assert (Hevs : exists moved rows,
             evs = moved ++ [Sort_files.WriteTable "data//file_list.txt" rows]).
  { vm_compute in E. injection E as _ _ _ _ <-.
    eexists (_ :: _ :: _ :: _ :: _ :: [_]), _. reflexivity. }
  destruct Hevs as (moved & rows & ->).
  exists cal, sci, sky, times, moved, rows. split; [reflexivity|]. split.
  - apply (dictionaries_agree_with_the_manifest Sample.optical Sample.night
             Sample.night_files "data/" cal sci sky times moved rows); [|exact E].
    repeat constructor;
      (exists "data"%string; eexists; split; [reflexivity|]; split; [reflexivity|];
       reflexivity).
  - vm_compute in E. injection E as _ <- _ _ _. reflexivity.
Defined.

(** X2: the science groups and their observation times stay parallel.
    Every key of [sci_list] is a key of [time_list], with as many times as
    files. *)
Theorem sci_list_and_time_list_are_parallel
    (tel : profile) (disk : Sort_files.raw_files) (files : list string) (path : string)
    cal sci sky times evs (tar : string) (group : list string) :
  Sort_files.sort_files tel disk files path = Ok (cal, sci, sky, times, evs) ->
  main_pipeline.getitem sci tar = Ok group ->
  exists group_times,
    main_pipeline.getitem times tar = Ok group_times /\
    length group_times = length group.
Proof.
  intros H Hget. unfold Sort_files.sort_files in H.
  apply bind_Ok in H as (st & Hst & H). injection H as _ <- _ <- _.
  eapply getitem_shape; [|exact Hget].
  apply (foldM_scan_invariant tel disk path
           (fun st => map (fun p => (fst p, length (snd p))) (Sort_files.sci_list st) =
                      map (fun p => (fst p, length (snd p))) (Sort_files.time_list st))
           (fun _ => True)) with (files := files) (st := Sort_files.init);
    [| |apply Forall_true; auto|reflexivity|exact Hst].
  - intros f hdr s s' _ Hinv Hc. classify_cases Hc;
      cbn [Sort_files.sci_list Sort_files.time_list]; try exact Hinv.
    now apply dict_append_shape.
  - intros s evs' Hinv. exact Hinv.
Qed.

Lemma sci_list_and_time_list_are_parallel_witness :
  exists cal sci sky times evs,
    Sort_files.sort_files Sample.optical Sample.night Sample.night_files "data/" =
    Ok (cal, sci, sky, times, evs) /\
    exists group_times,
      main_pipeline.getitem times "SN2021x_V_A_1x1" = Ok group_times /\
      length group_times = 2%nat.
Proof.
  destruct (Sort_files.sort_files Sample.optical Sample.night Sample.night_files "data/")
    as [[[[[cal sci] sky] times] evs]|e] eqn:E; [|vm_compute in E; discriminate].
  exists cal, sci, sky, times, evs. split; [reflexivity|].
  apply (sci_list_and_time_list_are_parallel Sample.optical Sample.night
           Sample.night_files "data/" cal sci sky times evs "SN2021x_V_A_1x1"
           ["data/raw/s1.fits"; "data/raw/s2.fits"]%string E).
  vm_compute in E. injection E as _ <- _ _ _. reflexivity.
Defined.

(** X3: the sky groups hold the science frames of a near-infrared
    instrument, each once, and nothing for any other instrument. *)
Theorem sky_list_holds_the_NIR_science_frames
    (tel : profile) (disk : Sort_files.raw_files) (files : list string) (path : string)
    cal sci sky times evs :
  Sort_files.sort_files tel disk files path = Ok (cal, sci, sky, times, evs) ->
  if String.eqb (wavelength tel) "NIR"
  then length (concat (map snd sky)) = length (concat (map snd sci))
  else sky = [].
Proof.
  intros H. unfold Sort_files.sort_files in H.
  apply bind_Ok in H as (st & Hst & H). injection H as _ <- <- _ _.
  apply (foldM_scan_invariant tel disk path
           (fun st => if String.eqb (wavelength tel) "NIR"
                      then length (concat (map snd (Sort_files.sky_list st))) =
                           length (concat (map snd (Sort_files.sci_list st)))
                      else Sort_files.sky_list st = [])
           (fun _ => True)) with (files := files) (st := Sort_files.init);
    [| |apply Forall_true; auto| |exact Hst].
  - intros f hdr s s' _ Hinv Hc. classify_cases Hc;
      cbn [Sort_files.sci_list Sort_files.sky_list]; try exact Hinv.
    destruct (String.eqb (wavelength tel) "NIR"); [|exact Hinv].
    now rewrite !dict_append_total, Hinv.
  - intros s evs' Hinv. exact Hinv.
  - cbn. now destruct (String.eqb (wavelength tel) "NIR").
Qed.

Lemma sky_list_holds_the_NIR_science_frames_witness :
  (exists cal sci sky times evs,
     Sort_files.sort_files Sample.optical Sample.night Sample.night_files "data/" =
     Ok (cal, sci, sky, times, evs) /\ sky = []) /\
  (exists cal sci sky times evs,
     Sort_files.sort_files Sample.infrared Sample.infrared_night Sample.infrared_files
       "nir/" = Ok (cal, sci, sky, times, evs) /\
     length (concat (map snd sky)) = length (concat (map snd sci)) /\
     sky = [("K_A_1x1", ["nir/raw/s1.fits"; "nir/raw/s2.fits"])]%string).
Proof.
  split.
  - destruct (Sort_files.sort_files Sample.optical Sample.night Sample.night_files "data/")
      as [[[[[cal sci] sky] times] evs]|e] eqn:E; [|vm_compute in E; discriminate].
    exists cal, sci, sky, times, evs. split; [reflexivity|].
    exact (sky_list_holds_the_NIR_science_frames Sample.optical Sample.night
             Sample.night_files "data/" cal sci sky times evs E).
  - destruct (Sort_files.sort_files Sample.infrared Sample.infrared_night
                Sample.infrared_files "nir/")
      as [[[[[cal sci] sky] times] evs]|e] eqn:E; [|vm_compute in E; discriminate].
    exists cal, sci, sky, times, evs. split; [reflexivity|]. split.
    + exact (sky_list_holds_the_NIR_science_frames Sample.infrared Sample.infrared_night
               Sample.infrared_files "nir/" cal sci sky times evs E).
    + vm_compute in E. injection E as _ _ <- _ _. reflexivity.
Defined.

(** ** How many frames the quality gate rejects *)

Section Rejection.

Local Open Scope Q_scope.

Lemma Qlt_bool_iff (a b : Q) : Surd.Qlt_bool a b = true <-> a < b.
Proof. unfold Surd.Qlt_bool. rewrite negb_true_iff. apply Qle_bool_false. Qed.

(** Against a cut that is a rational, [Surd.gtb] is [>]. *)
Lemma gtb_of_Q (x c : Q) : Surd.gtb x (Surd.of_Q c) = true <-> c < x.
Proof.
  unfold Surd.gtb. cbn [Surd.of_Q Surd.base Surd.coef Surd.rad].
  rewrite andb_true_iff, !Qlt_bool_iff. split.
  - intros [H _]. lra.
  - intros H. split; [lra|].
    assert (H0 : 0 < (x - c) * (x - c)) by (apply Qmult_lt_0_compat; lra). lra.
Qed.

(** A value above one that exceeds a cut exceeds it too. *)
Lemma gtb_mono (x y : Q) (s : Surd.t) :
  x <= y -> Surd.gtb x s = true -> Surd.gtb y s = true.
Proof.
  unfold Surd.gtb. rewrite !andb_true_iff, !Qlt_bool_iff.
  intros Hxy [H1 H2]. split; [lra|].
  eapply Qlt_le_trans; [exact H2|].
  apply Qmult_le_compat_nonneg; split; lra.
Qed.

Lemma filter_implied {A : Type} (p q : A -> bool) (l : list A) :
  (forall x, In x l -> p x = true -> q x = true) ->
  List.filter p (List.filter q l) = List.filter p l.
Proof.
  induction l as [|a l IH]; intros H; [reflexivity|].
  cbn [List.filter]. destruct (q a) eqn:Eq.
  - cbn [List.filter]. destruct (p a); rewrite IH; auto; intros; apply H; auto; now right.
  - destruct (p a) eqn:Ep.
    + rewrite (H a) in Eq; [discriminate | now left | exact Ep].
    + apply IH. intros; apply H; auto; now right.
Qed.

(** In a list sorted downwards, at most [k] values exceed the one at
    position [k]. *)
Lemma above_kth (s : list Q) :
  StronglySorted (fun a b => b <= a) s ->
  forall (k : nat) (c : Q), nth_error s k = Some c ->
    (length (List.filter (fun x => Surd.gtb x (Surd.of_Q c)) s) <= k)%nat.
Proof.
  induction 1 as [|a s Hs IH Ha]; intros k c Hk; [destruct k; discriminate|].
  destruct k as [|k]; cbn [nth_error] in Hk.
  - injection Hk as ->.
    rewrite filter_nil_iff; [simpl; lia|].
    intros x Hx. destruct (Surd.gtb x (Surd.of_Q c)) eqn:E; [|reflexivity].
    apply gtb_of_Q in E. rewrite List.Forall_forall in Ha.
    destruct Hx as [<-|Hx]; [lra | specialize (Ha x Hx); lra].
  - cbn [List.filter]. specialize (IH k c Hk).
    destruct (Surd.gtb a (Surd.of_Q c)); simpl; lia.
Qed.

(** The relaxed cut of a metric: fewer values of the metric exceed it than
    the position it was taken from. *)
Lemma relaxed_cut_bound (l : list Q) (k : nat) (c : Q) :
  nth_error (Py.sorted_reverse Qle_bool (quality_check.sigma3_cut l)) k = Some c ->
  (length (List.filter (fun x => Surd.gtb x (Surd.of_Q c)) l) <= k)%nat.
Proof.
  intros Hk.
  assert (Hc : In c (quality_check.sigma3_cut l)).
  { eapply Permutation_in; [apply sorted_perm|]. eapply nth_error_In; exact Hk. }
  apply filter_In in Hc as [_ Hc].
  rewrite <- (filter_implied (fun x => Surd.gtb x (Surd.of_Q c))
                (fun x => Surd.gtb x (quality_check.sigma3 l)) l).
  - fold (quality_check.sigma3_cut l).
    rewrite <- (filter_length_perm _ _ _
                  (sorted_perm (fun a b => Qle_bool b a) (quality_check.sigma3_cut l))).
    apply above_kth; [apply sorted_reverse_Qge | exact Hk].
  - intros x _ Hx. apply gtb_of_Q in Hx.
    apply (gtb_mono c x); [lra | exact Hc].
Qed.

End Rejection.

Lemma passing_sublist {A : Type} (fwhm_cut elong_cut : Surd.t)
    (fwhm elong : list Q) (xs : list A) :
  passing fwhm_cut elong_cut fwhm elong xs `sublist_of` xs.
Proof.
  unfold passing. revert fwhm elong.
  induction xs as [|a xs IH]; intros fwhm elong; [constructor|].
  destruct fwhm as [|x fwhm]; [apply sublist_nil_l|].
  destruct elong as [|y elong]; [apply sublist_nil_l|].
  cbn [combine List.filter].
  destruct (negb (Surd.gtb x fwhm_cut || Surd.gtb y elong_cut)); cbn [map fst].
  - apply sublist_skip, IH.
  - apply sublist_cons, IH.
Qed.

(** Every frame passes or exceeds one of the cuts. *)
Lemma passing_count {A : Type} (fwhm_cut elong_cut : Surd.t)
    (fwhm elong : list Q) (xs : list A) :
  length fwhm = length xs -> length elong = length xs ->
  (length xs <=
   length (passing fwhm_cut elong_cut fwhm elong xs) +
   length (List.filter (fun x => Surd.gtb x fwhm_cut) fwhm) +
   length (List.filter (fun y => Surd.gtb y elong_cut) elong))%nat.
Proof.
  unfold passing. revert fwhm elong.
  induction xs as [|a xs IH]; intros fwhm elong Hf He; [simpl; lia|].
  destruct fwhm as [|x fwhm]; [discriminate|].
  destruct elong as [|y elong]; [discriminate|].
  injection Hf as Hf. injection He as He. specialize (IH fwhm elong Hf He).
  cbn [combine List.filter].
  destruct (Surd.gtb x fwhm_cut), (Surd.gtb y elong_cut); cbn [orb negb map fst length];
    lia.
Qed.

(** X4: the ten-percent cap.  With ten frames or more, whichever cuts the
    gate settles on, at most [floor(N/10)] frames exceed the FWHM cut and at
    most [floor(N/10)] the elongation cut, so that of parallel lists all but
    two tenths pass. *)
Theorem at_most_ten_percent_exceed_a_cut
    (aligned_images : list string) (fwhm elong : list Q) (fwhm_cut elong_cut : Surd.t) :
  1 <= quality_check.ten_percent aligned_images ->
  quality_check.cuts aligned_images fwhm elong = Ok (fwhm_cut, elong_cut) ->
  Z.of_nat (length (List.filter (fun x => Surd.gtb x fwhm_cut) fwhm)) <=
    quality_check.ten_percent aligned_images /\
  Z.of_nat (length (List.filter (fun x => Surd.gtb x elong_cut) elong)) <=
    quality_check.ten_percent aligned_images /\
  (forall aligned_data : list CCDData,
     length fwhm = length aligned_data -> length elong = length aligned_data ->
     Z.of_nat (length aligned_data) - 2 * quality_check.ten_percent aligned_images <=
     Z.of_nat (length (passing fwhm_cut elong_cut fwhm elong aligned_data))).
Proof.
  intros Hcap Hcuts.
  cut (Z.of_nat (length (List.filter (fun x => Surd.gtb x fwhm_cut) fwhm)) <=
         quality_check.ten_percent aligned_images /\
       Z.of_nat (length (List.filter (fun x => Surd.gtb x elong_cut) elong)) <=
         quality_check.ten_percent aligned_images).
  { intros [Hf He]. split; [exact Hf|]. split; [exact He|].
    intros aligned_data Hlf Hle.
    pose proof (passing_count fwhm_cut elong_cut fwhm elong aligned_data Hlf Hle). lia. }
  set (cap := quality_check.ten_percent aligned_images) in *.
  destruct (Z_le_gt_dec (Z.of_nat (length (quality_check.sigma3_cut fwhm))) cap) as [Hf|Hf];
    [destruct (Z_le_gt_dec (Z.of_nat (length (quality_check.sigma3_cut elong))) cap)
       as [He|He]|].
  - rewrite (cuts_3sigma aligned_images fwhm elong Hf He) in Hcuts.
    injection Hcuts as <- <-. split; assumption.
  - rewrite cuts_relaxed in Hcuts by (right; fold cap; lia). fold cap in Hcuts.
    cbv zeta in Hcuts.
    apply bind_Ok in Hcuts as (c1 & H1 & Hcuts). apply bind_Ok in Hcuts as (c2 & H2 & Hcuts).
    injection Hcuts as <- <-.
    replace (cap - 1) with (Z.of_nat (Z.to_nat (cap - 1))) in H1, H2 by lia.
    rewrite index_nat in H1, H2.
    destruct (nth_error _ _) as [x1|] eqn:E1 in H1; [injection H1 as ->|discriminate].
    destruct (nth_error _ _) as [x2|] eqn:E2 in H2; [injection H2 as ->|discriminate].
    pose proof (relaxed_cut_bound fwhm _ _ E1). pose proof (relaxed_cut_bound elong _ _ E2).
    split; lia.
  - rewrite cuts_relaxed in Hcuts by (left; fold cap; lia). fold cap in Hcuts.
    cbv zeta in Hcuts.
    apply bind_Ok in Hcuts as (c1 & H1 & Hcuts). apply bind_Ok in Hcuts as (c2 & H2 & Hcuts).
    injection Hcuts as <- <-.
    replace (cap - 1) with (Z.of_nat (Z.to_nat (cap - 1))) in H1, H2 by lia.
    rewrite index_nat in H1, H2.
    destruct (nth_error _ _) as [x1|] eqn:E1 in H1; [injection H1 as ->|discriminate].
    destruct (nth_error _ _) as [x2|] eqn:E2 in H2; [injection H2 as ->|discriminate].
    pose proof (relaxed_cut_bound fwhm _ _ E1). pose proof (relaxed_cut_bound elong _ _ E2).
    split; lia.
Qed.

(** Sixteen frames, two blurred and one elongated: the cuts are relaxed to
    2 and 2, and no frame exceeds them. *)
Lemma at_most_ten_percent_exceed_a_cut_witness :
  let measure := Sample.measure_of Sample.two_blurred_one_elongated in
  let fwhm := map (fun f => fst (measure f)) (Sample.images 16) in
  let elong := map (fun f => snd (measure f)) (Sample.images 16) in
  Z.of_nat (length (List.filter (fun x => Surd.gtb x (Surd.of_Q 2)) fwhm)) <= 1 /\
  Z.of_nat (length (List.filter (fun x => Surd.gtb x (Surd.of_Q 2)) elong)) <= 1 /\
  16 - 2 * 1 <=
  Z.of_nat (length (passing (Surd.of_Q 2) (Surd.of_Q 2) fwhm elong (Sample.frames 16))).
Proof.
  cbv zeta.
  destruct (at_most_ten_percent_exceed_a_cut (Sample.images 16)
              (map (fun f => fst (Sample.measure_of Sample.two_blurred_one_elongated f))
                 (Sample.images 16))
              (map (fun f => snd (Sample.measure_of Sample.two_blurred_one_elongated f))
                 (Sample.images 16))
              (Surd.of_Q 2) (Surd.of_Q 2)) as (Hf & He & Hp).
  - vm_compute. discriminate.
  - vm_compute. reflexivity.
  - split; [exact Hf|]. split; [exact He|].
    exact (Hp (Sample.frames 16) eq_refl eq_refl).
Defined.

(** X5: what a successful [quality_check] returns.  For parallel lists of
    images and frames, the stack is made of the frames that exceed neither
    cut: a non-empty subsequence of [aligned_data], in the original order. *)
Theorem quality_check_returns_the_passing_frames
    (tel : profile) (measure : string -> Q * Q)
    (aligned_images : list string) (aligned_data stacking_arrays : list CCDData)
    (mid_time : Q) :
  length aligned_data = length aligned_images ->
  quality_check.quality_check tel measure aligned_images aligned_data =
  Ok (stacking_arrays, mid_time) ->
  let fwhm := map (fun f => fst (measure f)) aligned_images in
  let elong := map (fun f => snd (measure f)) aligned_images in
  (exists fwhm_cut elong_cut,
     quality_check.cuts aligned_images fwhm elong = Ok (fwhm_cut, elong_cut) /\
     stacking_arrays = passing fwhm_cut elong_cut fwhm elong aligned_data) /\
  stacking_arrays `sublist_of` aligned_data /\
  stacking_arrays <> [].
Proof.
  intros Hlen Hq fwhm elong. unfold quality_check.quality_check in Hq.
  fold fwhm elong in Hq.
  assert (Hlf : length fwhm = length aligned_images) by (unfold fwhm; apply length_map).
  assert (Hle : length elong = length aligned_images) by (unfold elong; apply length_map).
  apply bind_Ok in Hq as ([fwhm_cut elong_cut] & Hcuts & Hq).
  rewrite (stacking_passing _ _ _ _ _ _ Hlen Hlf Hle) in Hq. cbn [bind] in Hq.
  apply bind_Ok in Hq as (m & Hm & Hq). injection Hq as <- <-.
  split; [exists fwhm_cut, elong_cut; split; [exact Hcuts | reflexivity]|].
  split; [apply passing_sublist|].
  intros Hnil. rewrite Hnil in Hm. vm_compute in Hm. discriminate.
Qed.

(** One blurred frame of sixteen: the other fifteen are stacked. *)
Lemma quality_check_returns_the_passing_frames_witness :
  exists mid_time,
    quality_check.quality_check Sample.optical (Sample.measure_of Sample.one_blurred)
      (Sample.images 16) (Sample.frames 16) = Ok (Sample.frames 15, mid_time) /\
    Sample.frames 15 `sublist_of` Sample.frames 16.
Proof.
  destruct (quality_check.quality_check Sample.optical
              (Sample.measure_of Sample.one_blurred) (Sample.images 16) (Sample.frames 16))
    as [[stacking_arrays mid_time]|e] eqn:E; [|vm_compute in E; discriminate].
  pose proof (quality_check_returns_the_passing_frames Sample.optical
                (Sample.measure_of Sample.one_blurred) (Sample.images 16)
                (Sample.frames 16) stacking_arrays mid_time eq_refl E) as H.
  cbv zeta in H. destruct H as (_ & Hsub & _).
  assert (Hst : stacking_arrays = Sample.frames 15).
  { vm_compute in E. injection E as <- _. reflexivity. }
  subst stacking_arrays. exists mid_time. split; [reflexivity | exact Hsub].
Defined.

(** X6: with no aligned image there is no mid-time: [quality_check] raises
    [IndexError] on [sorted_times[0]]; and so it does whenever the gate
    leaves no frame. *)
Theorem quality_check_of_nothing_raises
    (tel : profile) (measure : string -> Q * Q) (aligned_data : list CCDData) :
  quality_check.quality_check tel measure [] aligned_data = Raise IndexError /\
  forall aligned_images fwhm_cut elong_cut stacking_images,
    quality_check.cuts aligned_images
      (map (fun f => fst (measure f)) aligned_images)
      (map (fun f => snd (measure f)) aligned_images) = Ok (fwhm_cut, elong_cut) ->
    quality_check.stacking aligned_images aligned_data
      (map (fun f => fst (measure f)) aligned_images)
      (map (fun f => snd (measure f)) aligned_images) fwhm_cut elong_cut =
    Ok (stacking_images, []) ->
    quality_check.quality_check tel measure aligned_images aligned_data = Raise IndexError.
Proof.
  split; [reflexivity|].
  intros aligned_images fwhm_cut elong_cut stacking_images Hc Hs.
  unfold quality_check.quality_check. rewrite Hc. cbn [bind]. rewrite Hs. reflexivity.
Qed.

(** ** The calibration stages *)

Lemma foldM_total {S B : Type} (P : S -> Prop) (body : S -> B -> result S) (l : list B) :
  (forall s x, In x l -> P s -> exists s', body s x = Ok s' /\ P s') ->
  forall s, P s -> exists s', Py.foldM body l s = Ok s' /\ P s'.
Proof.
  induction l as [|x l IH]; intros Hbody s Hs.
  - exists s. split; [reflexivity | exact Hs].
  - destruct (Hbody s x (or_introl eq_refl) Hs) as (s1 & H1 & Hs1).
    cbn [Py.foldM]. rewrite H1. cbn [bind].
    apply IH; [|exact Hs1]. intros s' y Hy. apply Hbody. now right.
Qed.

Lemma foldM_app {S B : Type} (body : S -> B -> result S) (l1 l2 : list B) (s : S) :
  Py.foldM body (l1 ++ l2) s = let* s1 := Py.foldM body l1 s in Py.foldM body l2 s1.
Proof.
  revert s. induction l1 as [|x l1 IH]; intros s; [reflexivity|].
  cbn [app Py.foldM]. destruct (body s x) as [s'|e]; cbn [bind]; [apply IH | reflexivity].
Qed.

Lemma index_short {A : Type} (l : list A) (i : Z) :
  Z.of_nat (length l) <= i \/ i < - Z.of_nat (length l) ->
  Py.index l i = Raise IndexError.
Proof.
  intros [H|H]; [now apply index_ge|]. unfold Py.index.
  destruct (Z.ltb_spec i 0) as [_|H0]; [|lia].
  destruct (Z.leb_spec 0 (i + Z.of_nat (length l))) as [H1|_]; [lia | reflexivity].
Qed.

Lemma index_defined {A : Type} (l : list A) (i : Z) :
  - Z.of_nat (length l) <= i < Z.of_nat (length l) -> exists x, Py.index l i = Ok x.
Proof.
  intros H. unfold Py.index.
  destruct (Z.ltb_spec i 0) as [H0|H0].
  - destruct (Z.leb_spec 0 (i + Z.of_nat (length l))) as [_|H1]; [|lia].
    destruct (Z.ltb_spec (i + Z.of_nat (length l)) (Z.of_nat (length l))) as [_|H2]; [|lia].
    cbn [andb]. destruct (nth_error l (Z.to_nat (i + Z.of_nat (length l)))) eqn:E; [eauto|].
    apply nth_error_None in E. lia.
  - destruct (Z.leb_spec 0 i) as [_|H1]; [|lia].
    destruct (Z.ltb_spec i (Z.of_nat (length l))) as [_|H2]; [|lia].
    cbn [andb]. destruct (nth_error l (Z.to_nat i)) eqn:E; [eauto|].
    apply nth_error_None in E. lia.
Qed.

Section Stages.

Import main_pipeline.

Variables (tel : profile) (skip_red : bool) (red_path : string).
Variable cal_list : list (string * list string).

(** The body of the loop of lines 118-137. *)
Let bias_body :=
  fun '(bias_num, w) cal =>
    if Py.contains "BIAS" cal then
      let bias_num := bias_num + 1 in
      let* amp := Py.index (Py.split "_" cal) 1 in
      let* binn := Py.index (Py.split "_" cal) 2 in
      let process_bias :=
        if skip_red
        then negb (os_path_exists (fs w)
                     (red_path +:+ "mbias_" +:+ amp +:+ "_" +:+ binn +:+ ".fits"))
        else true in
      if process_bias
      then Ok (bias_num,
               mkWorld (create_bias tel cal_list cal red_path (fs w))
                       (calls w ++ [CreateBias cal]))
      else Ok (bias_num, w)
    else Ok (bias_num, w).

Lemma bias_loop_without_key (ks : list string) (n : Z) (w : world) :
  (forall k, In k ks -> Py.contains "BIAS" k = false) ->
  Py.foldM bias_body ks (n, w) = Ok (n, w).
Proof.
  induction ks as [|k ks IH]; intros H; [reflexivity|].
  cbn [Py.foldM]. unfold bias_body at 1. rewrite (H k (or_introl eq_refl)). cbn [bind].
  apply IH. intros k' Hk'. apply H. now right.
Qed.

Lemma bias_loop_builds_all (ks : list string) (n : Z) (w : world) :
  skip_red = false ->
  (forall k, In k ks -> Py.contains "BIAS" k = true ->
             (3 <= length (Py.split "_" k))%nat) ->
  exists fs',
    Py.foldM bias_body ks (n, w) =
    Ok (n + Z.of_nat (length (List.filter (Py.contains "BIAS") ks)),
        mkWorld fs' (calls w ++ map CreateBias (List.filter (Py.contains "BIAS") ks))).
Proof.
  intros Hskip. revert n w. induction ks as [|k ks IH]; intros n w H.
  - exists (fs w). cbn. rewrite Z.add_0_r, app_nil_r. now destruct w.
  - cbn [Py.foldM List.filter]. unfold bias_body at 1.
    destruct (Py.contains "BIAS" k) eqn:E.
    + pose proof (H k (or_introl eq_refl) E) as Hlen.
      destruct (index_defined (Py.split "_" k) 1) as [amp ->]; [lia|].
      destruct (index_defined (Py.split "_" k) 2) as [binn ->]; [lia|].
      cbn [bind]. rewrite Hskip. lazy beta iota zeta. cbn [bind].
      destruct (IH (n + 1)
                  (mkWorld (create_bias tel cal_list k red_path (fs w))
                           (calls w ++ [CreateBias k])))
        as [fs' ->]; [intros; apply H; auto; now right|].
      exists fs'. cbn [calls length map]. rewrite <- app_assoc.
      do 2 f_equal. lia.
    + cbn [bind]. destruct (IH n w) as [fs' ->]; [intros; apply H; auto; now right|].
      now exists fs'.
Qed.

End Stages.

(** X7: with bias calibration enabled, a dictionary none of whose keys
    contains ['BIAS'] ends the run with exit status -1, before any dark or
    flat is looked at. *)
Theorem no_bias_key_is_fatal
    (tel : profile) (skip_red use_dome_flats : bool) (flat_path red_path : string)
    (cal_list sci_list sky_list : list (string * list string))
    (w : main_pipeline.world) :
  bias tel = true ->
  (forall k, In k (main_pipeline.keys cal_list) -> Py.contains "BIAS" k = false) ->
  main_pipeline.bias_stage tel skip_red red_path cal_list w = Raise (SystemExit (-1)) /\
  main_pipeline.calibration tel skip_red use_dome_flats flat_path red_path
    cal_list sci_list sky_list w = Raise (SystemExit (-1)).
Proof.
  intros Hb Hkeys.
  assert (H : main_pipeline.bias_stage tel skip_red red_path cal_list w =
              Raise (SystemExit (-1))).
  { unfold main_pipeline.bias_stage. rewrite Hb.
    match goal with
    | |- context [Py.foldM ?b ?l ?s] => replace (Py.foldM b l s) with (Ok s)
    end; [reflexivity|].
    symmetry. exact (bias_loop_without_key tel skip_red red_path cal_list _ 0 w Hkeys). }
  split; [exact H|]. unfold main_pipeline.calibration. now rewrite H.
Qed.

Lemma no_bias_key_is_fatal_witness :
  main_pipeline.calibration Sample.optical false false "data/red/" "data/red/"
    [("FLAT_V_A_1x1", ["data/raw/f1.fits"])]%string
    [("SN2021x_V_A_1x1", ["data/raw/s1.fits"])]%string []
    (main_pipeline.mkWorld ∅ []) = Raise (SystemExit (-1)).
Proof.
  apply (no_bias_key_is_fatal Sample.optical false false "data/red/" "data/red/"
           [("FLAT_V_A_1x1", ["data/raw/f1.fits"])]%string
           [("SN2021x_V_A_1x1", ["data/raw/s1.fits"])]%string []
           (main_pipeline.mkWorld ∅ []) eq_refl).
  intros k [<-|[]]. reflexivity.
Defined.

(** X8: without skip mode, when every key that contains ['BIAS'] has the
    parts [BIAS_amp_binn] and there is at least one such key, the bias stage
    builds a master bias for each of them, in the order of the dictionary,
    and calls nothing else. *)
Theorem bias_stage_builds_every_configuration
    (tel : profile) (red_path : string)
    (cal_list : list (string * list string)) (w : main_pipeline.world) :
  bias tel = true ->
  (forall k, In k (main_pipeline.keys cal_list) -> Py.contains "BIAS" k = true ->
             (3 <= length (Py.split "_" k))%nat) ->
  (exists k, In k (main_pipeline.keys cal_list) /\ Py.contains "BIAS" k = true) ->
  exists fs',
    main_pipeline.bias_stage tel false red_path cal_list w =
    Ok (main_pipeline.mkWorld fs'
          (main_pipeline.calls w ++
           map main_pipeline.CreateBias
             (List.filter (Py.contains "BIAS") (main_pipeline.keys cal_list)))).
Proof.
  intros Hb Hparts (k & Hk & Hbias).
  destruct (bias_loop_builds_all tel false red_path cal_list
              (main_pipeline.keys cal_list) 0 w eq_refl Hparts) as [fs' Hloop].
  exists fs'. unfold main_pipeline.bias_stage. rewrite Hb.
  match goal with
  | |- context [Py.foldM ?b ?l ?s] =>
      replace (Py.foldM b l s) with
        (Ok (0 + Z.of_nat (length (List.filter (Py.contains "BIAS")
                                     (main_pipeline.keys cal_list))),
             main_pipeline.mkWorld fs'
               (main_pipeline.calls w ++
                map main_pipeline.CreateBias
                  (List.filter (Py.contains "BIAS") (main_pipeline.keys cal_list)))))
        by (symmetry; exact Hloop)
  end.
  cbn [bind].
  assert (Hpos : (0 < length (List.filter (Py.contains "BIAS")
                                (main_pipeline.keys cal_list)))%nat).
  { assert (Hin : In k (List.filter (Py.contains "BIAS") (main_pipeline.keys cal_list)))
      by (apply filter_In; auto).
    destruct (List.filter _ _); [contradiction | simpl; lia]. }
  destruct (Z.eqb_spec (0 + Z.of_nat (length (List.filter (Py.contains "BIAS")
                                                (main_pipeline.keys cal_list)))) 0);
    [lia | reflexivity].
Qed.

Lemma bias_stage_builds_every_configuration_witness :
  exists fs',
    main_pipeline.bias_stage Sample.optical false "data/red/"
      [("BIAS_A_1x1", ["data/raw/b1.fits"]); ("FLAT_V_A_1x1", ["data/raw/f1.fits"]);
       ("BIAS_B_2x2", ["data/raw/b2.fits"])]%string (main_pipeline.mkWorld ∅ []) =
    Ok (main_pipeline.mkWorld fs'
          [main_pipeline.CreateBias "BIAS_A_1x1"; main_pipeline.CreateBias "BIAS_B_2x2"]).
Proof.
  apply (bias_stage_builds_every_configuration Sample.optical "data/red/"
           [("BIAS_A_1x1", ["data/raw/b1.fits"]); ("FLAT_V_A_1x1", ["data/raw/f1.fits"]);
            ("BIAS_B_2x2", ["data/raw/b2.fits"])]%string (main_pipeline.mkWorld ∅ []) eq_refl).
  - intros k [<-|[<-|[<-|[]]]] H; vm_compute; try lia; discriminate.
  - exists "BIAS_A_1x1"%string. split; [now left | reflexivity].
Defined.

(** X9: without science groups the calibration never hands over to the
    reduction: it ends with an exception, which is the exit of line 244 when
    the three stages went through. *)
Theorem no_science_is_fatal
    (tel : profile) (skip_red use_dome_flats : bool) (flat_path red_path : string)
    (cal_list sky_list : list (string * list string)) (w : main_pipeline.world) :
  exists e,
    main_pipeline.calibration tel skip_red use_dome_flats flat_path red_path
      cal_list [] sky_list w = Raise e /\
    ((exists w', main_pipeline.bias_stage tel skip_red red_path cal_list w = Ok w' /\
        exists w'', main_pipeline.dark_stage tel skip_red red_path cal_list w' = Ok w'' /\
          exists w3, main_pipeline.flat_stage tel skip_red use_dome_flats flat_path
                       red_path cal_list sky_list w'' = Ok w3) ->
     e = SystemExit (-1)).
Proof.
  unfold main_pipeline.calibration.
  destruct (main_pipeline.bias_stage tel skip_red red_path cal_list w) as [w1|e1] eqn:E1;
    cbn [bind].
  2:{ exists e1. split; [reflexivity|]. intros (w' & H & _). discriminate. }
  destruct (main_pipeline.dark_stage tel skip_red red_path cal_list w1) as [w2|e2] eqn:E2;
    cbn [bind].
  2:{ exists e2. split; [reflexivity|]. intros (w' & H & w'' & H' & _).
      injection H as <-. rewrite E2 in H'. discriminate. }
  destruct (main_pipeline.flat_stage tel skip_red use_dome_flats flat_path red_path
              cal_list sky_list w2) as [w3|e3] eqn:E3; cbn [bind].
  2:{ exists e3. split; [reflexivity|]. intros (w' & H & w'' & H' & w3 & H3).
      injection H as <-. rewrite E2 in H'. injection H' as <-.
      rewrite E3 in H3. discriminate. }
  exists (SystemExit (-1)). split; reflexivity.
Qed.

(** ** Keys and their parts *)

Lemma np_all_map_missing {A : Type} (p : A -> bool) (l : list A) :
  Py.np_all (map p l) = false -> exists x, In x l /\ p x = false.
Proof.
  unfold Py.np_all. induction l as [|x l IH]; [discriminate|].
  cbn [map forallb]. destruct (p x) eqn:E.
  - intros H. destruct (IH H) as (y & Hy & Hp). exists y. split; [now right | exact Hp].
  - intros _. exists x. split; [now left | exact E].
Qed.

Lemma foldM_skip {S B : Type} (body : S -> B -> result S) (l : list B) (s : S) :
  (forall x, In x l -> body s x = Ok s) -> Py.foldM body l s = Ok s.
Proof.
  induction l as [|x l IH]; intros H; [reflexivity|].
  cbn [Py.foldM]. rewrite (H x (or_introl eq_refl)). cbn [bind].
  apply IH. intros y Hy. apply H. now right.
Qed.

(** Three successive parts of a key with fewer than [n + 3] parts: one of
    the three indexings raises. *)
Lemma three_parts_raise {A : Type} (l : list string) (n : Z) (k : string -> string -> string -> result A) :
  0 <= n -> Z.of_nat (length l) < n + 3 ->
  (let* a := Py.index l n in
   let* b := Py.index l (n + 1) in
   let* c := Py.index l (n + 2) in k a b c) = Raise IndexError.
Proof.
  intros Hn Hlen.
  destruct (Py.index l n) as [a|e] eqn:Ea; cbn [bind];
    [|now rewrite (index_raises _ _ _ Ea)].
  destruct (Py.index l (n + 1)) as [b|e] eqn:Eb; cbn [bind];
    [|now rewrite (index_raises _ _ _ Eb)].
  rewrite index_ge by lia. reflexivity.
Qed.

(** X10: a key that contains ['DARK'] and has fewer than the four parts
    [DARK_exp_amp_binn] makes the dark stage raise [IndexError], when no
    earlier key contains ['DARK']: so do the keys ['DARK_' + exp] of
    [sort_files] for an exposure written without ['_']. *)
Theorem dark_key_without_configuration_raises
    (tel : profile) (skip_red : bool) (red_path : string)
    (cal_list : list (string * list string)) (w : main_pipeline.world)
    (pre post : list string) (k : string) :
  dark tel = true ->
  main_pipeline.keys cal_list = pre ++ k :: post ->
  (forall k', In k' pre -> Py.contains "DARK" k' = false) ->
  Py.contains "DARK" k = true ->
  (length (Py.split "_" k) < 4)%nat ->
  main_pipeline.dark_stage tel skip_red red_path cal_list w = Raise IndexError.
Proof.
  intros Hd Hkeys Hpre Hk Hlen. unfold main_pipeline.dark_stage.
  rewrite Hd, Hkeys, foldM_app.
  rewrite (foldM_skip _ pre w) by (intros x Hx; now rewrite (Hpre x Hx)).
  cbn [bind Py.foldM]. rewrite Hk.
  rewrite (three_parts_raise (Py.split "_" k) 1) by lia. reflexivity.
Qed.

(** The dark frame of the near-infrared night gets the key ['DARK_30']. *)
Lemma dark_key_without_configuration_raises_witness :
  exists cal sci sky times evs,
    Sort_files.sort_files Sample.infrared Sample.infrared_night Sample.infrared_files
      "nir/" = Ok (cal, sci, sky, times, evs) /\
    main_pipeline.keys cal = ["BIAS"; "DARK_30"]%string /\
    main_pipeline.dark_stage Sample.infrared false "nir/red/" cal
      (main_pipeline.mkWorld ∅ []) = Raise IndexError.
Proof.
  destruct (Sort_files.sort_files Sample.infrared Sample.infrared_night
              Sample.infrared_files "nir/")
    as [[[[[cal sci] sky] times] evs]|e] eqn:E; [|vm_compute in E; discriminate].
  assert (Hkeys : main_pipeline.keys cal = ["BIAS"; "DARK_30"]%string).
  { vm_compute in E. injection E as <- _ _ _ _. reflexivity. }
  exists cal, sci, sky, times, evs. split; [reflexivity|]. split; [exact Hkeys|].
  apply (dark_key_without_configuration_raises Sample.infrared false "nir/red/" cal
           (main_pipeline.mkWorld ∅ []) ["BIAS"%string] [] "DARK_30" eq_refl Hkeys).
  - intros k' [<-|[]]. reflexivity.
  - reflexivity.
  - vm_compute. lia.
Defined.



(** ** The head of the science loop *)

(** X12: a science key with fewer than three parts separated by ['_']
    raises [IndexError] on [tar.split('_')[-3]], whatever the options. *)
Theorem science_key_without_configuration_raises
    (tel : profile) (stacked_image : string -> string -> list string) (run_wcs : bool)
    (input_target : option string) (skip_red : bool)
    (flat_path red_path : string) (fs : filesystem) (tar : string) :
  (length (Py.split "_" tar) < 3)%nat ->
  main_pipeline.science_group tel stacked_image run_wcs input_target skip_red
    flat_path red_path fs tar = Raise IndexError.
Proof.
  intros Hlen. unfold main_pipeline.science_group.
  destruct (index_defined (Py.split "_" tar) 0) as [target ->].
  { pose proof (split_nonempty "_" tar). destruct (Py.split "_" tar); [congruence|].
    simpl. lia. }
  cbn [bind]. rewrite (index_short (Py.split "_" tar) (-3)) by lia. reflexivity.
Qed.

(** The key of target GRB21 in filter K. *)
Lemma science_key_without_configuration_raises_witness :
  main_pipeline.science_group Sample.infrared (fun tar red_path => [red_path +:+ tar])
    true None false "nir/red/" "nir/red/" ∅ "GRB21_K" = Raise IndexError.
Proof.
  apply science_key_without_configuration_raises. vm_compute. lia.
Defined.

(** X13: a group is reduced only with its calibration at hand.  When the
    plan is to reduce, the key matches the requested target, the master
    bias was loaded if the instrument has one, every master-flat file is on
    disk, and in skip mode some final stack is missing. *)
Theorem reduction_needs_its_masters
    (tel : profile) (stacked_image : string -> string -> list string) (run_wcs : bool)
    (input_target : option string) (skip_red : bool)
    (flat_path red_path : string) (fs : filesystem) (tar : string)
    (mbias : option CCDData) (master_flat final_stack : list string) :
  main_pipeline.science_group tel stacked_image run_wcs input_target skip_red
    flat_path red_path fs tar = Ok (main_pipeline.Reduce mbias master_flat final_stack) ->
  (forall t, input_target = Some t -> Py.contains t tar = true) /\
  (bias tel = true -> mbias <> None) /\
  (bias tel = false -> mbias = None) /\
  (forall mf, In mf master_flat -> main_pipeline.os_path_exists fs mf = true) /\
  (skip_red = true ->
   exists st, In st final_stack /\ main_pipeline.os_path_exists fs st = false).
Proof.
  intros H. unfold main_pipeline.science_group in H.
  apply bind_Ok in H as (target & _ & H). apply bind_Ok in H as (fil & _ & H).
  apply bind_Ok in H as (amp & _ & H). apply bind_Ok in H as (binn & _ & H).
  destruct (negb _) eqn:Esel in H; [discriminate|]. apply negb_false_iff in Esel.
  destruct (if skip_red then _ else true) eqn:Eproc in H; [|discriminate].
  assert (Hflat : forall m,
    (if negb (Py.np_all (map (main_pipeline.os_path_exists fs)
                           (flat_name tel flat_path fil amp binn)))
     then Ok main_pipeline.NoMasterFlat
     else Ok (main_pipeline.Reduce m (flat_name tel flat_path fil amp binn)
                (if run_wcs then map (Py.replace ".fits" "_wcs.fits")
                                   (stacked_image tar red_path)
                 else stacked_image tar red_path))) =
    Ok (main_pipeline.Reduce mbias master_flat final_stack) ->
    m = mbias /\
    (forall mf, In mf master_flat -> main_pipeline.os_path_exists fs mf = true) /\
    final_stack = (if run_wcs then map (Py.replace ".fits" "_wcs.fits")
                                     (stacked_image tar red_path)
                   else stacked_image tar red_path)).
  { intros m Hm. destruct (negb _) eqn:Eall in Hm; [discriminate|].
    injection Hm as <- <- <-. apply negb_false_iff in Eall.
    split; [reflexivity|]. split; [|reflexivity]. now apply np_all_map_true. }
  assert (Hskip : skip_red = true ->
            exists st, In st (if run_wcs then map (Py.replace ".fits" "_wcs.fits")
                                               (stacked_image tar red_path)
                              else stacked_image tar red_path) /\
                       main_pipeline.os_path_exists fs st = false).
  { intros ->. apply negb_true_iff in Eproc. now apply np_all_map_missing in Eproc. }
  split.
  { intros t ->. exact Esel. }
  destruct (bias tel) eqn:Eb.
  - destruct (load_bias tel fs red_path amp binn) as [m|] eqn:El; [|discriminate].
    destruct (Hflat (Some m) H) as (<- & Hmf & ->).
    split; [discriminate|]. split; [discriminate|]. split; [exact Hmf | exact Hskip].
  - destruct (Hflat None H) as (<- & Hmf & ->).
    split; [discriminate|]. split; [reflexivity|]. split; [exact Hmf | exact Hskip].
Qed.

(** The group of SN2021x with master bias and master flat on disk. *)
Lemma reduction_needs_its_masters_witness :
  let fs : filesystem :=
    <["data/red/mbias_A_1x1.fits"%string := 1%nat]>
      (<["data/red/mflat_V_A_1x1.fits"%string := 1%nat]> ∅) in
  main_pipeline.science_group Sample.optical (fun tar red_path => [red_path +:+ tar +:+ ".fits"])
    true None true "data/red/" "data/red/" fs "SN2021x_V_A_1x1" =
  Ok (main_pipeline.Reduce (Some (mkCCD [] ∅)) ["data/red/mflat_V_A_1x1.fits"%string]
        ["data/red/SN2021x_V_A_1x1_wcs.fits"%string]) /\
  main_pipeline.os_path_exists fs "data/red/mflat_V_A_1x1.fits" = true /\
  main_pipeline.os_path_exists fs "data/red/SN2021x_V_A_1x1_wcs.fits" = false.
Proof.
  cbv zeta.
  assert (E : main_pipeline.science_group Sample.optical
                (fun tar red_path => [red_path +:+ tar +:+ ".fits"])
                true None true "data/red/" "data/red/"
                (<["data/red/mbias_A_1x1.fits"%string := 1%nat]>
                   (<["data/red/mflat_V_A_1x1.fits"%string := 1%nat]> ∅))
                "SN2021x_V_A_1x1" =
              Ok (main_pipeline.Reduce (Some (mkCCD [] ∅))
                    ["data/red/mflat_V_A_1x1.fits"%string]
                    ["data/red/SN2021x_V_A_1x1_wcs.fits"%string]))
    by (vm_compute; reflexivity).
  split; [exact E|].
  destruct (reduction_needs_its_masters _ _ _ _ _ _ _ _ _ _ _ _ E)
    as (_ & _ & _ & Hmf & Hst).
  split; [apply Hmf; now left|].
  destruct (Hst eq_refl) as (st & [<-|[]] & Hmiss). exact Hmiss.
Defined.

(** ** The flat stage as a whole *)

Section FlatSources.

Variables (tel : profile) (skip_red use_dome_flats : bool) (flat_path red_path : string).
Variables (cal_list sky_list : list (string * list string)) (w : main_pipeline.world).

Let grown (w' : main_pipeline.world) : Prop :=
  exists built,
    main_pipeline.calls w' = main_pipeline.calls w ++ built /\
    Forall (flat_source tel use_dome_flats cal_list sky_list) built.

Lemma grown_refl : grown w.
Proof. exists []. rewrite app_nil_r. auto. Qed.

Lemma grown_step (s : main_pipeline.world) (nfs : filesystem) (c : main_pipeline.call) :
  grown s -> flat_source tel use_dome_flats cal_list sky_list c ->
  grown (main_pipeline.mkWorld nfs (main_pipeline.calls s ++ [c])).
Proof.
  intros (built & Hc & Hb) Hsrc. exists (built ++ [c]). cbn [main_pipeline.calls].
  rewrite Hc, <- app_assoc. split; [reflexivity|].
  apply Forall_app. split; [exact Hb|]. constructor; auto.
Qed.

Lemma flat_cal_grown (s s' : main_pipeline.world) (cal : string) :
  grown s ->
  main_pipeline.flat_cal tel skip_red use_dome_flats flat_path red_path cal_list s cal =
  Ok s' ->
  grown s'.
Proof.
  intros Hs H. unfold main_pipeline.flat_cal in H.
  destruct (Py.contains "FLAT" cal) eqn:Ec; [|now injection H as <-].
  apply bind_Ok in H as (fil & _ & H). apply bind_Ok in H as (amp & _ & H).
  apply bind_Ok in H as (binn & _ & H).
  destruct (main_pipeline.process_flat _ _ _ _ _ _ _); [|now injection H as <-].
  assert (Hbuild : forall mbias,
    (if String.eqb (wavelength tel) "OPT" then
       let* flat_list := main_pipeline.getitem cal_list cal in
       Ok (main_pipeline.mkWorld
             (create_flat tel flat_list fil amp binn red_path mbias (main_pipeline.fs s))
             (main_pipeline.calls s ++ [main_pipeline.CreateFlat flat_list fil amp binn]))
     else if String.eqb (wavelength tel) "NIR" then
       if use_dome_flats then
         let* flat_list := main_pipeline.getitem cal_list cal in
         Ok (main_pipeline.mkWorld
               (create_flat tel flat_list fil amp binn red_path mbias (main_pipeline.fs s))
               (main_pipeline.calls s ++ [main_pipeline.CreateFlat flat_list fil amp binn]))
       else Ok s
     else Ok s) = Ok s' -> grown s').
  { intros mbias Hb.
    destruct (String.eqb (wavelength tel) "OPT") eqn:Eo.
    - apply bind_Ok in Hb as (flat_list & Hget & Hb). injection Hb as <-.
      apply grown_step; [exact Hs|]. exists cal, flat_list, fil, amp, binn.
      split; [reflexivity|]. apply String.eqb_eq in Eo. rewrite Eo. cbn. auto.
    - destruct (String.eqb (wavelength tel) "NIR") eqn:En; [|now injection Hb as <-].
      assert (Hd : use_dome_flats = true \/ use_dome_flats = false)
        by (clear; destruct use_dome_flats; auto).
      destruct Hd as [Hd|Hd]; rewrite Hd in Hb; [|now injection Hb as <-].
      apply bind_Ok in Hb as (flat_list & Hget & Hb). injection Hb as <-.
      apply grown_step; [exact Hs|]. exists cal, flat_list, fil, amp, binn.
      split; [reflexivity|]. rewrite En, Hd. cbn. auto. }
  destruct (bias tel); [destruct (load_bias tel _ _ _ _)|]; eauto.
  now injection H as <-.
Qed.

Lemma flat_sky_grown (s s' : main_pipeline.world) (fil_list : string) :
  String.eqb (wavelength tel) "NIR" && negb use_dome_flats = true ->
  grown s ->
  main_pipeline.flat_sky tel skip_red flat_path red_path sky_list s fil_list = Ok s' ->
  grown s'.
Proof.
  intros Hnir Hs H. unfold main_pipeline.flat_sky in H.
  apply bind_Ok in H as (fil & _ & H). apply bind_Ok in H as (amp & _ & H).
  apply bind_Ok in H as (binn & _ & H).
  destruct (main_pipeline.process_flat _ _ _ _ _ _ _); [|now injection H as <-].
  assert (Hbuild : forall mbias,
    (let* flat_list := main_pipeline.getitem sky_list fil_list in
     Ok (main_pipeline.mkWorld
           (create_flat tel flat_list fil amp binn red_path mbias (main_pipeline.fs s))
           (main_pipeline.calls s ++ [main_pipeline.CreateFlat flat_list fil amp binn])))
    = Ok s' -> grown s').
  { intros mbias Hb. apply bind_Ok in Hb as (flat_list & Hget & Hb). injection Hb as <-.
    apply grown_step; [exact Hs|]. exists fil_list, flat_list, fil, amp, binn.
    split; [reflexivity|]. rewrite Hnir. exact Hget. }
  destruct (bias tel); [destruct (load_bias tel _ _ _ _)|]; eauto.
  now injection H as <-.
Qed.

End FlatSources.

(** X14: the master flats of a run have one source.  All the flat stage
    does is to add calls of [create_flat]; for a near-infrared instrument
    without dome flats every one of them is given the science frames of a
    key of [sky_list], and the flats of [cal_list] are never used; in every
    other case every one is given the frames of a key of [cal_list] that
    contains ['FLAT']. *)
Theorem master_flats_have_one_source
    (tel : profile) (skip_red use_dome_flats : bool) (flat_path red_path : string)
    (cal_list sky_list : list (string * list string)) (w w' : main_pipeline.world) :
  main_pipeline.flat_stage tel skip_red use_dome_flats flat_path red_path
    cal_list sky_list w = Ok w' ->
  exists built,
    main_pipeline.calls w' = main_pipeline.calls w ++ built /\
    Forall (flat_source tel use_dome_flats cal_list sky_list) built.
Proof.
  intros H. unfold main_pipeline.flat_stage in H.
  destruct (flat tel); [|injection H as <-; apply grown_refl].
  apply bind_Ok in H as (w1 & H1 & H).
  assert (G1 : exists built,
             main_pipeline.calls w1 = main_pipeline.calls w ++ built /\
             Forall (flat_source tel use_dome_flats cal_list sky_list) built).
  { revert H1.
    apply (foldM_invariant
             (fun s => exists built,
                main_pipeline.calls s = main_pipeline.calls w ++ built /\
                Forall (flat_source tel use_dome_flats cal_list sky_list) built));
      [|apply grown_refl].
    intros s x s' Hs Hb. eapply flat_cal_grown; eassumption. }
  destruct (String.eqb (wavelength tel) "NIR" && negb use_dome_flats) eqn:Enir;
    [|now injection H as <-].
  revert H.
  apply (foldM_invariant
             (fun s => exists built,
                main_pipeline.calls s = main_pipeline.calls w ++ built /\
                Forall (flat_source tel use_dome_flats cal_list sky_list) built));
    [|exact G1].
  intros s x s' Hs Hb. eapply flat_sky_grown; eassumption.
Qed.

(** The near-infrared instrument with a dome flat and a sky list: the one
    master flat is built from the science frames. *)
Lemma master_flats_have_one_source_witness :
  let cal_list := [("BIAS", []); ("FLAT_K_A_1x1", ["nir/raw/f1.fits"])]%string in
  let sky_list := [("K_A_1x1", ["nir/raw/s1.fits"; "nir/raw/s2.fits"])]%string in
  exists w',
    main_pipeline.flat_stage Sample.infrared false false "nir/red/" "nir/red/"
      cal_list sky_list (main_pipeline.mkWorld ∅ []) = Ok w' /\
    main_pipeline.calls w' =
    [main_pipeline.CreateFlat ["nir/raw/s1.fits"; "nir/raw/s2.fits"]%string "K" "A" "1x1"] /\
    exists built,
      main_pipeline.calls w' = [] ++ built /\
      Forall (flat_source Sample.infrared false cal_list sky_list) built.
Proof.
  cbv zeta.
  destruct (main_pipeline.flat_stage Sample.infrared false false "nir/red/" "nir/red/"
              [("BIAS", []); ("FLAT_K_A_1x1", ["nir/raw/f1.fits"])]%string
              [("K_A_1x1", ["nir/raw/s1.fits"; "nir/raw/s2.fits"])]%string
              (main_pipeline.mkWorld ∅ [])) as [w'|e] eqn:E;
    [|vm_compute in E; discriminate].
  exists w'. split; [reflexivity|]. split.
  - vm_compute in E. injection E as <-. reflexivity.
  - exact (master_flats_have_one_source _ _ _ _ _ _ _ _ _ E).
Defined.

(** ** Errors of [sort_files] *)

(** X15: a readable frame whose header lacks the target keyword stops
    [sort_files] with [KeyError], however many frames were sorted before
    it: the frames after it are not looked at and no table is written. *)
Theorem frame_without_target_raises_KeyError
    (tel : profile) (disk : Sort_files.raw_files) (path : string)
    (pre post : list string) (f : string) (file_open : list header) (hdr : header)
    cal sci sky times evs :
  Sort_files.sort_files tel disk pre path = Ok (cal, sci, sky, times, evs) ->
  disk !! f = Some file_open ->
  Py.index file_open (raw_header_ext tel) = Ok hdr ->
  hdr !! target_keyword tel = None ->
  Sort_files.sort_files tel disk (pre ++ f :: post) path = Raise KeyError.
Proof.
  intros H Hdisk Hidx Hnone. unfold Sort_files.sort_files in *.
  apply bind_Ok in H as (st & Hst & _).
  rewrite foldM_app, Hst. cbn [bind Py.foldM]. unfold Sort_files.scan at 1.
  rewrite Hdisk, Hidx. unfold Sort_files.classify, Sort_files.getitem.
  rewrite Hnone. reflexivity.
Qed.

(** After the bias of the sample night, a frame without [OBJECT]. *)
Lemma frame_without_target_raises_KeyError_witness :
  let disk : Sort_files.raw_files :=
    <["data/n1.fits"%string := Sample.raw_file (<["OBSTYPE"%string := Str "OBJECT"]> ∅)]>
      Sample.night in
  Sort_files.sort_files Sample.optical disk
    ["data/b1.fits"; "data/n1.fits"; "data/s1.fits"]%string "data/" = Raise KeyError.
Proof.
  cbv zeta.
  destruct (Sort_files.sort_files Sample.optical
              (<["data/n1.fits"%string :=
                   Sample.raw_file (<["OBSTYPE"%string := Str "OBJECT"]> ∅)]> Sample.night)
              ["data/b1.fits"%string] "data/")
    as [[[[[cal sci] sky] times] evs]|e] eqn:E; [|vm_compute in E; discriminate].
  apply (frame_without_target_raises_KeyError Sample.optical _ "data/"
           ["data/b1.fits"%string] ["data/s1.fits"%string] "data/n1.fits"
           (Sample.raw_file (<["OBSTYPE"%string := Str "OBJECT"]> ∅))
           (<["OBSTYPE"%string := Str "OBJECT"]> ∅) cal sci sky times evs E).
  - reflexivity.
  - reflexivity.
  - reflexivity.
Defined.

(** ** Headers on which [sort_files] returns *)

Lemma mapM_total {A B : Type} (f : A -> result B) (l : list A) :
  (forall x, In x l -> exists y, f x = Ok y) -> exists ys, Py.mapM f l = Ok ys.
Proof.
  induction l as [|x l IH]; intros H; [now exists []|].
  destruct (H x (or_introl eq_refl)) as (y & Hy).
  destruct IH as (ys & Hys); [intros z Hz; apply H; now right|].
  exists (y :: ys). cbn [Py.mapM]. rewrite Hy. cbn [bind]. rewrite Hys. reflexivity.
Qed.

Lemma range_len_bounds {A : Type} (l : list A) (j : Z) :
  In j (Sort_files.range_len l) -> 0 <= j < Z.of_nat (length l).
Proof.
  unfold Sort_files.range_len. intros H. apply in_map_iff in H as (n & <- & Hn).
  apply in_seq in Hn. lia.
Qed.

Lemma index_keyword {A : Type} (l : list A) (j : Z) :
  0 <= j < Z.of_nat (length l) -> exists x, Py.index l j = Ok x /\ In x l.
Proof.
  intros H. destruct (index_in_range l j H) as (x & Hx & Hn).
  exists x. split; [exact Hx|]. eapply nth_error_In; eassumption.
Qed.

Lemma all_equal_total (hdr : header) (keyword files : list string) :
  (length keyword <= length files)%nat ->
  (forall k, In k keyword -> exists v, hdr !! k = Some v) ->
  exists b, Sort_files.all_equal hdr keyword files = Ok b.
Proof.
  intros Hlen Hk. unfold Sort_files.all_equal.
  destruct (mapM_total
              (fun j => let* k := Py.index keyword j in
                        let* v := Sort_files.getitem hdr k in
                        let* f := Py.index files j in
                        Ok (Sort_files.card_eq_str v f))
              (Sort_files.range_len keyword)) as (bs & Hbs).
  - intros j Hj. apply range_len_bounds in Hj.
    destruct (index_keyword keyword j Hj) as (k & -> & Hin). cbn [bind].
    destruct (Hk k Hin) as (v & Hv). unfold Sort_files.getitem. rewrite Hv. cbn [bind].
    destruct (index_keyword files j) as (f & -> & _); [lia|]. cbn [bind]. eauto.
  - rewrite Hbs. cbn [bind]. eauto.
Qed.

Lemma all_contained_total (hdr : header) (keyword files : list string) :
  (length keyword <= length files)%nat ->
  (forall k, In k keyword -> exists s, hdr !! k = Some (Str s)) ->
  exists b, Sort_files.all_contained hdr keyword files = Ok b.
Proof.
  intros Hlen Hk. unfold Sort_files.all_contained.
  destruct (mapM_total
              (fun j => let* f := Py.index files j in
                        let* k := Py.index keyword j in
                        let* v := Sort_files.getitem hdr k in
                        Sort_files.str_in_card f v)
              (Sort_files.range_len keyword)) as (bs & Hbs).
  - intros j Hj. apply range_len_bounds in Hj.
    destruct (index_keyword files j) as (f & -> & _); [lia|]. cbn [bind].
    destruct (index_keyword keyword j Hj) as (k & -> & Hin). cbn [bind].
    destruct (Hk k Hin) as (s & Hs). unfold Sort_files.getitem. rewrite Hs. cbn [bind].
    cbn. eauto.
  - rewrite Hbs. cbn [bind]. eauto.
Qed.

Lemma classify_total (tel : profile) (path f : string) (hdr : header)
    (st : Sort_files.state) :
  parallel_profile tel -> complete_header tel hdr ->
  exists st', Sort_files.classify tel path f hdr st = Ok st'.
Proof.
  intros (Lf & Ls & Lb & Ld & Lp) ((target & Ht) & Hflat & Hkeys).
  unfold Sort_files.classify, Sort_files.getitem. rewrite Ht. cbn [bind Sort_files.card_replace].
  assert (Hf : exists b,
             (if negb (length (flat_keyword tel) =? 0)%nat
              then Sort_files.all_contained hdr (flat_keyword tel) (flat_files tel)
              else Ok false) = Ok b).
  { destruct (negb _); [|eauto]. now apply all_contained_total. }
  destruct Hf as (is_flat & ->). cbn [bind]. destruct is_flat; [eauto|].
  destruct (all_equal_total hdr (science_keyword tel) (science_files tel) Ls)
    as (is_science & ->).
  { intros k Hk. apply Hkeys. apply in_or_app. now left. }
  cbn [bind]. destruct is_science; [eauto|].
  assert (Hb : exists b,
             (if negb (length (bias_keyword tel) =? 0)%nat
              then Sort_files.all_equal hdr (bias_keyword tel) (bias_files tel)
              else Ok false) = Ok b).
  { destruct (negb _); [|eauto]. apply all_equal_total; [exact Lb|].
    intros k Hk. apply Hkeys. apply in_or_app. right. apply in_or_app. now left. }
  destruct Hb as (is_bias & ->). cbn [bind]. destruct is_bias; [eauto|].
  assert (Hd : exists b,
             (if negb (length (dark_keyword tel) =? 0)%nat
              then Sort_files.all_equal hdr (dark_keyword tel) (dark_files tel)
              else Ok false) = Ok b).
  { destruct (negb _); [|eauto]. apply all_equal_total; [exact Ld|].
    intros k Hk. apply Hkeys. apply in_or_app. right. apply in_or_app. right.
    apply in_or_app. now left. }
  destruct Hd as (is_dark & ->). cbn [bind]. destruct is_dark; [eauto|].
  destruct (all_equal_total hdr (spec_keyword tel) (spec_files tel) Lp)
    as (is_spec & ->).
  { intros k Hk. apply Hkeys. apply in_or_app. right. apply in_or_app. right.
    apply in_or_app. now right. }
  cbn [bind]. destruct is_spec; eauto.
Qed.

(** X16: the headers on which [sort_files] returns.  When every file opens,
    every header it reads holds the target keyword and the flat keywords as
    strings and the other keywords of the parameter file, and no list of
    values is shorter than its list of keywords, [sort_files] raises nothing
    and returns its four dictionaries. *)
Theorem sort_files_returns_on_complete_headers
    (tel : profile) (disk : Sort_files.raw_files) (files : list string) (path : string) :
  parallel_profile tel ->
  (forall f, In f files ->
     exists file_open, disk !! f = Some file_open /\
       forall hdr, Py.index file_open (raw_header_ext tel) = Ok hdr ->
                   complete_header tel hdr) ->
  exists cal sci sky times evs,
    Sort_files.sort_files tel disk files path = Ok (cal, sci, sky, times, evs).
Proof.
  intros Hpar Hfiles. unfold Sort_files.sort_files.
  destruct (foldM_total (fun _ => True) (Sort_files.scan tel disk path) files)
    with (s := Sort_files.init) as (st & -> & _); [|exact I|cbn [bind]; eauto 10].
  intros s f Hf _. destruct (Hfiles f Hf) as (file_open & Hopen & Hhdr).
  unfold Sort_files.scan. rewrite Hopen.
  destruct (Py.index file_open (raw_header_ext tel)) as [hdr|e]; [|eauto].
  destruct (classify_total tel path f hdr s Hpar (Hhdr hdr eq_refl)) as (st' & ->). eauto.
Qed.

(** The sample night at the optical instrument. *)
Lemma sort_files_returns_on_complete_headers_witness :
  exists cal sci sky times evs,
    Sort_files.sort_files Sample.optical Sample.night Sample.night_files "data/" =
    Ok (cal, sci, sky, times, evs).
Proof.
  apply sort_files_returns_on_complete_headers.
  - unfold parallel_profile. cbn. lia.
  - assert (Hc : forall obstype object fil exp mjd,
               complete_header Sample.optical (Sample.raw_header obstype object fil exp mjd)).
    { intros. split; [|split].
      - exists object. reflexivity.
      - intros k [<-|[]]. exists obstype. reflexivity.
      - intros k Hk. cbn in Hk. exists (Str obstype).
        destruct Hk as [<-|[<-|[<-|[<-|[]]]]]; reflexivity. }
    assert (Hidx : forall h hdr,
               Py.index (Sample.raw_file h) (raw_header_ext Sample.optical) = Ok hdr ->
               hdr = h).
    { intros h hdr H. now injection H as <-. }
    assert (Hfile : forall f obstype object fil exp mjd,
               Sample.night !! f =
               Some (Sample.raw_file (Sample.raw_header obstype object fil exp mjd)) ->
               exists file_open, Sample.night !! f = Some file_open /\
                 forall hdr, Py.index file_open (raw_header_ext Sample.optical) = Ok hdr ->
                             complete_header Sample.optical hdr).
    { intros f obstype object fil exp mjd Hf. eexists. split; [exact Hf|].
      intros hdr Hhdr. rewrite (Hidx _ _ Hhdr). apply Hc. }
    intros f Hf. cbn in Hf. destruct Hf as [<-|[<-|[<-|[<-|[<-|[<-|[]]]]]]].
    + apply (Hfile _ "BIAS" "bias" "V_A_1x1" "0" 1%Q). vm_compute. reflexivity.
    + exists [∅]. split; [vm_compute; reflexivity|].
      intros hdr Hhdr. vm_compute in Hhdr. discriminate.
    + apply (Hfile _ "FLAT" "flat" "V_A_1x1" "5" 2%Q). vm_compute. reflexivity.
    + apply (Hfile _ "OBJECT" "SN 2021x" "V_A_1x1" "60" 3%Q). vm_compute. reflexivity.
    + apply (Hfile _ "OBJECT" "SN 2021x" "V_A_1x1" "60" 4%Q). vm_compute. reflexivity.
    + apply (Hfile _ "FOCUS" "focus" "V_A_1x1" "1" 5%Q). vm_compute. reflexivity.
Defined.
